(** * ai_sprint: the coordination plane, embedded and verified

    A shallow embedding of the parts of [ai_sprint] that keep the shared
    state consistent: the SQLite state store of
    [services/state_manager.py] (tasks, convoys, events, features), the
    convoy allocator of [services/convoy_allocator.py], the heartbeat
    and the sweeps of [services/health_monitor.py], the gate runner of
    [services/quality_gates.py], and the methods of the agents that
    write to the store: [core/cab.py], [core/developer.py],
    [core/refinery.py], [core/tester.py] and [core/manager.py].

    Every table has a TEXT primary key, so a table is a finite map from
    the key to the remaining columns.  A function that receives the
    connection [conn] becomes a computation in the monad [M]: it reads
    and writes the database and may raise one of the exceptions that the
    source lets escape.  Every helper of the source commits before it
    returns, so the database carried by a raised exception is the one
    left by the statements that ran before it.

    Two values come from outside and are parameters of the functions
    that use them: [now], the text that [datetime('now')] (or
    [datetime.now().isoformat()]) yields at the call, and [uuid], the
    identifier that [uuid.uuid4()] draws for a new event.  A function
    that reads the clock more than once, as the sweeps do for every row
    they mark, is given one reading for the whole call.  Columns of
    type TEXT are strings and are compared the way SQLite and Python
    compare them, byte by byte. *)

From Stdlib Require Import ZArith List Bool Ascii String Sorted.
From stdpp Require Import gmap strings list fin_maps sorting pretty.

Local Open Scope string_scope.
Local Open Scope Z_scope.

(** ** Rows of the five tables (SCHEMA_SQL)

    A nullable column is an [option]; [files] and [dependencies] hold
    the JSON array that [json.dumps] stored, already parsed. *)

Record Feature := mkFeature {
  f_name : string;
  f_spec_path : string;
  f_status : string;
  f_created_at : string;
  f_started_at : option string;
  f_completed_at : option string
}.

Record Convoy := mkConvoy {
  c_feature_id : string;
  c_story : string;
  c_priority : string;
  c_status : string;
  c_files : list string;
  c_dependencies : option (list string);
  c_assignee : option string;
  c_created_at : string;
  c_started_at : option string;
  c_completed_at : option string
}.

Record Task := mkTask {
  t_convoy_id : string;
  t_title : string;
  t_description : string;
  t_file_path : string;
  t_status : string;
  t_priority : string;
  t_assignee : option string;
  t_acceptance_criteria : string;
  t_validation_results : option string;
  t_failure_reason : option string;
  t_failure_count : Z;
  t_created_at : string;
  t_started_at : option string;
  t_completed_at : option string
}.

(** The values a payload dictionary of the source holds. *)
Inductive json :=
| JStr (s : string)
| JInt (n : Z)
| JBool (b : bool)
| JNull.

Record Event := mkEvent {
  e_agent_id : string;
  e_event_type : string;
  e_payload : list (string * json);
  e_status : string;
  e_created_at : string;
  e_processed_at : option string
}.

Record AgentSession := mkAgentSession {
  s_agent_type : string;
  s_convoy_id : option string;
  s_current_task : option string;
  s_worktree : option string;
  s_status : string;
  s_last_heartbeat : string;
  s_started_at : string;
  s_crashed_at : option string
}.

Record DB := mkDB {
  features : gmap string Feature;
  convoys : gmap string Convoy;
  tasks : gmap string Task;
  events : gmap string Event;
  agent_sessions : gmap string AgentSession
}.

Definition empty_db : DB := mkDB ∅ ∅ ∅ ∅ ∅.

Definition with_features (db : DB) (m : gmap string Feature) : DB :=
  mkDB m (convoys db) (tasks db) (events db) (agent_sessions db).
Definition with_convoys (db : DB) (m : gmap string Convoy) : DB :=
  mkDB (features db) m (tasks db) (events db) (agent_sessions db).
Definition with_tasks (db : DB) (m : gmap string Task) : DB :=
  mkDB (features db) (convoys db) m (events db) (agent_sessions db).
Definition with_events (db : DB) (m : gmap string Event) : DB :=
  mkDB (features db) (convoys db) (tasks db) m (agent_sessions db).
Definition with_agent_sessions (db : DB) (m : gmap string AgentSession) : DB :=
  mkDB (features db) (convoys db) (tasks db) (events db) m.

(** ** The monad of database computations *)

Inductive exn :=
| IntegrityError (msg : string)
| ValueError (msg : string).

Inductive outcome (A : Type) :=
| Return (a : A)
| Raise (e : exn).
Arguments Return {A} a.
Arguments Raise {A} e.

Definition M (A : Type) : Type := DB -> outcome A * DB.

Definition ret {A} (a : A) : M A := fun db => (Return a, db).
Definition raise {A} (e : exn) : M A := fun db => (Raise e, db).
Definition bind {A B} (m : M A) (k : A -> M B) : M B :=
  fun db =>
    match m db with
    | (Return a, db') => k a db'
    | (Raise e, db') => (Raise e, db')
    end.
Definition query {A} (q : DB -> A) : M A := fun db => (Return (q db), db).
Definition execute (w : DB -> DB) : M unit := fun db => (Return tt, w db).

Notation "'let!' x ':=' m 'in' k" := (bind m (fun x => k))
  (at level 10, x name, m at level 100, k at level 200, only parsing).
Notation "'run' m 'then' k" := (bind m (fun _ => k))
  (at level 10, m at level 100, k at level 200, only parsing).

(** Python truthiness of an [Optional[str]] argument: [None] and the
    empty string are both false. *)
Definition truthy (o : option string) : bool :=
  match o with
  | Some s => negb (String.eqb s "")
  | None => false
  end.

(** The CHECK constraints of the status columns that receive a status
    passed by the caller. *)
Definition member (s : string) (l : list string) : bool :=
  existsb (String.eqb s) l.

Definition FEATURE_STATUSES : list string :=
  ["ready"; "in_progress"; "done"; "failed"].
Definition CONVOY_STATUSES : list string :=
  ["available"; "in_progress"; "done"; "blocked"].
Definition TASK_STATUSES : list string :=
  ["todo"; "in_progress"; "in_review"; "in_tests"; "in_docs"; "done"].

(** ** Query helpers: ORDER BY and LIMIT *)

(** ORDER BY and Python's [sorted] are modelled by a stable insertion
    sort on a boolean "less or equal".  Rows with equal keys keep the
    order in which the table lists them, which stands for the order
    SQLite leaves unspecified. *)
Fixpoint insert_by {A} (le : A -> A -> bool) (x : A) (l : list A) : list A :=
  match l with
  | [] => [x]
  | y :: l' => if le x y then x :: l else y :: insert_by le x l'
  end.

Definition sort_by {A} (le : A -> A -> bool) (l : list A) : list A :=
  foldr (insert_by le) [] l.

(** SQLite's LIMIT: a negative bound means no bound at all. *)
Definition sql_limit {A} (n : Z) (l : list A) : list A :=
  if n <? 0 then l else take (Z.to_nat n) l.

(** Python's order on a pair of strings, the key of [sorted] in the
    allocator. *)
Definition pair_leb (k1 k2 : string * string) : bool :=
  String.ltb k1.1 k2.1 || (String.eqb k1.1 k2.1 && String.leb k1.2 k2.2).

Module StateManager.

(** *** Features (T027) *)

Definition set_feature_status (now status : string) (f : Feature) : Feature :=
  mkFeature (f_name f) (f_spec_path f) status (f_created_at f)
    (if String.eqb status "in_progress" then Some now else f_started_at f)
    (if String.eqb status "in_progress" then f_completed_at f
     else if member status ["done"; "failed"] then Some now else f_completed_at f).

(** An UPDATE that matches no row changes nothing; one that would store
    a status outside the CHECK list raises [sqlite3.IntegrityError]. *)
Definition update_feature_status (now feature_id status : string) : M unit :=
  fun db =>
    match features db !! feature_id with
    | None => (Return tt, db)
    | Some _ =>
        if member status FEATURE_STATUSES
        then (Return tt,
              with_features db (alter (set_feature_status now status) feature_id (features db)))
        else (Raise (IntegrityError "CHECK constraint failed: status"), db)
    end.

(** *** Convoys (T028) *)

(** [create_convoy]: a plain INSERT.  The only rejections are those of
    the schema: the primary key, the foreign key to [features]
    (PRAGMA foreign_keys=ON) and the CHECK on [status]. *)
Definition create_convoy (now convoy_id feature_id story priority : string)
    (files : list string) (dependencies : option (list string))
    (status : string) : M unit :=
  fun db =>
    match convoys db !! convoy_id with
    | Some _ => (Raise (IntegrityError "UNIQUE constraint failed: convoys.id"), db)
    | None =>
        match features db !! feature_id with
        | None => (Raise (IntegrityError "FOREIGN KEY constraint failed"), db)
        | Some _ =>
            if member status CONVOY_STATUSES
            then (Return tt,
                  with_convoys db
                    (<[convoy_id :=
                         mkConvoy feature_id story priority status files
                           (Some (default [] dependencies)) None now None None]>
                       (convoys db)))
            else (Raise (IntegrityError "CHECK constraint failed: status"), db)
        end
    end.

Definition get_convoy (convoy_id : string) : M (option Convoy) :=
  query (fun db => convoys db !! convoy_id).

Definition set_convoy_status (now status : string) (assignee : option string)
    (c : Convoy) : Convoy :=
  mkConvoy (c_feature_id c) (c_story c) (c_priority c) status (c_files c)
    (c_dependencies c) assignee (c_created_at c)
    (if String.eqb status "in_progress" then Some now else c_started_at c)
    (if String.eqb status "in_progress" then c_completed_at c
     else if String.eqb status "done" then Some now else c_completed_at c).

Definition update_convoy_status (now convoy_id status : string)
    (assignee : option string) : M unit :=
  fun db =>
    match convoys db !! convoy_id with
    | None => (Return tt, db)
    | Some _ =>
        if member status CONVOY_STATUSES
        then (Return tt,
              with_convoys db
                (alter (set_convoy_status now status assignee) convoy_id (convoys db)))
        else (Raise (IntegrityError "CHECK constraint failed: status"), db)
    end.

Definition by_priority (r1 r2 : string * Convoy) : bool :=
  String.leb (c_priority r1.2) (c_priority r2.2).

(** The two SELECTs of [list_convoys_by_feature]; the rows come back
    with their id. *)
Definition select_convoys (feature_id : string) (status : option string) (db : DB)
  : list (string * Convoy) :=
  if truthy status
  then sort_by by_priority
         (filter (fun r => String.eqb (c_feature_id r.2) feature_id
                           && bool_decide (Some (c_status r.2) = status))
                 (map_to_list (convoys db)))
  else sort_by by_priority
         (filter (fun r => String.eqb (c_feature_id r.2) feature_id)
                 (map_to_list (convoys db))).

Definition list_convoys_by_feature (feature_id : string) (status : option string)
  : M (list (string * Convoy)) :=
  query (select_convoys feature_id status).

(** *** Tasks (T029) *)

Definition get_task (task_id : string) : M (option Task) :=
  query (fun db => tasks db !! task_id).

Definition claimed (now assignee : string) (t : Task) : Task :=
  mkTask (t_convoy_id t) (t_title t) (t_description t) (t_file_path t)
    "in_progress" (t_priority t) (Some assignee) (t_acceptance_criteria t)
    (t_validation_results t) (t_failure_reason t) (t_failure_count t)
    (t_created_at t) (Some now) (t_completed_at t).

(** [claim_task_atomic]: BEGIN IMMEDIATE, read the row, then either
    UPDATE and commit or roll back.  [now] is [datetime('now')]. *)
Definition claim_task_atomic (now task_id assignee : string) : M bool :=
  fun db =>
    match tasks db !! task_id with
    | None => (Return false, db)
    | Some row =>
        if String.eqb (t_status row) "todo" && bool_decide (t_assignee row = None)
        then (Return true, with_tasks db (alter (claimed now assignee) task_id (tasks db)))
        else (Return false, db)
    end.

(** The row written by [update_task_status]: the status, the assignee
    when one is given, and the timestamp column that goes with the
    status. *)
Definition set_task_status (now status : string) (assignee : option string)
    (t : Task) : Task :=
  mkTask (t_convoy_id t) (t_title t) (t_description t) (t_file_path t)
    status (t_priority t)
    (if truthy assignee then assignee else t_assignee t)
    (t_acceptance_criteria t) (t_validation_results t) (t_failure_reason t)
    (t_failure_count t) (t_created_at t)
    (if String.eqb status "in_progress" then Some now else t_started_at t)
    (if String.eqb status "in_progress" then t_completed_at t
     else if String.eqb status "done" then Some now else t_completed_at t).

Definition update_task_status (now task_id status : string)
    (assignee : option string) : M unit :=
  fun db =>
    match tasks db !! task_id with
    | None => (Return tt, db)
    | Some _ =>
        if member status TASK_STATUSES
        then (Return tt,
              with_tasks db (alter (set_task_status now status assignee) task_id (tasks db)))
        else (Raise (IntegrityError "CHECK constraint failed: status"), db)
    end.

Definition failed_once (failure_reason : string) (t : Task) : Task :=
  mkTask (t_convoy_id t) (t_title t) (t_description t) (t_file_path t)
    (t_status t) (t_priority t) (t_assignee t) (t_acceptance_criteria t)
    (t_validation_results t) (Some failure_reason) (t_failure_count t + 1)
    (t_created_at t) (t_started_at t) (t_completed_at t).

Definition increment_task_failure_count (task_id failure_reason : string) : M Z :=
  run execute (fun db =>
        with_tasks db (alter (failed_once failure_reason) task_id (tasks db))) then
  let! row := query (fun db => tasks db !! task_id) in
  ret (match row with Some t => t_failure_count t | None => 0 end).

Definition by_task_created_at (r1 r2 : string * Task) : bool :=
  String.leb (t_created_at r1.2) (t_created_at r2.2).

(** The two SELECTs of [list_tasks_by_convoy]. *)
Definition select_tasks (convoy_id : string) (status : option string) (db : DB)
  : list (string * Task) :=
  if truthy status
  then sort_by by_task_created_at
         (filter (fun r => String.eqb (t_convoy_id r.2) convoy_id
                           && bool_decide (Some (t_status r.2) = status))
                 (map_to_list (tasks db)))
  else sort_by by_task_created_at
         (filter (fun r => String.eqb (t_convoy_id r.2) convoy_id)
                 (map_to_list (tasks db))).

Definition list_tasks_by_convoy (convoy_id : string) (status : option string)
  : M (list (string * Task)) :=
  query (select_tasks convoy_id status).

(** *** The event queue (T030) *)

(** [publish_event]: [uuid] is the value drawn by [uuid.uuid4()], [now]
    the default of [created_at].  The id is the primary key. *)
Definition publish_event (now uuid agent_id event_type : string)
    (payload : list (string * json)) : M string :=
  fun db =>
    match events db !! uuid with
    | Some _ => (Raise (IntegrityError "UNIQUE constraint failed: events.id"), db)
    | None =>
        (Return uuid,
         with_events db
           (<[uuid := mkEvent agent_id event_type payload "pending" now None]> (events db)))
    end.

Definition by_event_created_at (r1 r2 : string * Event) : bool :=
  String.leb (e_created_at r1.2) (e_created_at r2.2).

Definition processing (e : Event) : Event :=
  mkEvent (e_agent_id e) (e_event_type e) (e_payload e) "processing"
    (e_created_at e) (e_processed_at e).

(** The SELECT of [consume_events]. *)
Definition pending_events (agent_id : string) (limit : Z) (db : DB)
  : list (string * Event) :=
  sql_limit limit
    (sort_by by_event_created_at
       (filter (fun r => String.eqb (e_agent_id r.2) agent_id
                         && String.eqb (e_status r.2) "pending")
               (map_to_list (events db)))).

(** [consume_events]: inside one immediate transaction, read the rows
    and flip every id that was read; the rows are returned as read. *)
Definition consume_events (agent_id : string) (limit : Z)
  : M (list (string * Event)) :=
  fun db =>
    let rows := pending_events agent_id limit db in
    let event_ids := rows.*1 in
    (Return rows,
     with_events db (foldr (fun id m => alter processing id m) (events db) event_ids)).

Definition acknowledged (now : string) (success : bool) (e : Event) : Event :=
  mkEvent (e_agent_id e) (e_event_type e) (e_payload e)
    (if success then "done" else "failed")
    (e_created_at e) (Some now).

Definition acknowledge_event (now event_id : string) (success : bool) : M unit :=
  execute (fun db =>
    with_events db (alter (acknowledged now success) event_id (events db))).

(** *** The task state machine (T041) *)

Definition VALID_TASK_TRANSITIONS : list (string * list string) :=
  [ ("todo", ["in_progress"]);
    ("in_progress", ["in_review"; "todo"]);
    ("in_review", ["in_tests"; "in_progress"]);
    ("in_tests", ["in_docs"; "in_progress"]);
    ("in_docs", ["done"; "in_progress"]);
    ("done", []) ].

(** [d.get(key, default)] on a dictionary written as its item list. *)
Fixpoint dict_get {V} (d : list (string * V)) (key : string) (default : V) : V :=
  match d with
  | [] => default
  | (k, v) :: d' => if String.eqb k key then v else dict_get d' key default
  end.

Definition validate_task_transition (from_status to_status : string) : bool :=
  member to_status (dict_get VALID_TASK_TRANSITIONS from_status []).

Definition transition_task_status (now task_id to_status : string) : M bool :=
  let! task := get_task task_id in
  match task with
  | None => ret false
  | Some t =>
      let from_status := t_status t in
      if negb (validate_task_transition from_status to_status)
      then ret false
      else run update_task_status now task_id to_status None then ret true
  end.

(** *** Rejection (T042) *)

Definition reject_task (now uuid task_id reason rejecting_agent : string) : M unit :=
  let! task := get_task task_id in
  match task with
  | None => ret tt
  | Some _ =>
      let! failure_count := increment_task_failure_count task_id reason in
      run transition_task_status now task_id "in_progress" then
      if 3 <=? failure_count
      then run publish_event now uuid "manager" "ESCALATE_TASK"
                 [("task_id", JStr task_id); ("failure_count", JInt failure_count)]
           then ret tt
      else ret tt
  end.

(** *** Completion detection (T043, T044) *)

Definition check_convoy_completion (now convoy_id : string) : M bool :=
  let! tasks := list_tasks_by_convoy convoy_id None in
  match tasks with
  | [] => ret false
  | _ =>
      let all_done := forallb (fun r => String.eqb (t_status r.2) "done") tasks in
      run (if all_done then update_convoy_status now convoy_id "done" None else ret tt)
      then ret all_done
  end.

Definition check_feature_completion (now feature_id : string) : M bool :=
  let! convoys := list_convoys_by_feature feature_id None in
  match convoys with
  | [] => ret false
  | _ =>
      let all_done := forallb (fun r => String.eqb (c_status r.2) "done") convoys in
      run (if all_done then update_feature_status now feature_id "done" else ret tt)
      then ret all_done
  end.

(** *** File overlap validation (T052) *)

Record Conflict := mkConflict {
  convoy_id : string;
  convoy_status : string;
  overlapping_files : list string
}.

(** [set(proposed_files) & set(convoy_files)] *)
Definition overlap (proposed_files convoy_files : list string) : gset string :=
  list_to_set proposed_files ∩ list_to_set convoy_files.

Definition conflict_of (proposed_files : list string) (r : string * Convoy)
  : option Conflict :=
  if String.eqb (c_status r.2) "done" then None
  else
    let overlapping := overlap proposed_files (c_files r.2) in
    if bool_decide (overlapping = ∅) then None
    else Some (mkConflict r.1 (c_status r.2) (elements overlapping)).

Definition check_file_overlap (feature_id : string) (proposed_files : list string)
  : M (list Conflict) :=
  let! convoys := list_convoys_by_feature feature_id None in
  ret (omap (conflict_of proposed_files) convoys).

(** The one-character string [\n]. *)
Definition nl : string := String (Ascii.ascii_of_nat 10) EmptyString.

Definition conflict_line (conflict : Conflict) : string :=
  "  - Convoy " ++ convoy_id conflict ++ ": "
    ++ String.concat ", " (overlapping_files conflict) ++ nl.

Definition conflict_message (feature_id : string) (conflicts : list Conflict) : string :=
  fold_left (fun error_msg conflict => error_msg ++ conflict_line conflict) conflicts
    ("File conflicts detected for feature " ++ feature_id ++ ":" ++ nl).

Definition validate_no_file_conflicts (feature_id : string)
    (proposed_files : list string) : M unit :=
  let! conflicts := check_file_overlap feature_id proposed_files in
  match conflicts with
  | [] => ret tt
  | _ => raise (ValueError (conflict_message feature_id conflicts))
  end.

(** *** Convoy file tracking (T054) *)

Definition set_convoy_files (files : list string) (c : Convoy) : Convoy :=
  mkConvoy (c_feature_id c) (c_story c) (c_priority c) (c_status c) files
    (c_dependencies c) (c_assignee c) (c_created_at c) (c_started_at c)
    (c_completed_at c).

Definition update_convoy_files (convoy_id : string) (files : list string) : M unit :=
  execute (fun db =>
    with_convoys db (alter (set_convoy_files files) convoy_id (convoys db))).

(** *** The rest of the CRUD layer *)

(** [create_feature]: a plain INSERT; the schema rejects a taken id and
    a status outside the CHECK list. *)
Definition create_feature (now feature_id name spec_path status : string) : M unit :=
  fun db =>
    match features db !! feature_id with
    | Some _ => (Raise (IntegrityError "UNIQUE constraint failed: features.id"), db)
    | None =>
        if member status FEATURE_STATUSES
        then (Return tt,
              with_features db
                (<[feature_id := mkFeature name spec_path status now None None]>
                   (features db)))
        else (Raise (IntegrityError "CHECK constraint failed: status"), db)
    end.


Definition by_feature_created_at (r1 r2 : string * Feature) : bool :=
  String.leb (f_created_at r1.2) (f_created_at r2.2).

Definition select_features (status : string) (db : DB) : list (string * Feature) :=
  sort_by by_feature_created_at
    (filter (fun r => String.eqb (f_status r.2) status) (map_to_list (features db))).

Definition list_features_by_status (status : string) : M (list (string * Feature)) :=
  query (select_features status).


(** The rows that [get_pending_event_count] counts. *)
Definition pending_rows (agent_id : string) (db : DB) : list (string * Event) :=
  filter (fun r => String.eqb (e_agent_id r.2) agent_id
                   && String.eqb (e_status r.2) "pending")
         (map_to_list (events db)).

Definition get_pending_event_count (agent_id : string) : M Z :=
  query (fun db => Z.of_nat (length (pending_rows agent_id db))).

(** *** Feature cleanup (T044) *)


(** *** Whole-feature overlap check (T053) *)

(** [file_map[file_path].append(convoy_id)], creating the entry when
    the file is new. *)
Definition file_map_add (convoy_id : string) (file_map : gmap string (list string))
    (file_path : string) : gmap string (list string) :=
  <[file_path := (default [] (file_map !! file_path) ++ [convoy_id])%list]> file_map.

Definition file_map_of (convoys : list (string * Convoy)) : gmap string (list string) :=
  foldl (fun file_map convoy => foldl (file_map_add convoy.1) file_map (c_files convoy.2))
        ∅ convoys.

Definition validate_convoy_files_no_overlap (feature_id : string) : M bool :=
  let! convoys := list_convoys_by_feature feature_id None in
  let file_map := file_map_of convoys in
  let conflicts :=
    filter (fun entry : string * list string => (1 < length entry.2)%nat) file_map in
  if bool_decide (conflicts = ∅) then ret true else ret false.

(** *** Adding and removing single files (T054) *)

Definition get_convoy_files (convoy_id : string) : M (list string) :=
  query (fun db =>
    match convoys db !! convoy_id with
    | None => []
    | Some convoy => c_files convoy
    end).

(** Python's [list.remove]: the first occurrence goes. *)
Fixpoint list_remove (x : string) (l : list string) : list string :=
  match l with
  | [] => []
  | y :: l' => if String.eqb y x then l' else y :: list_remove x l'
  end.

Definition add_file_to_convoy (convoy_id file_path : string) : M unit :=
  let! files := get_convoy_files convoy_id in
  if negb (member file_path files)
  then update_convoy_files convoy_id (files ++ [file_path])%list
  else ret tt.

Definition remove_file_from_convoy (convoy_id file_path : string) : M unit :=
  let! files := get_convoy_files convoy_id in
  if member file_path files
  then update_convoy_files convoy_id (list_remove file_path files)
  else ret tt.

End StateManager.

Module ConvoyAllocator.

(** *** Dependency validation (T056)

    The source returns [False] at the first dependency that is missing
    or not done; the function only reads, so the loop is the
    conjunction over the list. *)
Definition dependency_done (db : DB) (dep_id : string) : bool :=
  match convoys db !! dep_id with
  | None => false
  | Some dep_convoy => String.eqb (c_status dep_convoy) "done"
  end.

Definition dependencies_met (db : DB) (convoy_id : string) : bool :=
  match convoys db !! convoy_id with
  | None => false
  | Some convoy =>
      match c_dependencies convoy with
      | None => true
      | Some dependencies => forallb (dependency_done db) dependencies
      end
  end.

Definition check_convoy_dependencies_met (convoy_id : string) : M bool :=
  query (fun db => dependencies_met db convoy_id).

(** *** FIFO allocation (T055) *)

Definition allocation_key (r : string * Convoy) : string * string :=
  (c_priority r.2, c_created_at r.2).

Definition by_allocation_key (r1 r2 : string * Convoy) : bool :=
  pair_leb (allocation_key r1) (allocation_key r2).

Definition allocate_next_convoy (now feature_id agent_id : string)
  : M (option string) :=
  let! convoys := StateManager.list_convoys_by_feature feature_id (Some "available") in
  match sort_by by_allocation_key convoys with
  | [] => ret None
  | convoy :: _ =>
      let convoy_id := convoy.1 in
      let! met := check_convoy_dependencies_met convoy_id in
      if negb met then ret None
      else
        run StateManager.update_convoy_status now convoy_id "in_progress" (Some agent_id)
        then ret (Some convoy_id)
  end.

(** *** Block and unblock sweeps *)

Fixpoint block_loop (now : string) (convoys : list (string * Convoy)) (count : Z)
  : M Z :=
  match convoys with
  | [] => ret count
  | convoy :: rest =>
      let! met := check_convoy_dependencies_met convoy.1 in
      if negb met
      then run StateManager.update_convoy_status now convoy.1 "blocked" None
           then block_loop now rest (count + 1)
      else block_loop now rest count
  end.

Definition update_blocked_convoys_status (now feature_id : string) : M Z :=
  let! convoys := StateManager.list_convoys_by_feature feature_id (Some "available") in
  block_loop now convoys 0.

Fixpoint unblock_loop (now : string) (blocked_convoys : list (string * Convoy))
    (count : Z) : M Z :=
  match blocked_convoys with
  | [] => ret count
  | convoy :: rest =>
      let! met := check_convoy_dependencies_met convoy.1 in
      if met
      then run StateManager.update_convoy_status now convoy.1 "available" None
           then unblock_loop now rest (count + 1)
      else unblock_loop now rest count
  end.

Definition unblock_dependent_convoys (now completed_convoy_id : string) : M Z :=
  let! completed_convoy := StateManager.get_convoy completed_convoy_id in
  match completed_convoy with
  | None => ret 0
  | Some completed =>
      let feature_id := c_feature_id completed in
      let! blocked_convoys :=
        StateManager.list_convoys_by_feature feature_id (Some "blocked") in
      unblock_loop now blocked_convoys 0
  end.

(** *** Reporting blocked convoys *)

Record BlockedConvoy := mkBlockedConvoy {
  convoy_id : string;
  blocked_by : list string
}.

(** A dependency that exists and is not done. *)
Definition blocking (db : DB) (dep_id : string) : bool :=
  match convoys db !! dep_id with
  | Some dep_convoy => negb (String.eqb (c_status dep_convoy) "done")
  | None => false
  end.

Definition blocked_entry (db : DB) (convoy : string * Convoy) : option BlockedConvoy :=
  if negb (dependencies_met db convoy.1)
  then
    let dependencies := default [] (c_dependencies convoy.2) in
    let blocking_deps := List.filter (blocking db) dependencies in
    match blocking_deps with
    | [] => None
    | _ => Some (mkBlockedConvoy convoy.1 blocking_deps)
    end
  else None.

Definition get_blocked_convoys (feature_id : string) : M (list BlockedConvoy) :=
  let! convoys := StateManager.list_convoys_by_feature feature_id (Some "available") in
  query (fun db => omap (blocked_entry db) convoys).

End ConvoyAllocator.

Module HealthMonitor.

Definition beat (now : string) (s : AgentSession) : AgentSession :=
  mkAgentSession (s_agent_type s) (s_convoy_id s) (s_current_task s)
    (s_worktree s) (s_status s) now (s_started_at s) (s_crashed_at s).

(** [record_heartbeat]: UPDATE ... WHERE agent_id = ? AND status =
    'active'; [now] is [datetime.now().isoformat()]. *)
Definition record_heartbeat (now agent_id : string) : M unit :=
  execute (fun db =>
    with_agent_sessions db
      (alter (fun s => if String.eqb (s_status s) "active" then beat now s else s)
             agent_id (agent_sessions db))).


Definition with_status (status : string) (s : AgentSession) : AgentSession :=
  mkAgentSession (s_agent_type s) (s_convoy_id s) (s_current_task s)
    (s_worktree s) status (s_last_heartbeat s) (s_started_at s) (s_crashed_at s).


Definition _mark_hung (agent_id : string) : M unit :=
  execute (fun db =>
    with_agent_sessions db (alter (with_status "hung") agent_id (agent_sessions db))).

Definition _mark_stuck (agent_id task_id : string) : M unit :=
  execute (fun db =>
    with_agent_sessions db (alter (with_status "stuck") agent_id (agent_sessions db))).


Section Sweeps.

(** The process host: whether a tmux session of the agent exists. *)
Variable _is_process_running : string -> bool.



(** Whether [datetime.fromisoformat] accepts the text; when it does not
    it raises ValueError. *)
Variable is_isoformat : string -> bool.

Definition stale_agents (threshold_time : string) (db : DB)
  : list (string * AgentSession) :=
  filter (fun r => String.eqb (s_status r.2) "active"
                   && String.ltb (s_last_heartbeat r.2) threshold_time)
         (map_to_list (agent_sessions db)).

Fixpoint hung_loop (stale_agents : list (string * AgentSession)) (hung : list string)
  : M (list string) :=
  match stale_agents with
  | [] => ret hung
  | row :: rest =>
      let agent_id := row.1 in
      if is_isoformat (s_last_heartbeat row.2)
      then run _mark_hung agent_id then hung_loop rest (hung ++ [agent_id])%list
      else raise (ValueError "Invalid isoformat string")
  end.

(** [check_hung_agents]: [threshold_time] is the text of
    [(datetime.now() - self.hung_threshold).isoformat()]. *)
Definition check_hung_agents (threshold_time : string) : M (list string) :=
  let! stale_agents := query (stale_agents threshold_time) in
  hung_loop stale_agents [].

End Sweeps.

(** One entry of the report of [check_stuck_tasks].  The third key of
    the source, [duration_seconds], is a floating-point reading of the
    wall clock and is not part of the record here. *)
Record StuckTask := mkStuckTask {
  task_id : string;
  agent_id : option string
}.

Definition long_tasks (threshold_time : string) (db : DB) : list (string * Task) :=
  filter (fun r => member (t_status r.2) ["in_progress"; "in_review"; "in_tests"; "in_docs"]
                   && match t_started_at r.2 with
                      | Some started_at => String.ltb started_at threshold_time
                      | None => false
                      end)
         (map_to_list (tasks db)).

Section StuckSweep.

Variable is_isoformat : string -> bool.

Fixpoint stuck_loop (long_tasks : list (string * Task)) (stuck : list StuckTask)
  : M (list StuckTask) :=
  match long_tasks with
  | [] => ret stuck
  | row :: rest =>
      let task_id := row.1 in
      let agent_id := t_assignee row.2 in
      if is_isoformat (default "" (t_started_at row.2))
      then
        let stuck := (stuck ++ [mkStuckTask task_id agent_id])%list in
        if truthy agent_id
        then run _mark_stuck (default "" agent_id) task_id then stuck_loop rest stuck
        else stuck_loop rest stuck
      else raise (ValueError "Invalid isoformat string")
  end.

(** [check_stuck_tasks]: [threshold_time] is the text of
    [(datetime.now() - self.task_timeout).isoformat()]. *)
Definition check_stuck_tasks (threshold_time : string) : M (list StuckTask) :=
  let! long_tasks := query (long_tasks threshold_time) in
  stuck_loop long_tasks [].

End StuckSweep.

End HealthMonitor.

Module QualityGates.

Inductive GateType :=
| LINTING | TYPE_CHECKING | COMPLEXITY | COVERAGE
| MUTATION | SAST | DEPENDENCY_SCAN | SECRET_DETECTION.

Inductive GateStatus := PASS | FAIL | SKIP | ERROR.

(** The [details] dictionary and the floating-point [score] of the
    source are carried along untouched by the runner and are not part of
    the record here. *)
Record GateResult := mkGateResult {
  gate_type : GateType;
  status : GateStatus;
  message : string
}.

(** What the private [_run_*_gate] method of a gate does with its
    external tool: it returns a result, or an exception escapes it. *)
Inductive tool_run :=
| Finished (result : GateResult)
| Crashed (e : string).

Section Runner.

(** The working directory with its installed tools. *)
Variable tools : GateType -> tool_run.

(** [run_gate] appends to [self.results], threaded here as [results]. *)
Definition run_gate (gate_type : GateType) (required : bool)
    (results : list GateResult) : GateResult * list GateResult :=
  let result :=
    match tools gate_type with
    | Finished result => result
    | Crashed e =>
        mkGateResult gate_type (if required then ERROR else SKIP)
          ("Gate execution failed: " ++ e)
    end in
  (result, (results ++ [result])%list).

Definition run_all_gates (stage : string) : list GateResult :=
  let results := [] in
  if String.eqb stage "review" then
    let results := (run_gate LINTING true results).2 in
    let results := (run_gate TYPE_CHECKING true results).2 in
    (run_gate COMPLEXITY true results).2
  else if String.eqb stage "tests" then
    let results := (run_gate COVERAGE true results).2 in
    (run_gate MUTATION false results).2
  else if String.eqb stage "merge" then
    let results := (run_gate SAST true results).2 in
    let results := (run_gate DEPENDENCY_SCAN true results).2 in
    (run_gate SECRET_DETECTION true results).2
  else results.

End Runner.

Fixpoint all_gates_passed (results : list GateResult) : bool :=
  match results with
  | [] => true
  | result :: rest =>
      match status result with
      | FAIL => false
      | ERROR => false
      | _ => all_gates_passed rest
      end
  end.

End QualityGates.

Module CABAgent.

(** [CABAgent.reject_task] opens its own connection, sets the status
    directly and notifies the developer. *)
Definition reject_task (now uuid task_id reason : string) : M unit :=
  run StateManager.update_task_status now task_id "in_progress" None then
  run StateManager.publish_event now uuid "developer" "REWORK_NEEDED"
        [("task_id", JStr task_id); ("reason", JStr reason)]
  then ret tt.


End CABAgent.

Module DeveloperAgent.

Fixpoint claim_loop (now agent_id : string) (tasks : list (string * Task))
  : M (option string) :=
  match tasks with
  | [] => ret None
  | task :: rest =>
      let task_id := task.1 in
      let! claimed := StateManager.claim_task_atomic now task_id agent_id in
      if claimed then ret (Some task_id) else claim_loop now agent_id rest
  end.

(** [claim_next_task]; [agent_id] is [self.agent_id]. *)
Definition claim_next_task (now agent_id convoy_id : string) : M (option string) :=
  let! tasks := StateManager.list_tasks_by_convoy convoy_id (Some "todo") in
  claim_loop now agent_id tasks.


(** ORDER BY started_at DESC: SQLite puts NULL below every text, so it
    comes last. *)
Definition started_later (r1 r2 : string * Task) : bool :=
  match t_started_at r1.2, t_started_at r2.2 with
  | _, None => true
  | None, Some _ => false
  | Some s1, Some s2 => String.leb s2 s1
  end.

Definition held_tasks (agent_id : string) (db : DB) : list (string * Task) :=
  sql_limit 1
    (sort_by started_later
       (filter (fun r => bool_decide (t_assignee r.2 = Some agent_id)
                         && member (t_status r.2)
                              ["in_progress"; "in_review"; "in_tests"; "in_docs"])
               (map_to_list (tasks db)))).

(** [recover_state] returns the task it also stores in
    [self.current_task_id]. *)
Definition recover_state (agent_id : string) : M (option string) :=
  let! rows := query (held_tasks agent_id) in
  match rows with
  | row :: _ => ret (Some row.1)
  | [] => ret None
  end.


End DeveloperAgent.

Module RefineryAgent.

Definition reject_merge (now uuid task_id reason : string) : M unit :=
  run StateManager.update_task_status now task_id "in_progress" None then
  run StateManager.publish_event now uuid "developer" "REWORK_NEEDED"
        [("task_id", JStr task_id); ("reason", JStr reason)]
  then ret tt.


(** The key [t["completed_at"] or ""] of [get_merge_queue]. *)
Definition by_completed_at (r1 r2 : string * Task) : bool :=
  String.leb (default "" (t_completed_at r1.2)) (default "" (t_completed_at r2.2)).

Definition get_merge_queue (convoy_id : string) : M (list string) :=
  let! tasks := StateManager.list_tasks_by_convoy convoy_id (Some "in_docs") in
  ret (sort_by by_completed_at tasks).*1.

End RefineryAgent.

Module TesterAgent.

Definition reject_validation (now uuid task_id reason : string) : M unit :=
  run StateManager.update_task_status now task_id "in_progress" None then
  run StateManager.publish_event now uuid "developer" "REWORK_NEEDED"
        [("task_id", JStr task_id); ("reason", JStr reason)]
  then ret tt.

End TesterAgent.

Module ManagerAgent.

Definition escalated (failure_reason : string) (t : Task) : Task :=
  mkTask (t_convoy_id t) (t_title t) (t_description t) (t_file_path t)
    "todo" (t_priority t) None (t_acceptance_criteria t)
    (t_validation_results t) (Some failure_reason) (t_failure_count t)
    (t_created_at t) (t_started_at t) (t_completed_at t).

(** The payload value of an [Optional[str]]. *)
Definition json_of_option (o : option string) : json :=
  match o with
  | Some s => JStr s
  | None => JNull
  end.

(** The restart half of [_handle_agent_failure] (T065).  [restart_error]
    is what [_restart_agent] did with the process host: [None] when it
    returned, the text of the exception when one escaped it. *)
Definition restart_or_report (restart_error : option string)
    (now uuid agent_id failure_type : string) (task_id : option string) : M unit :=
  match restart_error with
  | None => ret tt
  | Some e =>
      run StateManager.publish_event now uuid "manager" "AGENT_RESTART_FAILED"
            [("agent_id", JStr agent_id); ("failure_type", JStr failure_type);
             ("task_id", json_of_option task_id); ("error", JStr e)]
      then ret tt
  end.

Definition _handle_agent_failure (restart_error : option string)
    (now uuid agent_id failure_type : string) (task_id : option string) : M unit :=
  if truthy task_id
  then
    let task_id' := default "" task_id in
    let! failure_count :=
      StateManager.increment_task_failure_count task_id' ("Agent " ++ failure_type) in
    if 3 <=? failure_count
    then
      run StateManager.publish_event now uuid "architect" "ESCALATE_TASK"
            [("task_id", JStr task_id'); ("failure_count", JInt failure_count);
             ("failure_type", JStr failure_type); ("last_agent", JStr agent_id)]
      then
      execute (fun db =>
        with_tasks db
          (alter (escalated ("Escalated after " ++ pretty failure_count
                               ++ " failures (" ++ failure_type ++ ")"))
                 task_id' (tasks db)))
    else restart_or_report restart_error now uuid agent_id failure_type task_id
  else restart_or_report restart_error now uuid agent_id failure_type task_id.

Section Polling.

(** The file system: whether [spec_path / "tasks.md"] exists. *)
Variable tasks_file_exists : string -> bool.

(** What [_create_convoys_from_tasks] does for one feature.  [None]
    stands for an exception that escapes it, FileNotFoundError for the
    missing file or IntegrityError from the INSERT: the caller catches
    both alike. *)
Definition _create_convoys_from_tasks (now feature_id spec_path : string)
  : M (option unit) :=
  if negb (tasks_file_exists spec_path) then ret None
  else
    fun db =>
      match StateManager.create_convoy now (feature_id ++ "-convoy-1") feature_id
              "Placeholder Story" "P1" ["placeholder.py"] None "available" db with
      | (Return _, db') => (Return (Some tt), db')
      | (Raise _, db') => (Return None, db')
      end.

Definition process_feature (now : string) (feature_row : string * Feature) : M unit :=
  let feature_id := feature_row.1 in
  fun db =>
    match StateManager.update_feature_status now feature_id "in_progress" db with
    | (Raise _, db') => StateManager.update_feature_status now feature_id "failed" db'
    | (Return _, db') =>
        match _create_convoys_from_tasks now feature_id (f_spec_path feature_row.2) db' with
        | (Return (Some _), db'') => (Return tt, db'')
        | (Return None, db'') =>
            StateManager.update_feature_status now feature_id "failed" db''
        | (Raise e, db'') => (Raise e, db'')
        end
    end.

Fixpoint poll_loop (now : string) (ready_features : list (string * Feature)) : M unit :=
  match ready_features with
  | [] => ret tt
  | feature_row :: rest =>
      run process_feature now feature_row then poll_loop now rest
  end.

Definition _poll_features (now : string) : M unit :=
  let! ready_features := StateManager.list_features_by_status "ready" in
  poll_loop now ready_features.

End Polling.

End ManagerAgent.

(** ** Vocabulary of the statements *)

(** The nine legal pairs of the task state machine, as the
    specification lists them. *)
Definition LEGAL_TRANSITIONS : list (string * string) :=
  [ ("todo", "in_progress");
    ("in_progress", "in_review");
    ("in_review", "in_tests");
    ("in_review", "in_progress");
    ("in_tests", "in_docs");
    ("in_tests", "in_progress");
    ("in_docs", "done");
    ("in_docs", "in_progress");
    ("in_progress", "todo") ].

(** A task is claimable when it is in [todo] and nobody holds it. *)
Definition claimable (db : DB) (task_id : string) : Prop :=
  exists t, tasks db !! task_id = Some t /\ t_status t = "todo" /\ t_assignee t = None.

(** What [reject_task] leaves in the [tasks] table. *)
Definition rejected (now reason : string) (t : Task) : Task :=
  let t1 := StateManager.failed_once reason t in
  if member (t_status t) ["todo"; "in_review"; "in_tests"; "in_docs"]
  then StateManager.set_task_status now "in_progress" None t1
  else t1.




(** Oldest first: the order of [created_at]. *)
Definition older_or_same (r1 r2 : string * Event) : Prop :=
  String.leb (e_created_at r1.2) (e_created_at r2.2) = true.




(** The pass rule in the words of the specification: only a FAIL or
    ERROR of a required gate blocks.  [run_all_gates] runs every gate
    as required except the mutation gate of stage [tests]. *)
Definition required_in (stage : string) (g : QualityGates.GateType) : bool :=
  match g with
  | QualityGates.MUTATION => negb (String.eqb stage "tests")
  | _ => true
  end.

Definition specified_all_passed (stage : string)
    (results : list QualityGates.GateResult) : bool :=
  forallb
    (fun r =>
       negb (required_in stage (QualityGates.gate_type r))
       || match QualityGates.status r with
          | QualityGates.FAIL | QualityGates.ERROR => false
          | _ => true
          end)
    results.

(** Every dependency of the convoy exists and is done. *)
Definition dependencies_done (db : DB) (c : Convoy) : Prop :=
  forall dependencies dep,
    c_dependencies c = Some dependencies -> dep ∈ dependencies ->
    exists d, convoys db !! dep = Some d /\ c_status d = "done".

(** Strict priority, ties broken by [created_at]: [c] is served no
    later than [c']. *)
Definition served_first (c c' : Convoy) : Prop :=
  String.ltb (c_priority c) (c_priority c') = true \/
  (c_priority c = c_priority c' /\
   String.leb (c_created_at c) (c_created_at c') = true).

(** What a sweep may do to the [convoys] table: a row that is not done
    may become [available]; nothing else changes. *)
Definition swept (db db' : DB) : Prop :=
  forall id,
    match convoys db !! id, convoys db' !! id with
    | Some c, Some c' =>
        c' = c \/
        (c_status c <> "done" /\ c_status c' = "available" /\
         c_feature_id c' = c_feature_id c /\
         c_dependencies c' = c_dependencies c)
    | None, None => True
    | _, _ => False
    end.

(** ** Scenario data *)

Definition task_in (status : string) (assignee : option string)
    (failure_count : Z) : Task :=
  mkTask "F1-convoy-1" "Add parser" "Parse tasks.md" "src/a.py" status "P1"
    assignee "[]" None None failure_count "2026-01-05 09:00:00" None None.

(** Scenario S2: task T2, under review for the third time, held by
    dev-001 and rejected twice before. *)
Definition db_S2 : DB :=
  with_tasks empty_db {[ "T2" := task_in "in_review" (Some "dev-001") 2 ]}.

(** A queue with two pending events for the tester and one for the CAB. *)
Definition db_queue : DB :=
  with_events empty_db
    {[ "e-2" := mkEvent "tester" "RUN_TESTS" [("task_id", JStr "T2")] "pending"
                  "2026-01-05 10:00:07" None;
       "e-1" := mkEvent "tester" "RUN_TESTS" [("task_id", JStr "T1")] "pending"
                  "2026-01-05 10:00:03" None;
       "e-3" := mkEvent "cab" "ROUTE_TASK" [("task_id", JStr "T3")] "pending"
                  "2026-01-05 10:00:01" None ]}.

(** Feature F1, in progress, without convoys. *)
Definition db_F1 : DB :=
  with_features empty_db
    {[ "F1" := mkFeature "Feature one" "specs/F1" "in_progress"
                 "2026-01-05 08:00:00" (Some "2026-01-05 08:30:00") None ]}.

(** Scenario S4: the first of the two proposed convoys is in place. *)
Definition db_S4 : DB :=
  (StateManager.create_convoy "2026-01-05 09:00:00" "c1" "F1" "US1" "P1"
     ["src/a.py"; "src/b.py"] None "available" db_F1).2.

(** A feature with one convoy that has no task yet. *)
Definition db_empty_convoy : DB :=
  (StateManager.create_convoy "2026-01-05 09:00:00" "F1-convoy-1" "F1"
     "Placeholder Story" "P1" ["placeholder.py"] None "available" db_F1).2.

(** Scenario S3 at its start: [C_a] depends on [C_b], both available. *)
Definition db_S3_start : DB :=
  with_convoys db_F1
    {[ "C_a" := mkConvoy "F1" "US2" "P2" "available" ["src/a.py"] (Some ["C_b"]) None
                  "2026-01-05 09:00:01" None None;
       "C_b" := mkConvoy "F1" "US1" "P1" "available" ["src/b.py"] (Some []) None
                  "2026-01-05 09:00:00" None None ]}.

(** Scenario S3 once [C_b] is done and [C_a] still blocked. *)
Definition db_S3 : DB :=
  with_convoys db_F1
    {[ "C_a" := mkConvoy "F1" "US2" "P2" "blocked" ["src/a.py"] (Some ["C_b"]) None
                  "2026-01-05 09:00:01" None None;
       "C_b" := mkConvoy "F1" "US1" "P1" "done" ["src/b.py"] (Some []) None
                  "2026-01-05 09:00:00" (Some "2026-01-05 09:10:00")
                  (Some "2026-01-05 11:00:00") ]}.

(** A working directory where coverage passes and the mutation score is
    below the threshold. *)
Definition tools_weak_mutation (g : QualityGates.GateType) : QualityGates.tool_run :=
  match g with
  | QualityGates.MUTATION =>
      QualityGates.Finished
        (QualityGates.mkGateResult QualityGates.MUTATION QualityGates.FAIL
           "Mutation score 50.0% below threshold 80%")
  | QualityGates.COVERAGE =>
      QualityGates.Finished
        (QualityGates.mkGateResult QualityGates.COVERAGE QualityGates.PASS
           "Coverage 91.0% meets threshold 80%")
  | _ => QualityGates.Crashed "tool not run in this scenario"
  end.

(** A convoy whose file list names [src/a.py] twice; [create_convoy]
    stores the list as it is given. *)
Definition db_listed_twice : DB :=
  (StateManager.create_convoy "2026-01-05 09:00:00" "c1" "F1" "US1" "P1"
     ["src/a.py"; "src/b.py"; "src/a.py"] None "available" db_F1).2.

(** Every file entry of the convoys of a feature, whatever their status,
    one convoy after the other. *)
Definition feature_files (feature_id : string) (db : DB) : list string :=
  concat (map (fun r : string * Convoy => c_files r.2)
              (StateManager.select_convoys feature_id None db)).

(** The number [get_pending_event_count] reports on a database. *)
Definition pending_count (agent_id : string) (db : DB) : Z :=
  Z.of_nat (length (StateManager.pending_rows agent_id db)).

(** An available convoy of the feature whose dependencies are not all
    done: what the block sweep is after. *)
Definition waiting (db : DB) (feature_id id : string) (c : Convoy) : bool :=
  String.eqb (c_feature_id c) feature_id
  && String.eqb (c_status c) "available"
  && negb (ConvoyAllocator.dependencies_met db id).

(** The first convoy in allocation order waits for a convoy that is
    itself ready to start. *)
Definition db_head_waits : DB :=
  with_convoys db_F1
    {[ "C_a" := mkConvoy "F1" "US1" "P1" "available" ["src/a.py"] (Some ["C_b"]) None
                  "2026-01-05 09:00:00" None None;
       "C_b" := mkConvoy "F1" "US2" "P2" "available" ["src/b.py"] (Some []) None
                  "2026-01-05 09:00:01" None None ]}.

(** A gate that lets its stage pass: the tool finished with PASS or
    SKIP, or it crashed and the gate is optional. *)
Definition gate_clean (tools : QualityGates.GateType -> QualityGates.tool_run)
    (g : QualityGates.GateType) (required : bool) : bool :=
  match tools g with
  | QualityGates.Finished r =>
      match QualityGates.status r with
      | QualityGates.PASS | QualityGates.SKIP => true
      | _ => false
      end
  | QualityGates.Crashed _ => negb required
  end.



(** A convoy with two documented tasks, T6 created an hour before T5,
    a task still under test, and a documented task of another convoy. *)
Definition db_merge_queue : DB :=
  with_tasks empty_db
    {[ "T5" := mkTask "F1-convoy-1" "Add parser" "Parse tasks.md" "src/a.py" "in_docs"
                 "P1" (Some "dev-001") "[]" None None 0 "2026-01-05 09:00:00" None None;
       "T6" := mkTask "F1-convoy-1" "Add lexer" "Split into tokens" "src/b.py" "in_docs"
                 "P1" (Some "dev-002") "[]" None None 0 "2026-01-05 08:00:00" None None;
       "T7" := mkTask "F1-convoy-1" "Add printer" "Print the tree" "src/c.py" "in_tests"
                 "P1" (Some "dev-003") "[]" None None 0 "2026-01-05 07:00:00" None None;
       "T8" := mkTask "F1-convoy-2" "Add cli" "Read the arguments" "src/d.py" "in_docs"
                 "P1" (Some "dev-004") "[]" None None 0 "2026-01-05 06:00:00" None None ]}.

(** Two developer sessions: dev-001 last reported at 09:50, dev-002 at
    10:04. *)
Definition db_sessions : DB :=
  with_agent_sessions empty_db
    {[ "dev-001" := mkAgentSession "developer" None None None "active"
                      "2026-01-05T09:50:00" "2026-01-05 09:00:00" None;
       "dev-002" := mkAgentSession "developer" None None None "active"
                      "2026-01-05T10:04:00" "2026-01-05 09:00:00" None ]}.

(** The entry of the stuck report for a row, and the agents that the
    stuck sweep marks: the non-empty assignees of the rows. *)
Definition stuck_entry (r : string * Task) : HealthMonitor.StuckTask :=
  HealthMonitor.mkStuckTask r.1 (t_assignee r.2).

Definition holders (rows : list (string * Task)) : list string :=
  omap (fun r : string * Task =>
          if truthy (t_assignee r.2) then t_assignee r.2 else None) rows.

(** Task T1, unclaimed. *)
Definition db_todo : DB :=
  with_tasks empty_db {[ "T1" := task_in "todo" None 0 ]}.


(** The convoy that [_create_convoys_from_tasks] inserts for a
    feature. *)
Definition placeholder (now feature_id : string) : Convoy :=
  mkConvoy feature_id "Placeholder Story" "P1" "available" ["placeholder.py"]
    (Some []) None now None None.

(** A ready feature is started by the poll when its tasks file exists
    and the id of its placeholder convoy is free. *)
Definition started (tasks_file_exists : string -> bool) (db : DB)
    (feature_id : string) (f : Feature) : bool :=
  tasks_file_exists (f_spec_path f)
  && bool_decide (convoys db !! (feature_id ++ "-convoy-1") = None).

(** Feature F2, ready, beside F1. *)
Definition db_ready : DB :=
  with_features db_F1
    (<["F2" := mkFeature "Feature two" "specs/F2" "ready" "2026-01-05 08:10:00" None None]>
       (features db_F1)).

(** Task T9, merged and done. *)
Definition db_done : DB :=
  with_tasks empty_db {[ "T9" := task_in "done" (Some "dev-001") 0 ]}.

(** * Properties *)

(** ** The order on TEXT columns

    SQLite's BINARY collation and Python's [str] order both compare
    byte by byte; [String.leb] is that order. *)

Section StringOrder.

Lemma ascii_compare_refl (c : ascii) : Ascii.compare c c = Eq.
Proof. unfold Ascii.compare. apply N.compare_refl. Qed.

Lemma ascii_compare_lt_trans (a b c : ascii) :
  Ascii.compare a b = Lt -> Ascii.compare b c = Lt -> Ascii.compare a c = Lt.
Proof.
  unfold Ascii.compare. rewrite !N.compare_lt_iff. apply N.lt_trans.
Qed.

Lemma string_compare_refl (s : string) : String.compare s s = Eq.
Proof.
  induction s as [|c s IH]; simpl; [reflexivity|].
  rewrite ascii_compare_refl. exact IH.
Qed.

Lemma string_compare_eq (s1 s2 : string) : String.compare s1 s2 = Eq <-> s1 = s2.
Proof.
  split; [apply String.compare_eq_iff|].
  intros ->. apply string_compare_refl.
Qed.

Lemma string_compare_lt_trans (s1 s2 s3 : string) :
  String.compare s1 s2 = Lt -> String.compare s2 s3 = Lt ->
  String.compare s1 s3 = Lt.
Proof.
  revert s2 s3.
  induction s1 as [|a s1 IH]; intros [|b s2] [|c s3]; simpl; try congruence.
  destruct (Ascii.compare a b) eqn:Hab; try discriminate;
    destruct (Ascii.compare b c) eqn:Hbc; try discriminate; intros H12 H23.
  - apply Ascii.compare_eq_iff in Hab, Hbc. subst.
    rewrite ascii_compare_refl. eauto.
  - apply Ascii.compare_eq_iff in Hab. subst. rewrite Hbc. reflexivity.
  - apply Ascii.compare_eq_iff in Hbc. subst. rewrite Hab. reflexivity.
  - rewrite (ascii_compare_lt_trans _ _ _ Hab Hbc). reflexivity.
Qed.

Lemma string_leb_refl (s : string) : String.leb s s = true.
Proof. unfold String.leb. rewrite string_compare_refl. reflexivity. Qed.

Lemma string_leb_trans (s1 s2 s3 : string) :
  String.leb s1 s2 = true -> String.leb s2 s3 = true -> String.leb s1 s3 = true.
Proof.
  unfold String.leb.
  destruct (String.compare s1 s2) eqn:H12; try discriminate;
    destruct (String.compare s2 s3) eqn:H23; try discriminate; intros _ _.
  - apply string_compare_eq in H12, H23. subst.
    rewrite string_compare_refl. reflexivity.
  - apply string_compare_eq in H12. subst. rewrite H23. reflexivity.
  - apply string_compare_eq in H23. subst. rewrite H12. reflexivity.
  - rewrite (string_compare_lt_trans _ _ _ H12 H23). reflexivity.
Qed.

Lemma pair_leb_spec (k1 k2 : string * string) :
  pair_leb k1 k2 = true <->
  String.compare k1.1 k2.1 = Lt \/ (k1.1 = k2.1 /\ String.leb k1.2 k2.2 = true).
Proof.
  unfold pair_leb, String.ltb.
  rewrite orb_true_iff, andb_true_iff, String.eqb_eq.
  destruct (String.compare k1.1 k2.1); intuition congruence.
Qed.

Lemma pair_leb_total (k1 k2 : string * string) :
  pair_leb k1 k2 = true \/ pair_leb k2 k1 = true.
Proof.
  rewrite !pair_leb_spec.
  rewrite (String.compare_antisym k1.1 k2.1).
  destruct (String.compare k2.1 k1.1) eqn:Ha; simpl; auto.
  apply string_compare_eq in Ha.
  destruct (String.leb_total k1.2 k2.2); auto.
Qed.

Lemma pair_leb_trans (k1 k2 k3 : string * string) :
  pair_leb k1 k2 = true -> pair_leb k2 k3 = true -> pair_leb k1 k3 = true.
Proof.
  rewrite !pair_leb_spec.
  intros [H12|[E12 H12]] [H23|[E23 H23]].
  - left. eapply string_compare_lt_trans; eassumption.
  - left. rewrite <- E23. exact H12.
  - left. rewrite E12. exact H23.
  - right. split; [congruence|]. eapply string_leb_trans; eassumption.
Qed.

End StringOrder.

(** ** The sort *)

Section Sort.

Context {A : Type} (le : A -> A -> bool).

Lemma insert_by_elem_of (x y : A) (l : list A) :
  y ∈ insert_by le x l <-> y = x \/ y ∈ l.
Proof.
  induction l as [|z l IH]; simpl.
  - rewrite list_elem_of_singleton, elem_of_nil. tauto.
  - destruct (le x z).
    + rewrite elem_of_cons. tauto.
    + rewrite !elem_of_cons, IH. tauto.
Qed.

Lemma sort_by_elem_of (y : A) (l : list A) : y ∈ sort_by le l <-> y ∈ l.
Proof.
  induction l as [|x l IH]; simpl; [reflexivity|].
  rewrite insert_by_elem_of, IH, elem_of_cons. tauto.
Qed.

Lemma insert_by_Permutation (x : A) (l : list A) : insert_by le x l ≡ₚ x :: l.
Proof.
  induction l as [|z l IH]; simpl; [reflexivity|].
  destruct (le x z); [reflexivity|]. rewrite IH. apply Permutation_swap.
Qed.

Lemma sort_by_Permutation (l : list A) : sort_by le l ≡ₚ l.
Proof.
  induction l as [|x l IH]; simpl; [reflexivity|].
  rewrite insert_by_Permutation, IH. reflexivity.
Qed.

Hypothesis le_total : forall x y, le x y = true \/ le y x = true.
Hypothesis le_trans : forall x y z, le x y = true -> le y z = true -> le x z = true.

Lemma insert_by_sorted (x : A) (l : list A) :
  StronglySorted (fun a b => le a b = true) l ->
  StronglySorted (fun a b => le a b = true) (insert_by le x l).
Proof.
  induction 1 as [|z l Hs IH Hz]; simpl.
  - constructor; constructor.
  - destruct (le x z) eqn:Hxz.
    + constructor; [constructor; assumption|].
      constructor; [assumption|].
      eapply Forall_impl; [exact Hz|]. intros w Hw. eauto.
    + constructor; [assumption|].
      apply Forall_forall. intros w Hw.
      apply insert_by_elem_of in Hw as [->|Hw].
      * destruct (le_total x z); congruence.
      * rewrite Forall_forall in Hz. auto.
Qed.

Lemma sort_by_sorted (l : list A) :
  StronglySorted (fun a b => le a b = true) (sort_by le l).
Proof.
  induction l as [|x l IH]; simpl; [constructor|].
  apply insert_by_sorted. exact IH.
Qed.

Lemma le_refl_of_total (x : A) : le x x = true.
Proof. destruct (le_total x x); assumption. Qed.

(** The head of the sorted list is least among all rows. *)
Lemma sort_by_head_least (l : list A) (x : A) (rest : list A) :
  sort_by le l = x :: rest -> forall y, y ∈ l -> le x y = true.
Proof.
  intros Hs y Hy.
  apply (sort_by_elem_of y) in Hy. rewrite Hs in Hy.
  pose proof (sort_by_sorted l) as Hsorted. rewrite Hs in Hsorted.
  apply StronglySorted_inv in Hsorted as [_ Hall].
  apply elem_of_cons in Hy as [->|Hy].
  - apply le_refl_of_total.
  - rewrite Forall_forall in Hall. auto.
Qed.

End Sort.

(** ** The task state machine *)

(** String tests are decided by case analysis, never unfolded. *)
Local Arguments String.eqb : simpl never.

Ltac case_eqb :=
  repeat match goal with
         | |- context [String.eqb ?a ?b] =>
             destruct (String.eqb_spec a b); try congruence; subst; simpl
         end.

Lemma validate_task_transition_legal (from_status to_status : string) :
  StateManager.validate_task_transition from_status to_status = true
  <-> (from_status, to_status) ∈ LEGAL_TRANSITIONS.
Proof.
  split.
  - unfold StateManager.validate_task_transition, member. simpl.
    case_eqb; try discriminate; intros _;
      apply list_elem_of_In; simpl;
      repeat (first [left; reflexivity | right]).
  - intros H. unfold LEGAL_TRANSITIONS in H.
    repeat (apply elem_of_cons in H as [H|H]; [inversion H; subst; reflexivity|]).
    apply elem_of_nil in H. contradiction.
Qed.

Lemma legal_target_is_status (from_status to_status : string) :
  (from_status, to_status) ∈ LEGAL_TRANSITIONS ->
  member to_status TASK_STATUSES = true.
Proof.
  intros H. unfold LEGAL_TRANSITIONS in H.
  repeat (apply elem_of_cons in H as [H|H]; [inversion H; subst; reflexivity|]).
  apply elem_of_nil in H. contradiction.
Qed.

Lemma transition_task_status_eq (now task_id to_status : string) (db : DB) :
  StateManager.transition_task_status now task_id to_status db =
  match tasks db !! task_id with
  | None => (Return false, db)
  | Some t =>
      if StateManager.validate_task_transition (t_status t) to_status
      then match StateManager.update_task_status now task_id to_status None db with
           | (Return _, db') => (Return true, db')
           | (Raise e, db') => (Raise e, db')
           end
      else (Return false, db)
  end.
Proof.
  unfold StateManager.transition_task_status, StateManager.get_task, bind, query, ret. simpl.
  destruct (tasks db !! task_id) as [t|]; [|reflexivity].
  destruct (StateManager.validate_task_transition (t_status t) to_status); simpl; [|reflexivity].
  destruct (StateManager.update_task_status now task_id to_status None db) as [[[]|e] db'];
    reflexivity.
Qed.

Lemma update_task_status_ok (now task_id status : string) (assignee : option string)
    (db : DB) (t : Task) :
  tasks db !! task_id = Some t ->
  member status TASK_STATUSES = true ->
  StateManager.update_task_status now task_id status assignee db =
  (Return tt,
   with_tasks db
     (alter (StateManager.set_task_status now status assignee) task_id (tasks db))).
Proof.
  intros Ht Hs. unfold StateManager.update_task_status. rewrite Ht, Hs. reflexivity.
Qed.

Lemma transition_task_status_legal (now task_id to_status : string) (db : DB) (t : Task) :
  tasks db !! task_id = Some t ->
  (t_status t, to_status) ∈ LEGAL_TRANSITIONS ->
  StateManager.transition_task_status now task_id to_status db =
  (Return true,
   with_tasks db
     (alter (StateManager.set_task_status now to_status None) task_id (tasks db))).
Proof.
  intros Ht Hlegal. rewrite transition_task_status_eq, Ht.
  rewrite (proj2 (validate_task_transition_legal _ _) Hlegal).
  rewrite (update_task_status_ok _ _ _ _ _ _ Ht (legal_target_is_status _ _ Hlegal)).
  reflexivity.
Qed.

Lemma transition_task_status_illegal (now task_id to_status : string) (db : DB) (t : Task) :
  tasks db !! task_id = Some t ->
  (t_status t, to_status) ∉ LEGAL_TRANSITIONS ->
  StateManager.transition_task_status now task_id to_status db = (Return false, db).
Proof.
  intros Ht Hillegal. rewrite transition_task_status_eq, Ht.
  destruct (StateManager.validate_task_transition (t_status t) to_status) eqn:Hv;
    [|reflexivity].
  apply validate_task_transition_legal in Hv. contradiction.
Qed.

(** C3. A requested transition of an existing task is accepted exactly
    when (current status, requested status) is one of the nine legal
    pairs; an accepted transition stores the requested status, any other
    request returns false and leaves the database as it was, and no
    transition leaves [done]. *)
Theorem task_transition_accepted_iff_legal
    (now task_id to_status : string) (db : DB) (t : Task) :
  tasks db !! task_id = Some t ->
  let result := StateManager.transition_task_status now task_id to_status db in
  (StateManager.validate_task_transition (t_status t) to_status = true
     <-> (t_status t, to_status) ∈ LEGAL_TRANSITIONS) /\
  (result.1 = Return true <-> (t_status t, to_status) ∈ LEGAL_TRANSITIONS) /\
  ((t_status t, to_status) ∈ LEGAL_TRANSITIONS ->
     t_status <$> tasks result.2 !! task_id = Some to_status) /\
  ((t_status t, to_status) ∉ LEGAL_TRANSITIONS -> result = (Return false, db)) /\
  (t_status t = "done" -> result = (Return false, db)).
Proof.
  intros Ht result. subst result.
  split; [apply validate_task_transition_legal|].
  destruct (decide ((t_status t, to_status) ∈ LEGAL_TRANSITIONS)) as [Hlegal|Hillegal].
  - rewrite (transition_task_status_legal _ _ _ _ _ Ht Hlegal). simpl.
    repeat split; try tauto.
    + intros _. rewrite lookup_alter_eq, Ht. reflexivity.
    + intros Hdone. rewrite Hdone in Hlegal.
      apply validate_task_transition_legal in Hlegal. discriminate.
  - rewrite (transition_task_status_illegal _ _ _ _ _ Ht Hillegal). simpl.
    repeat split; try tauto; try discriminate.
Qed.

Lemma task_transition_accepted_iff_legal_witness :
  let db := with_tasks empty_db {[ "T1" := task_in "in_review" (Some "dev-001") 0 ]} in
  let result :=
    StateManager.transition_task_status "2026-01-05 10:00:00" "T1" "in_tests" db in
  result.1 = Return true /\
  t_status <$> tasks result.2 !! "T1" = Some "in_tests".
Proof.
  intros db result.
  pose proof (task_transition_accepted_iff_legal
                "2026-01-05 10:00:00" "T1" "in_tests" db
                (task_in "in_review" (Some "dev-001") 0) eq_refl) as (_ & Hacc & Hset & _).
  assert (Hlegal : ("in_review", "in_tests") ∈ LEGAL_TRANSITIONS)
    by (apply list_elem_of_In; simpl; tauto).
  split; [apply Hacc, Hlegal | apply Hset, Hlegal].
Defined.

(** ** Atomic claim *)

Lemma claim_task_atomic_claimable (now task_id assignee : string) (db : DB) (t : Task) :
  tasks db !! task_id = Some t -> t_status t = "todo" -> t_assignee t = None ->
  StateManager.claim_task_atomic now task_id assignee db =
  (Return true,
   with_tasks db (<[task_id := StateManager.claimed now assignee t]> (tasks db))).
Proof.
  intros Ht Hs Ha. unfold StateManager.claim_task_atomic.
  rewrite Ht, Hs, Ha, String.eqb_refl. simpl.
  do 2 f_equal. apply map_eq. intros k.
  destruct (decide (k = task_id)) as [->|Hne].
  - rewrite lookup_alter_eq, lookup_insert_eq, Ht. reflexivity.
  - rewrite lookup_alter_ne, lookup_insert_ne by congruence. reflexivity.
Qed.

Lemma claim_task_atomic_not_claimable (now task_id assignee : string) (db : DB) :
  ~ claimable db task_id ->
  StateManager.claim_task_atomic now task_id assignee db = (Return false, db).
Proof.
  intros Hn. unfold StateManager.claim_task_atomic.
  destruct (tasks db !! task_id) as [t|] eqn:Ht; [|reflexivity].
  destruct (String.eqb_spec (t_status t) "todo") as [Hs|Hs]; [|reflexivity].
  simpl. case_bool_decide as Ha; [|reflexivity].
  exfalso. apply Hn. exists t. auto.
Qed.

Lemma claimable_or_not (db : DB) (task_id : string) :
  claimable db task_id \/ ~ claimable db task_id.
Proof.
  unfold claimable.
  destruct (tasks db !! task_id) as [t|] eqn:Ht.
  - destruct (String.eqb_spec (t_status t) "todo") as [Hs|Hs].
    + destruct (t_assignee t) as [a|] eqn:Ha.
      * right. intros (t' & Ht' & _ & Ha'). congruence.
      * left. eauto.
    + right. intros (t' & Ht' & Hs' & _). congruence.
  - right. intros (t' & Ht' & _). congruence.
Qed.

Lemma claimed_not_claimable (now task_id assignee : string) (db : DB) (t : Task) :
  ~ claimable
      (with_tasks db (<[task_id := StateManager.claimed now assignee t]> (tasks db)))
      task_id.
Proof.
  intros (t' & Ht' & Hs' & _). simpl in Ht'.
  rewrite lookup_insert_eq in Ht'. inversion Ht'; subst. discriminate.
Qed.

(** C2. [claim_task_atomic] returns true exactly when the task exists
    in [todo] with no assignee; it then stores [in_progress], the
    claimant and [started_at] and touches nothing else; in every other
    case it returns false and the database is unchanged.  Hence, of two
    claims in a row on a claimable task, the first wins, the second
    returns false and changes nothing, and the row names the winner. *)
Theorem claim_task_atomic_exactly_one
    (now1 now2 task_id agent1 agent2 : string) (db : DB) :
  let first := StateManager.claim_task_atomic now1 task_id agent1 db in
  let second := StateManager.claim_task_atomic now2 task_id agent2 first.2 in
  (first.1 = Return true <-> claimable db task_id) /\
  (claimable db task_id ->
     exists t, tasks db !! task_id = Some t /\
       first.2 = with_tasks db
                   (<[task_id := StateManager.claimed now1 agent1 t]> (tasks db))) /\
  (~ claimable db task_id -> first = (Return false, db)) /\
  (claimable db task_id ->
     second = (Return false, first.2) /\
     exists t', tasks second.2 !! task_id = Some t' /\
       t_status t' = "in_progress" /\
       t_assignee t' = Some agent1 /\
       t_started_at t' = Some now1) /\
  (~ (first.1 = Return true /\ second.1 = Return true)).
Proof.
  intros first second. subst first second.
  destruct (claimable_or_not db task_id) as [Hc|Hn].
  - destruct Hc as (t & Ht & Hs & Ha).
    assert (Hc : claimable db task_id) by (exists t; auto).
    rewrite (claim_task_atomic_claimable now1 _ agent1 _ _ Ht Hs Ha). simpl.
    rewrite (claim_task_atomic_not_claimable now2 _ agent2 _
               (claimed_not_claimable now1 task_id agent1 db t)). simpl.
    repeat split; try tauto.
    + intros _. exists t. auto.
    + exists (StateManager.claimed now1 agent1 t).
      rewrite lookup_insert_eq. auto.
    + intros [_ Hsecond]. discriminate.
  - rewrite (claim_task_atomic_not_claimable now1 _ agent1 _ Hn). simpl.
    repeat split; try tauto; try discriminate.
    intros [Hfirst _]. discriminate.
Qed.

Lemma claim_task_atomic_exactly_one_witness :
  let db := with_tasks empty_db {[ "T1" := task_in "todo" None 0 ]} in
  let first :=
    StateManager.claim_task_atomic "2026-01-05 10:00:00" "T1" "dev-001" db in
  let second :=
    StateManager.claim_task_atomic "2026-01-05 10:00:00" "T1" "dev-002" first.2 in
  first.1 = Return true /\
  second = (Return false, first.2) /\
  exists t', tasks second.2 !! "T1" = Some t' /\
    t_status t' = "in_progress" /\
    t_assignee t' = Some "dev-001" /\
    t_started_at t' = Some "2026-01-05 10:00:00".
Proof.
  intros db first second.
  assert (Hc : claimable db "T1").
  { exists (task_in "todo" None 0). repeat split; reflexivity. }
  pose proof (claim_task_atomic_exactly_one
                "2026-01-05 10:00:00" "2026-01-05 10:00:00" "T1" "dev-001" "dev-002" db)
    as (Hfirst & _ & _ & Hsecond & _).
  split; [apply Hfirst, Hc | apply Hsecond, Hc].
Defined.

(** ** Rejection and escalation *)

Lemma validate_to_in_progress (from_status : string) :
  StateManager.validate_task_transition from_status "in_progress"
  = member from_status ["todo"; "in_review"; "in_tests"; "in_docs"].
Proof.
  unfold StateManager.validate_task_transition, member. simpl.
  case_eqb; reflexivity.
Qed.

Lemma increment_task_failure_count_eq (task_id failure_reason : string) (db : DB) (t : Task) :
  tasks db !! task_id = Some t ->
  StateManager.increment_task_failure_count task_id failure_reason db =
  (Return (t_failure_count t + 1),
   with_tasks db (<[task_id := StateManager.failed_once failure_reason t]> (tasks db))).
Proof.
  intros Ht.
  unfold StateManager.increment_task_failure_count, bind, execute, query, ret. simpl.
  rewrite lookup_alter_eq, Ht. simpl. do 2 f_equal.
  apply map_eq. intros k. destruct (decide (k = task_id)) as [->|Hne].
  - rewrite lookup_alter_eq, lookup_insert_eq, Ht. reflexivity.
  - rewrite lookup_alter_ne, lookup_insert_ne by congruence. reflexivity.
Qed.

Lemma publish_event_fresh (now uuid agent_id event_type : string)
    (payload : list (string * json)) (db : DB) :
  events db !! uuid = None ->
  StateManager.publish_event now uuid agent_id event_type payload db =
  (Return uuid,
   with_events db
     (<[uuid := mkEvent agent_id event_type payload "pending" now None]> (events db))).
Proof. intros Hf. unfold StateManager.publish_event. rewrite Hf. reflexivity. Qed.

Lemma reject_task_eq (now uuid task_id reason rejecting_agent : string)
    (db : DB) (t : Task) :
  tasks db !! task_id = Some t ->
  events db !! uuid = None ->
  StateManager.reject_task now uuid task_id reason rejecting_agent db =
  (Return tt,
   mkDB (features db) (convoys db)
     (<[task_id := rejected now reason t]> (tasks db))
     (if 3 <=? t_failure_count t + 1
      then <[uuid := mkEvent "manager" "ESCALATE_TASK"
                       [("task_id", JStr task_id);
                        ("failure_count", JInt (t_failure_count t + 1))]
                       "pending" now None]> (events db)
      else events db)
     (agent_sessions db)).
Proof.
  intros Ht Hfresh.
  unfold StateManager.reject_task, StateManager.get_task.
  unfold bind at 1. unfold query at 1. simpl. rewrite Ht.
  unfold bind at 1. rewrite (increment_task_failure_count_eq _ _ _ _ Ht).
  set (db1 := with_tasks db _).
  assert (Ht1 : tasks db1 !! task_id = Some (StateManager.failed_once reason t))
    by (subst db1; simpl; apply lookup_insert_eq).
  unfold bind at 1. rewrite transition_task_status_eq, Ht1. simpl t_status.
  rewrite validate_to_in_progress. unfold rejected.
  destruct (member (t_status t) ["todo"; "in_review"; "in_tests"; "in_docs"]).
  - rewrite (update_task_status_ok now task_id "in_progress" None db1 _ Ht1 eq_refl).
    destruct (3 <=? t_failure_count t + 1).
    + unfold bind, ret. rewrite publish_event_fresh by exact Hfresh.
      subst db1. unfold with_events, with_tasks. simpl. do 2 f_equal.
      apply map_eq. intros k. destruct (decide (k = task_id)) as [->|Hne].
      * rewrite lookup_alter_eq, !lookup_insert_eq. reflexivity.
      * rewrite lookup_alter_ne, !lookup_insert_ne by congruence. reflexivity.
    + unfold ret. subst db1. unfold with_tasks. simpl. do 2 f_equal.
      apply map_eq. intros k. destruct (decide (k = task_id)) as [->|Hne].
      * rewrite lookup_alter_eq, !lookup_insert_eq. reflexivity.
      * rewrite lookup_alter_ne, !lookup_insert_ne by congruence. reflexivity.
  - destruct (3 <=? t_failure_count t + 1).
    + unfold bind, ret. rewrite publish_event_fresh by exact Hfresh.
      subst db1. reflexivity.
    + unfold ret. subst db1. reflexivity.
Qed.

Lemma cab_reject_task_eq (now uuid task_id reason : string) (db : DB) (t : Task) :
  tasks db !! task_id = Some t ->
  events db !! uuid = None ->
  CABAgent.reject_task now uuid task_id reason db =
  (Return tt,
   mkDB (features db) (convoys db)
     (<[task_id := StateManager.set_task_status now "in_progress" None t]> (tasks db))
     (<[uuid := mkEvent "developer" "REWORK_NEEDED"
                  [("task_id", JStr task_id); ("reason", JStr reason)]
                  "pending" now None]> (events db))
     (agent_sessions db)).
Proof.
  intros Ht Hfresh. unfold CABAgent.reject_task.
  unfold bind at 1.
  rewrite (update_task_status_ok now task_id "in_progress" None db _ Ht eq_refl).
  unfold bind, ret. rewrite publish_event_fresh by exact Hfresh.
  unfold with_events, with_tasks. simpl. do 2 f_equal.
  apply map_eq. intros k. destruct (decide (k = task_id)) as [->|Hne].
  - rewrite lookup_alter_eq, lookup_insert_eq, Ht. reflexivity.
  - rewrite lookup_alter_ne, lookup_insert_ne by congruence. reflexivity.
Qed.

(** C1, as the code has it.  On an existing task (and a fresh event
    id) [StateManager.reject_task] increments [failure_count], stores
    the reason, and moves the task to [in_progress] when it is in
    [todo], [in_review], [in_tests] or [in_docs]; when the incremented
    count is at least 3 it publishes one ESCALATE_TASK event to the
    manager carrying the task id and the count, and otherwise publishes
    nothing.  The REWORK_NEEDED event for the developer, with the reason
    in its payload, is published by [CABAgent.reject_task], which sets
    the status to [in_progress]. *)
Theorem reject_task_counts_and_escalates
    (now uuid task_id reason rejecting_agent : string) (db : DB) (t : Task) :
  tasks db !! task_id = Some t ->
  events db !! uuid = None ->
  let result := StateManager.reject_task now uuid task_id reason rejecting_agent db in
  let cab := CABAgent.reject_task now uuid task_id reason db in
  result.1 = Return tt /\
  (exists t', tasks result.2 !! task_id = Some t' /\
     t_failure_count t' = t_failure_count t + 1 /\
     t_failure_reason t' = Some reason /\
     t_status t' =
       if member (t_status t) ["todo"; "in_review"; "in_tests"; "in_docs"]
       then "in_progress" else t_status t) /\
  (3 <= t_failure_count t + 1 ->
     events result.2 =
     <[uuid := mkEvent "manager" "ESCALATE_TASK"
                 [("task_id", JStr task_id);
                  ("failure_count", JInt (t_failure_count t + 1))]
                 "pending" now None]> (events db)) /\
  (t_failure_count t + 1 < 3 -> events result.2 = events db) /\
  cab.1 = Return tt /\
  t_status <$> tasks cab.2 !! task_id = Some "in_progress" /\
  events cab.2 =
    <[uuid := mkEvent "developer" "REWORK_NEEDED"
                [("task_id", JStr task_id); ("reason", JStr reason)]
                "pending" now None]> (events db).
Proof.
  intros Ht Hfresh result cab. subst result cab.
  rewrite (reject_task_eq _ _ _ _ _ _ _ Ht Hfresh).
  rewrite (cab_reject_task_eq _ _ _ _ _ _ Ht Hfresh). cbn [fst snd tasks events].
  split; [reflexivity|]. split.
  { exists (rejected now reason t). rewrite lookup_insert_eq.
    split; [reflexivity|]. unfold rejected.
    destruct (member (t_status t) ["todo"; "in_review"; "in_tests"; "in_docs"]);
      simpl; repeat split; reflexivity. }
  split.
  { intros Hge. apply Z.leb_le in Hge. rewrite Hge. reflexivity. }
  split.
  { intros Hlt. apply Z.leb_gt in Hlt. rewrite Hlt. reflexivity. }
  split; [reflexivity|]. split; [|reflexivity].
  rewrite lookup_insert_eq. reflexivity.
Qed.

Lemma reject_task_counts_and_escalates_witness :
  let result :=
    StateManager.reject_task "2026-01-05 11:00:00" "e-1" "T2"
      "Found 3 linting violations" "cab" db_S2 in
  result.1 = Return tt /\
  events result.2 =
    <["e-1" := mkEvent "manager" "ESCALATE_TASK"
                 [("task_id", JStr "T2"); ("failure_count", JInt 3)]
                 "pending" "2026-01-05 11:00:00" None]> ∅.
Proof.
  intros result.
  pose proof (reject_task_counts_and_escalates
                "2026-01-05 11:00:00" "e-1" "T2" "Found 3 linting violations" "cab"
                db_S2 (task_in "in_review" (Some "dev-001") 2) eq_refl eq_refl)
    as (Hret & _ & Hesc & _).
  split; [exact Hret|]. apply Hesc. simpl. lia.
Defined.

(** C1 as stated fails.  After the third rejection of T2 the task is in
    [in_progress], not in [todo]; it still belongs to dev-001; its
    failure reason is the rejection reason; and the only event in the
    queue is the ESCALATE_TASK for the manager: no REWORK_NEEDED was
    published. *)
Lemma reject_task_third_rejection_keeps_assignee :
  let result :=
    StateManager.reject_task "2026-01-05 11:00:00" "e-1" "T2"
      "Found 3 linting violations" "cab" db_S2 in
  tasks result.2 !! "T2" =
    Some (mkTask "F1-convoy-1" "Add parser" "Parse tasks.md" "src/a.py"
            "in_progress" "P1" (Some "dev-001") "[]" None
            (Some "Found 3 linting violations") 3
            "2026-01-05 09:00:00" (Some "2026-01-05 11:00:00") None) /\
  map_to_list (events result.2) =
    [("e-1", mkEvent "manager" "ESCALATE_TASK"
               [("task_id", JStr "T2"); ("failure_count", JInt 3)]
               "pending" "2026-01-05 11:00:00" None)].
Proof. vm_compute. split; reflexivity. Qed.

(** The path the CAB agent takes never counts: three rejections through
    [CABAgent.reject_task] leave [failure_count] at 0 and publish three
    REWORK_NEEDED events and no ESCALATE_TASK. *)
Example cab_rejects_three_times :
  let db0 := with_tasks empty_db {[ "T2" := task_in "in_review" (Some "dev-001") 0 ]} in
  let db1 := (CABAgent.reject_task "2026-01-05 11:00:00" "e-1" "T2" "lint" db0).2 in
  let db2 := (CABAgent.reject_task "2026-01-05 12:00:00" "e-2" "T2" "lint" db1).2 in
  let db3 := (CABAgent.reject_task "2026-01-05 13:00:00" "e-3" "T2" "lint" db2).2 in
  t_failure_count <$> tasks db3 !! "T2" = Some 0 /\
  e_event_type <$> events db3 !! "e-1" = Some "REWORK_NEEDED" /\
  e_event_type <$> events db3 !! "e-2" = Some "REWORK_NEEDED" /\
  e_event_type <$> events db3 !! "e-3" = Some "REWORK_NEEDED" /\
  size (events db3) = 3%nat.
Proof. vm_compute. repeat split; reflexivity. Qed.

(** ** The event queue *)

Section FoldAlter.

Context {V : Type} (f : V -> V).

Lemma lookup_foldr_alter_not_in (ids : list string) (m : gmap string V) (k : string) :
  k ∉ ids -> foldr (fun id m => alter f id m) m ids !! k = m !! k.
Proof.
  induction ids as [|id ids IH]; simpl; [reflexivity|].
  intros Hk. apply not_elem_of_cons in Hk as [Hne Hk].
  rewrite lookup_alter_ne by congruence. auto.
Qed.

Lemma lookup_foldr_alter_in (ids : list string) (m : gmap string V) (k : string) :
  NoDup ids -> k ∈ ids ->
  foldr (fun id m => alter f id m) m ids !! k = f <$> m !! k.
Proof.
  induction ids as [|id ids IH]; simpl; intros Hnd Hk.
  - apply elem_of_nil in Hk. contradiction.
  - apply NoDup_cons in Hnd as [Hid Hnd].
    apply elem_of_cons in Hk as [->|Hk].
    + rewrite lookup_alter_eq, lookup_foldr_alter_not_in by assumption. reflexivity.
    + rewrite lookup_alter_ne by (intros ->; contradiction). auto.
Qed.

End FoldAlter.

Lemma sql_limit_sublist {A} (n : Z) (l : list A) : sql_limit n l `sublist_of` l.
Proof. unfold sql_limit. destruct (n <? 0); [reflexivity|apply sublist_take]. Qed.


(** [sql_limit] keeps a prefix: the list is the kept rows followed by
    the dropped ones. *)
Lemma sql_limit_prefix {A} (n : Z) (l : list A) :
  exists dropped, l = (sql_limit n l ++ dropped)%list.
Proof.
  unfold sql_limit. destruct (n <? 0).
  - exists []. rewrite app_nil_r. reflexivity.
  - exists (drop (Z.to_nat n) l). rewrite take_drop. reflexivity.
Qed.

Lemma by_event_created_at_total (r1 r2 : string * Event) :
  StateManager.by_event_created_at r1 r2 = true
  \/ StateManager.by_event_created_at r2 r1 = true.
Proof. apply String.leb_total. Qed.

Lemma by_event_created_at_trans (r1 r2 r3 : string * Event) :
  StateManager.by_event_created_at r1 r2 = true ->
  StateManager.by_event_created_at r2 r3 = true ->
  StateManager.by_event_created_at r1 r3 = true.
Proof. apply string_leb_trans. Qed.

Section PendingEvents.

Variables (agent_id : string) (limit : Z) (db : DB).

Let eligible : list (string * Event) :=
  filter (fun r : string * Event =>
            String.eqb (e_agent_id r.2) agent_id && String.eqb (e_status r.2) "pending")
         (map_to_list (events db)).

Lemma eligible_elem_of (id : string) (e : Event) :
  (id, e) ∈ eligible <->
  events db !! id = Some e /\ e_agent_id e = agent_id /\ e_status e = "pending".
Proof.
  unfold eligible. rewrite list_elem_of_filter, elem_of_map_to_list. simpl.
  rewrite andb_True, !Is_true_true, !String.eqb_eq. tauto.
Qed.

Lemma pending_events_unfold :
  StateManager.pending_events agent_id limit db
  = sql_limit limit (sort_by StateManager.by_event_created_at eligible).
Proof. reflexivity. Qed.

Lemma pending_events_elem_of (id : string) (e : Event) :
  (id, e) ∈ StateManager.pending_events agent_id limit db ->
  events db !! id = Some e /\ e_agent_id e = agent_id /\ e_status e = "pending".
Proof.
  rewrite pending_events_unfold. intros H.
  apply (fun H => elem_of_sublist _ _ _ H (sql_limit_sublist _ _)) in H.
  apply sort_by_elem_of in H. apply eligible_elem_of. exact H.
Qed.

Lemma pending_events_NoDup :
  NoDup (StateManager.pending_events agent_id limit db).*1.
Proof.
  rewrite pending_events_unfold.
  eapply sublist_NoDup; [|apply fmap_sublist, sql_limit_sublist].
  rewrite sort_by_Permutation. unfold eligible.
  eapply sublist_NoDup; [|apply fmap_sublist, sublist_filter].
  apply NoDup_fst_map_to_list.
Qed.


(** A pending event of the agent that was not returned is no older than
    any returned one. *)
Lemma pending_events_oldest (id : string) (e : Event) (r : string * Event) :
  events db !! id = Some e -> e_agent_id e = agent_id -> e_status e = "pending" ->
  (id, e) ∉ StateManager.pending_events agent_id limit db ->
  r ∈ StateManager.pending_events agent_id limit db ->
  older_or_same r (id, e).
Proof.
  rewrite pending_events_unfold. intros He Ha Hs Hnot Hr.
  destruct (sql_limit_prefix limit (sort_by StateManager.by_event_created_at eligible))
    as [dropped Heq].
  pose proof (sort_by_sorted StateManager.by_event_created_at
                by_event_created_at_total by_event_created_at_trans eligible) as Hsorted.
  assert (Hin : (id, e) ∈ sort_by StateManager.by_event_created_at eligible).
  { apply sort_by_elem_of, eligible_elem_of. auto. }
  rewrite Heq in Hsorted, Hin. apply elem_of_app in Hin as [Hin|Hin]; [contradiction|].
  exact (StronglySorted_app_1_elem_of _ _ _ _ _ Hsorted Hr Hin).
Qed.

End PendingEvents.

Lemma consume_events_lookup_in (agent_id : string) (limit : Z) (db : DB) (id : string) :
  id ∈ (StateManager.pending_events agent_id limit db).*1 ->
  events (StateManager.consume_events agent_id limit db).2 !! id
  = StateManager.processing <$> events db !! id.
Proof.
  intros Hin. unfold StateManager.consume_events. simpl.
  apply lookup_foldr_alter_in; [apply pending_events_NoDup|exact Hin].
Qed.

Lemma consume_events_lookup_not_in (agent_id : string) (limit : Z) (db : DB) (id : string) :
  id ∉ (StateManager.pending_events agent_id limit db).*1 ->
  events (StateManager.consume_events agent_id limit db).2 !! id = events db !! id.
Proof.
  intros Hnot. unfold StateManager.consume_events. simpl.
  apply lookup_foldr_alter_not_in. exact Hnot.
Qed.










Example consume_events_oldest_first :
  let result := StateManager.consume_events "tester" 1 db_queue in
  (match result.1 with Return rows => rows.*1 | Raise _ => [] end) = ["e-1"] /\
  e_status <$> events result.2 !! "e-1" = Some "processing" /\
  e_status <$> events result.2 !! "e-2" = Some "pending" /\
  (match (StateManager.consume_events "tester" 10 result.2).1 with
   | Return rows => rows.*1 | Raise _ => [] end) = ["e-2"].
Proof. vm_compute. repeat split; reflexivity. Qed.

(** ** Acknowledgement *)

(** C7, as the code has it.  [acknowledge_event] has no condition on
    the current status: whatever it is, the event with the given id gets
    status [done] or [failed] and a fresh [processed_at]; the call
    changes nothing only when no event has that id; every other event
    and every other table is left alone. *)
Theorem acknowledge_event_any_status
    (now event_id : string) (success : bool) (db : DB) :
  let result := StateManager.acknowledge_event now event_id success db in
  result.1 = Return tt /\
  (forall e, events db !! event_id = Some e ->
     events result.2 !! event_id =
     Some (mkEvent (e_agent_id e) (e_event_type e) (e_payload e)
             (if success then "done" else "failed") (e_created_at e) (Some now))) /\
  (events db !! event_id = None -> events result.2 = events db) /\
  (forall id, id <> event_id -> events result.2 !! id = events db !! id) /\
  features result.2 = features db /\ convoys result.2 = convoys db /\
  tasks result.2 = tasks db /\ agent_sessions result.2 = agent_sessions db.
Proof.
  unfold StateManager.acknowledge_event, execute, with_events. cbn [fst snd events].
  split; [reflexivity|]. split.
  { intros e He. rewrite lookup_alter_eq, He. reflexivity. }
  split.
  { intros Hnone. apply map_eq. intros k.
    destruct (decide (k = event_id)) as [->|Hne].
    - rewrite lookup_alter_eq, Hnone. reflexivity.
    - rewrite lookup_alter_ne by congruence. reflexivity. }
  split.
  { intros id Hne. rewrite lookup_alter_ne by congruence. reflexivity. }
  repeat split; reflexivity.
Qed.

(** C7 as stated fails.  An event that is already [done] gets a new
    [processed_at] when it is acknowledged again, and becomes [failed]
    when the second acknowledgement reports failure; a [pending] event
    is marked [done] without ever having been consumed. *)
Lemma acknowledge_event_rewrites_done_event :
  let done_event :=
    mkEvent "tester" "RUN_TESTS" [("task_id", JStr "T1")] "done"
      "2026-01-05 10:00:00" (Some "2026-01-05 10:05:00") in
  let pending_event :=
    mkEvent "tester" "RUN_TESTS" [("task_id", JStr "T2")] "pending"
      "2026-01-05 10:01:00" None in
  let db := with_events empty_db {[ "e-1" := done_event; "e-2" := pending_event ]} in
  events (StateManager.acknowledge_event "2026-01-05 12:00:00" "e-1" true db).2 !! "e-1"
  = Some (mkEvent "tester" "RUN_TESTS" [("task_id", JStr "T1")] "done"
            "2026-01-05 10:00:00" (Some "2026-01-05 12:00:00")) /\
  events (StateManager.acknowledge_event "2026-01-05 12:00:00" "e-1" false db).2 !! "e-1"
  = Some (mkEvent "tester" "RUN_TESTS" [("task_id", JStr "T1")] "failed"
            "2026-01-05 10:00:00" (Some "2026-01-05 12:00:00")) /\
  events (StateManager.acknowledge_event "2026-01-05 12:00:00" "e-2" true db).2 !! "e-2"
  = Some (mkEvent "tester" "RUN_TESTS" [("task_id", JStr "T2")] "done"
            "2026-01-05 10:01:00" (Some "2026-01-05 12:00:00")).
Proof. vm_compute. repeat split; reflexivity. Qed.

(** ** File overlap *)

Lemma select_convoys_all_elem_of (feature_id : string) (db : DB) (r : string * Convoy) :
  r ∈ StateManager.select_convoys feature_id None db <->
  convoys db !! r.1 = Some r.2 /\ c_feature_id r.2 = feature_id.
Proof.
  unfold StateManager.select_convoys. simpl.
  rewrite sort_by_elem_of, list_elem_of_filter.
  destruct r as [id c]. rewrite elem_of_map_to_list. simpl.
  rewrite Is_true_true, String.eqb_eq. tauto.
Qed.

Lemma select_convoys_status_elem_of (feature_id status : string) (db : DB)
    (r : string * Convoy) :
  status <> "" ->
  r ∈ StateManager.select_convoys feature_id (Some status) db <->
  convoys db !! r.1 = Some r.2 /\ c_feature_id r.2 = feature_id /\ c_status r.2 = status.
Proof.
  intros Hne. unfold StateManager.select_convoys, truthy.
  destruct (String.eqb_spec status "") as [|_]; [contradiction|]. simpl.
  rewrite sort_by_elem_of, list_elem_of_filter.
  destruct r as [id c]. rewrite elem_of_map_to_list. simpl.
  rewrite andb_True, Is_true_true, String.eqb_eq, bool_decide_spec.
  split; [intros [[? ?] ?]|intros (? & ? & ?)]; repeat split; congruence.
Qed.











Lemma select_convoys_NoDup (feature_id : string) (status : option string) (db : DB) :
  NoDup (StateManager.select_convoys feature_id status db).*1.
Proof.
  unfold StateManager.select_convoys.
  destruct (truthy status); rewrite sort_by_Permutation;
    (eapply sublist_NoDup; [|apply fmap_sublist, sublist_filter]);
    apply NoDup_fst_map_to_list.
Qed.








(** The message of scenario S4 names the convoy and the shared file. *)
Example validate_no_file_conflicts_names_the_file :
  (StateManager.validate_no_file_conflicts "F1" ["src/b.py"; "src/c.py"] db_S4).1 =
  Raise (ValueError
           ("File conflicts detected for feature F1:" ++ StateManager.nl
            ++ "  - Convoy c1: src/b.py" ++ StateManager.nl)).
Proof. vm_compute. reflexivity. Qed.


(** ** The gate pass rule *)

Lemma all_gates_passed_iff (results : list QualityGates.GateResult) :
  QualityGates.all_gates_passed results = true <->
  forall r, r ∈ results ->
    QualityGates.status r <> QualityGates.FAIL /\
    QualityGates.status r <> QualityGates.ERROR.
Proof.
  induction results as [|r results IH]; simpl.
  - split; [|reflexivity]. intros _ r Hr. apply elem_of_nil in Hr. contradiction.
  - split.
    + intros H r' Hr'. apply elem_of_cons in Hr' as [->|Hr'].
      * destruct (QualityGates.status r); split; congruence.
      * apply IH; [|exact Hr']. destruct (QualityGates.status r); congruence.
    + intros H. destruct (H r (list_elem_of_here _ _)) as [Hf He].
      destruct (QualityGates.status r); try congruence;
        apply IH; intros r' Hr'; apply H, list_elem_of_further, Hr'.
Qed.

(** An exception that escapes an optional gate is recorded as SKIP, one
    that escapes a required gate as ERROR; a result that the gate
    returns is recorded as it is, whether the gate is required or
    not. *)
Lemma run_gate_records (tools : QualityGates.GateType -> QualityGates.tool_run)
    (g : QualityGates.GateType) (required : bool)
    (results : list QualityGates.GateResult) :
  (forall r, tools g = QualityGates.Finished r ->
     QualityGates.run_gate tools g required results = (r, (results ++ [r])%list)) /\
  (forall e, tools g = QualityGates.Crashed e ->
     QualityGates.status (QualityGates.run_gate tools g required results).1
     = if required then QualityGates.ERROR else QualityGates.SKIP).
Proof.
  unfold QualityGates.run_gate. split.
  - intros r ->. reflexivity.
  - intros e ->. reflexivity.
Qed.

(** C6 on the code.  When the mutation gate, which stage [tests] runs
    as optional, returns FAIL or ERROR, that result is among the results
    of the stage and [all_gates_passed] is false, whatever the coverage
    gate did. *)
Theorem optional_gate_failure_blocks_the_stage
    (tools : QualityGates.GateType -> QualityGates.tool_run)
    (r : QualityGates.GateResult) :
  tools QualityGates.MUTATION = QualityGates.Finished r ->
  QualityGates.status r = QualityGates.FAIL \/
  QualityGates.status r = QualityGates.ERROR ->
  let results := QualityGates.run_all_gates tools "tests" in
  r ∈ results /\ QualityGates.all_gates_passed results = false.
Proof.
  intros Hm Hs results. subst results.
  unfold QualityGates.run_all_gates, QualityGates.run_gate.
  rewrite Hm. cbn.
  split.
  - apply list_elem_of_further, list_elem_of_here.
  - destruct (tools QualityGates.COVERAGE) as [cov|e]; simpl.
    + destruct (QualityGates.status cov); try reflexivity;
        destruct Hs as [-> | ->]; reflexivity.
    + reflexivity.
Qed.

(** On that run the rule of the specification and the code part ways. *)
Example pass_rule_divergence :
  let results := QualityGates.run_all_gates tools_weak_mutation "tests" in
  specified_all_passed "tests" results = true /\
  QualityGates.all_gates_passed results = false.
Proof. split; reflexivity. Qed.

Lemma optional_gate_failure_blocks_the_stage_witness :
  QualityGates.run_all_gates tools_weak_mutation "tests" =
    [ QualityGates.mkGateResult QualityGates.COVERAGE QualityGates.PASS
        "Coverage 91.0% meets threshold 80%";
      QualityGates.mkGateResult QualityGates.MUTATION QualityGates.FAIL
        "Mutation score 50.0% below threshold 80%" ] /\
  QualityGates.all_gates_passed
    (QualityGates.run_all_gates tools_weak_mutation "tests") = false.
Proof.
  split; [reflexivity|].
  exact (proj2 (optional_gate_failure_blocks_the_stage tools_weak_mutation
                  (QualityGates.mkGateResult QualityGates.MUTATION QualityGates.FAIL
                     "Mutation score 50.0% below threshold 80%")
                  eq_refl (or_introl eq_refl))).
Defined.

(** ** Completion detection *)

Lemma select_tasks_all_elem_of (convoy_id : string) (db : DB) (r : string * Task) :
  r ∈ StateManager.select_tasks convoy_id None db <->
  tasks db !! r.1 = Some r.2 /\ t_convoy_id r.2 = convoy_id.
Proof.
  unfold StateManager.select_tasks. simpl.
  rewrite sort_by_elem_of, list_elem_of_filter.
  destruct r as [id t]. rewrite elem_of_map_to_list. simpl.
  rewrite Is_true_true, String.eqb_eq. tauto.
Qed.

Lemma check_convoy_completion_eq (now convoy_id : string) (db : DB) :
  StateManager.check_convoy_completion now convoy_id db =
  match StateManager.select_tasks convoy_id None db with
  | [] => (Return false, db)
  | rows =>
      if forallb (fun r : string * Task => String.eqb (t_status r.2) "done") rows
      then (Return true,
            (StateManager.update_convoy_status now convoy_id "done" None db).2)
      else (Return false, db)
  end.
Proof.
  unfold StateManager.check_convoy_completion, StateManager.list_tasks_by_convoy,
    bind, query, ret.
  destruct (StateManager.select_tasks convoy_id None db) as [|r rows]; [reflexivity|].
  destruct (forallb _ (r :: rows)); [|reflexivity].
  unfold StateManager.update_convoy_status.
  destruct (convoys db !! convoy_id); reflexivity.
Qed.

Lemma check_feature_completion_eq (now feature_id : string) (db : DB) :
  StateManager.check_feature_completion now feature_id db =
  match StateManager.select_convoys feature_id None db with
  | [] => (Return false, db)
  | rows =>
      if forallb (fun r : string * Convoy => String.eqb (c_status r.2) "done") rows
      then (Return true,
            (StateManager.update_feature_status now feature_id "done" db).2)
      else (Return false, db)
  end.
Proof.
  unfold StateManager.check_feature_completion, StateManager.list_convoys_by_feature,
    bind, query, ret.
  destruct (StateManager.select_convoys feature_id None db) as [|r rows]; [reflexivity|].
  destruct (forallb _ (r :: rows)); [|reflexivity].
  unfold StateManager.update_feature_status.
  destruct (features db !! feature_id); reflexivity.
Qed.

Lemma nil_iff_no_elem {A} (l : list A) : l = [] <-> forall x, x ∉ l.
Proof.
  split; [intros -> x; apply not_elem_of_nil|].
  destruct l as [|x l]; [reflexivity|].
  intros H. destruct (H x). apply list_elem_of_here.
Qed.

(** C9. A convoy without tasks is never completed: the check returns
    false and the database stays as it was; likewise for a feature
    without convoys.  In general the convoy check returns true exactly
    when the convoy has a task and all of its tasks are done. *)
Theorem completion_needs_a_member (now convoy_id feature_id : string) (db : DB) :
  ((forall id t, tasks db !! id = Some t -> t_convoy_id t <> convoy_id) ->
   StateManager.check_convoy_completion now convoy_id db = (Return false, db)) /\
  ((forall id c, convoys db !! id = Some c -> c_feature_id c <> feature_id) ->
   StateManager.check_feature_completion now feature_id db = (Return false, db)) /\
  ((StateManager.check_convoy_completion now convoy_id db).1 = Return true <->
   (exists id t, tasks db !! id = Some t /\ t_convoy_id t = convoy_id) /\
   (forall id t, tasks db !! id = Some t -> t_convoy_id t = convoy_id ->
      t_status t = "done")) /\
  ((StateManager.check_feature_completion now feature_id db).1 = Return true <->
   (exists id c, convoys db !! id = Some c /\ c_feature_id c = feature_id) /\
   (forall id c, convoys db !! id = Some c -> c_feature_id c = feature_id ->
      c_status c = "done")).
Proof.
  split; [|split; [|split]].
  - intros Hnone. rewrite check_convoy_completion_eq.
    assert (Hnil : StateManager.select_tasks convoy_id None db = []).
    { apply nil_iff_no_elem. intros [id t] Hin.
      apply select_tasks_all_elem_of in Hin as [Hrow Hc]. exact (Hnone id t Hrow Hc). }
    rewrite Hnil. reflexivity.
  - intros Hnone. rewrite check_feature_completion_eq.
    assert (Hnil : StateManager.select_convoys feature_id None db = []).
    { apply nil_iff_no_elem. intros [id c] Hin.
      apply select_convoys_all_elem_of in Hin as [Hrow Hc]. exact (Hnone id c Hrow Hc). }
    rewrite Hnil. reflexivity.
  - rewrite check_convoy_completion_eq.
    destruct (StateManager.select_tasks convoy_id None db) as [|r rows] eqn:Hsel.
    + split; [discriminate|]. intros [(id & t & Hrow & Hc) _].
      assert (Hin : (id, t) ∈ StateManager.select_tasks convoy_id None db)
        by (apply select_tasks_all_elem_of; auto).
      rewrite Hsel in Hin. apply elem_of_nil in Hin. contradiction.
    + destruct (forallb _ (r :: rows)) eqn:Hall; simpl.
      * split; [intros _|reflexivity]. split.
        -- exists r.1, r.2. apply select_tasks_all_elem_of.
           rewrite Hsel. destruct r. apply list_elem_of_here.
        -- intros id t Hrow Hc. rewrite forallb_forall in Hall.
           apply String.eqb_eq.
           apply (Hall (id, t)), list_elem_of_In. rewrite <- Hsel.
           apply select_tasks_all_elem_of. auto.
      * split; [discriminate|]. intros [_ Hdone].
        assert (Htrue : forallb (fun r : string * Task =>
                                   String.eqb (t_status r.2) "done") (r :: rows) = true).
        { apply forallb_forall. intros [id t] Hin. apply String.eqb_eq.
          apply list_elem_of_In in Hin. rewrite <- Hsel in Hin.
          apply select_tasks_all_elem_of in Hin as [Hrow Hc]. exact (Hdone id t Hrow Hc). }
        congruence.
  - rewrite check_feature_completion_eq.
    destruct (StateManager.select_convoys feature_id None db) as [|r rows] eqn:Hsel.
    + split; [discriminate|]. intros [(id & c & Hrow & Hc) _].
      assert (Hin : (id, c) ∈ StateManager.select_convoys feature_id None db)
        by (apply select_convoys_all_elem_of; auto).
      rewrite Hsel in Hin. apply elem_of_nil in Hin. contradiction.
    + destruct (forallb _ (r :: rows)) eqn:Hall; simpl.
      * split; [intros _|reflexivity]. split.
        -- exists r.1, r.2. apply select_convoys_all_elem_of.
           rewrite Hsel. destruct r. apply list_elem_of_here.
        -- intros id c Hrow Hc. rewrite forallb_forall in Hall.
           apply String.eqb_eq.
           apply (Hall (id, c)), list_elem_of_In. rewrite <- Hsel.
           apply select_convoys_all_elem_of. auto.
      * split; [discriminate|]. intros [_ Hdone].
        assert (Htrue : forallb (fun r : string * Convoy =>
                                   String.eqb (c_status r.2) "done") (r :: rows) = true).
        { apply forallb_forall. intros [id c] Hin. apply String.eqb_eq.
          apply list_elem_of_In in Hin. rewrite <- Hsel in Hin.
          apply select_convoys_all_elem_of in Hin as [Hrow Hc]. exact (Hdone id c Hrow Hc). }
        congruence.
Qed.

Lemma completion_needs_a_member_witness :
  StateManager.check_convoy_completion "2026-01-05 12:00:00" "F1-convoy-1"
    db_empty_convoy = (Return false, db_empty_convoy) /\
  StateManager.check_feature_completion "2026-01-05 12:00:00" "F2"
    db_empty_convoy = (Return false, db_empty_convoy).
Proof.
  pose proof (completion_needs_a_member "2026-01-05 12:00:00" "F1-convoy-1" "F2"
                db_empty_convoy) as (Hconvoy & Hfeature & _).
  split.
  - apply Hconvoy. intros id t Hrow.
    change (tasks db_empty_convoy) with (∅ : gmap string Task) in Hrow.
    rewrite lookup_empty in Hrow. discriminate.
  - apply Hfeature. intros id c Hrow Hf.
    apply elem_of_map_to_list in Hrow.
    assert (Hrows : map_to_list (convoys db_empty_convoy) =
                    [("F1-convoy-1",
                      mkConvoy "F1" "Placeholder Story" "P1" "available"
                        ["placeholder.py"] (Some []) None "2026-01-05 09:00:00"
                        None None)])
      by (vm_compute; reflexivity).
    rewrite Hrows in Hrow. apply list_elem_of_singleton in Hrow.
    inversion Hrow; subst. discriminate Hf.
Defined.

(** ** Heartbeat *)

(** C10. [record_heartbeat] has no effect on a session that is not
    active (crashed, hung, stuck): the whole database is unchanged.  On
    an active session it replaces [last_heartbeat] and keeps every other
    column.  In both cases every other session and every other table is
    untouched. *)
Theorem record_heartbeat_only_refreshes_active (now agent_id : string) (db : DB) :
  let result := HealthMonitor.record_heartbeat now agent_id db in
  result.1 = Return tt /\
  (forall s, agent_sessions db !! agent_id = Some s -> s_status s <> "active" ->
     result.2 = db) /\
  (agent_sessions db !! agent_id = None -> result.2 = db) /\
  (forall s, agent_sessions db !! agent_id = Some s -> s_status s = "active" ->
     agent_sessions result.2 !! agent_id =
     Some (mkAgentSession (s_agent_type s) (s_convoy_id s) (s_current_task s)
             (s_worktree s) (s_status s) now (s_started_at s) (s_crashed_at s))) /\
  (forall id, id <> agent_id ->
     agent_sessions result.2 !! id = agent_sessions db !! id) /\
  features result.2 = features db /\ convoys result.2 = convoys db /\
  tasks result.2 = tasks db /\ events result.2 = events db.
Proof.
  unfold HealthMonitor.record_heartbeat, execute, with_agent_sessions.
  cbn [fst snd agent_sessions features convoys tasks events].
  split; [reflexivity|]. split.
  { intros s Hs Hna. destruct db as [fs cs ts es ss]. simpl in *. f_equal.
    apply map_eq. intros k. destruct (decide (k = agent_id)) as [->|Hne].
    - rewrite lookup_alter_eq, Hs. simpl.
      destruct (String.eqb_spec (s_status s) "active"); [contradiction|reflexivity].
    - rewrite lookup_alter_ne by congruence. reflexivity. }
  split.
  { intros Hnone. destruct db as [fs cs ts es ss]. simpl in *. f_equal.
    apply map_eq. intros k. destruct (decide (k = agent_id)) as [->|Hne].
    - rewrite lookup_alter_eq, Hnone. reflexivity.
    - rewrite lookup_alter_ne by congruence. reflexivity. }
  split.
  { intros s Hs Ha. rewrite lookup_alter_eq, Hs. simpl.
    destruct (String.eqb_spec (s_status s) "active"); [reflexivity|contradiction]. }
  split.
  { intros id Hne. rewrite lookup_alter_ne by congruence. reflexivity. }
  repeat split; reflexivity.
Qed.

Example heartbeat_of_a_hung_agent_is_ignored :
  let hung :=
    mkAgentSession "developer" (Some "F1-convoy-1") (Some "T1") (Some "/wt/dev-001")
      "hung" "2026-01-05 09:00:00" "2026-01-05 08:00:00" None in
  let db := with_agent_sessions empty_db {[ "dev-001" := hung ]} in
  agent_sessions (HealthMonitor.record_heartbeat "2026-01-05T12:00:00.000001" "dev-001" db).2
    !! "dev-001" = Some hung.
Proof. vm_compute. reflexivity. Qed.

(** ** The convoy allocator *)

Lemma dependencies_met_iff (db : DB) (convoy_id : string) (c : Convoy) :
  convoys db !! convoy_id = Some c ->
  ConvoyAllocator.dependencies_met db convoy_id = true <-> dependencies_done db c.
Proof.
  intros Hc. unfold ConvoyAllocator.dependencies_met, dependencies_done. rewrite Hc.
  destruct (c_dependencies c) as [deps|].
  - rewrite forallb_forall. split.
    + intros H deps' dep [= <-] Hin.
      apply list_elem_of_In, H in Hin. unfold ConvoyAllocator.dependency_done in Hin.
      destruct (convoys db !! dep) as [d|]; [|discriminate].
      exists d. split; [reflexivity|]. apply String.eqb_eq. exact Hin.
    + intros H dep Hin. apply list_elem_of_In in Hin.
      destruct (H deps dep eq_refl Hin) as (d & Hd & Hs).
      unfold ConvoyAllocator.dependency_done. rewrite Hd. apply String.eqb_eq. exact Hs.
  - split; [intros _ deps dep; discriminate|reflexivity].
Qed.

Lemma update_convoy_status_ok (now convoy_id status : string) (assignee : option string)
    (db : DB) (c : Convoy) :
  convoys db !! convoy_id = Some c ->
  member status CONVOY_STATUSES = true ->
  StateManager.update_convoy_status now convoy_id status assignee db =
  (Return tt,
   with_convoys db
     (<[convoy_id := StateManager.set_convoy_status now status assignee c]> (convoys db))).
Proof.
  intros Hc Hs. unfold StateManager.update_convoy_status. rewrite Hc, Hs.
  do 2 f_equal. apply map_eq. intros k.
  destruct (decide (k = convoy_id)) as [->|Hne].
  - rewrite lookup_alter_eq, lookup_insert_eq, Hc. reflexivity.
  - rewrite lookup_alter_ne, lookup_insert_ne by congruence. reflexivity.
Qed.

Lemma by_allocation_key_total (r1 r2 : string * Convoy) :
  ConvoyAllocator.by_allocation_key r1 r2 = true
  \/ ConvoyAllocator.by_allocation_key r2 r1 = true.
Proof. apply pair_leb_total. Qed.

Lemma by_allocation_key_trans (r1 r2 r3 : string * Convoy) :
  ConvoyAllocator.by_allocation_key r1 r2 = true ->
  ConvoyAllocator.by_allocation_key r2 r3 = true ->
  ConvoyAllocator.by_allocation_key r1 r3 = true.
Proof. apply pair_leb_trans. Qed.

Lemma by_allocation_key_served_first (r1 r2 : string * Convoy) :
  ConvoyAllocator.by_allocation_key r1 r2 = true <-> served_first r1.2 r2.2.
Proof.
  unfold ConvoyAllocator.by_allocation_key, ConvoyAllocator.allocation_key, served_first.
  rewrite pair_leb_spec. simpl. unfold String.ltb.
  destruct (String.compare (c_priority r1.2) (c_priority r2.2));
    intuition congruence.
Qed.

Lemma allocate_next_convoy_unfold (now feature_id agent_id : string) (db : DB) :
  ConvoyAllocator.allocate_next_convoy now feature_id agent_id db =
  match sort_by ConvoyAllocator.by_allocation_key
          (StateManager.select_convoys feature_id (Some "available") db) with
  | [] => (Return None, db)
  | convoy :: _ =>
      if ConvoyAllocator.dependencies_met db convoy.1
      then match StateManager.update_convoy_status now convoy.1 "in_progress"
                   (Some agent_id) db with
           | (Return _, db') => (Return (Some convoy.1), db')
           | (Raise e, db') => (Raise e, db')
           end
      else (Return None, db)
  end.
Proof.
  unfold ConvoyAllocator.allocate_next_convoy, StateManager.list_convoys_by_feature,
    ConvoyAllocator.check_convoy_dependencies_met, bind, query, ret.
  destruct (sort_by _ _) as [|convoy rest]; [reflexivity|].
  destruct (ConvoyAllocator.dependencies_met db convoy.1); [|reflexivity].
  cbn [negb]. destruct (StateManager.update_convoy_status _ _ _ _ db) as [[[]|e] db'];
    reflexivity.
Qed.

(** The candidates of [allocate_next_convoy], in the order it tries
    them. *)
Lemma allocate_next_convoy_eq (now feature_id agent_id : string) (db : DB) :
  StateManager.select_convoys feature_id (Some "available") db = [] /\
  ConvoyAllocator.allocate_next_convoy now feature_id agent_id db = (Return None, db)
  \/
  exists id c rest,
    sort_by ConvoyAllocator.by_allocation_key
      (StateManager.select_convoys feature_id (Some "available") db) = (id, c) :: rest /\
    convoys db !! id = Some c /\ c_feature_id c = feature_id /\
    c_status c = "available" /\
    ConvoyAllocator.allocate_next_convoy now feature_id agent_id db =
    if ConvoyAllocator.dependencies_met db id
    then (Return (Some id),
          with_convoys db
            (<[id := StateManager.set_convoy_status now "in_progress" (Some agent_id) c]>
               (convoys db)))
    else (Return None, db).
Proof.
  rewrite allocate_next_convoy_unfold.
  destruct (sort_by ConvoyAllocator.by_allocation_key
              (StateManager.select_convoys feature_id (Some "available") db))
    as [|[id c] rest] eqn:Hsort.
  - left. split; [|reflexivity].
    apply nil_iff_no_elem. intros r Hr.
    apply (sort_by_elem_of ConvoyAllocator.by_allocation_key) in Hr.
    rewrite Hsort in Hr. apply elem_of_nil in Hr. contradiction.
  - right. exists id, c, rest. split; [reflexivity|].
    assert (Hin : (id, c) ∈ StateManager.select_convoys feature_id (Some "available") db).
    { apply (sort_by_elem_of ConvoyAllocator.by_allocation_key).
      rewrite Hsort. apply list_elem_of_here. }
    apply select_convoys_status_elem_of in Hin as (Hrow & Hf & Hs); [|discriminate].
    simpl in Hrow, Hf, Hs. repeat (split; [assumption|]).
    cbn [fst].
    rewrite (update_convoy_status_ok now id "in_progress" (Some agent_id) db c Hrow eq_refl).
    reflexivity.
Qed.

Lemma swept_refl (db : DB) : swept db db.
Proof. intros id. destruct (convoys db !! id); auto. Qed.

Lemma swept_trans (db1 db2 db3 : DB) : swept db1 db2 -> swept db2 db3 -> swept db1 db3.
Proof.
  intros H12 H23 id. specialize (H12 id). specialize (H23 id).
  destruct (convoys db1 !! id) as [c1|], (convoys db2 !! id) as [c2|],
    (convoys db3 !! id) as [c3|]; try contradiction; auto.
  destruct H12 as [->|(Hnd & Hav & Hf & Hdep)]; [exact H23|].
  destruct H23 as [->|(_ & Hav' & Hf' & Hdep')]; right; repeat split; congruence.
Qed.

Lemma swept_update (now id : string) (db : DB) (c : Convoy) :
  convoys db !! id = Some c -> c_status c <> "done" ->
  swept db
    (with_convoys db
       (<[id := StateManager.set_convoy_status now "available" None c]> (convoys db))).
Proof.
  intros Hc Hnd k. cbn [with_convoys convoys].
  destruct (decide (k = id)) as [->|Hne].
  - rewrite lookup_insert_eq, Hc. right. repeat split; auto.
  - rewrite lookup_insert_ne by congruence. destruct (convoys db !! k); auto.
Qed.

Lemma swept_done (db db' : DB) (id : string) (c : Convoy) :
  swept db db' -> convoys db !! id = Some c -> c_status c = "done" ->
  convoys db' !! id = Some c.
Proof.
  intros Hsw Hc Hd. specialize (Hsw id). rewrite Hc in Hsw.
  destruct (convoys db' !! id) as [c'|]; [|contradiction].
  destruct Hsw as [->|(Hnd & _)]; [reflexivity|contradiction].
Qed.

Lemma swept_not_done (db db' : DB) (id : string) :
  swept db db' ->
  (forall c, convoys db !! id = Some c -> c_status c <> "done") ->
  forall c', convoys db' !! id = Some c' -> c_status c' <> "done".
Proof.
  intros Hsw Hnd c' Hc'. specialize (Hsw id). rewrite Hc' in Hsw.
  destruct (convoys db !! id) as [c|]; [|contradiction].
  destruct Hsw as [->|(_ & Hav & _)]; [auto|]. rewrite Hav. discriminate.
Qed.

Lemma swept_dependencies_met (db db' : DB) (id : string) :
  swept db db' ->
  ConvoyAllocator.dependencies_met db id = true ->
  ConvoyAllocator.dependencies_met db' id = true.
Proof.
  intros Hsw. unfold ConvoyAllocator.dependencies_met.
  pose proof (Hsw id) as Hid.
  destruct (convoys db !! id) as [c|]; [|discriminate].
  destruct (convoys db' !! id) as [c'|]; [|contradiction].
  assert (Hdeps : c_dependencies c' = c_dependencies c)
    by (destruct Hid as [->|(_ & _ & _ & ?)]; auto).
  rewrite Hdeps. destruct (c_dependencies c) as [deps|]; [|reflexivity].
  rewrite !forallb_forall. intros H dep Hin. specialize (H dep Hin).
  unfold ConvoyAllocator.dependency_done in *.
  destruct (convoys db !! dep) as [d|] eqn:Hd; [|discriminate].
  apply String.eqb_eq in H.
  rewrite (swept_done db db' dep d Hsw Hd H). apply String.eqb_eq. exact H.
Qed.

Lemma swept_available (db db' : DB) (id : string) (c : Convoy) :
  swept db db' -> convoys db !! id = Some c -> c_status c = "available" ->
  exists c', convoys db' !! id = Some c' /\ c_status c' = "available" /\
             c_feature_id c' = c_feature_id c.
Proof.
  intros Hsw Hc Hav. specialize (Hsw id). rewrite Hc in Hsw.
  destruct (convoys db' !! id) as [c'|]; [|contradiction].
  exists c'. destruct Hsw as [->|(_ & Hav' & Hf & _)]; auto.
Qed.

Lemma dependencies_met_exists (db : DB) (id : string) :
  ConvoyAllocator.dependencies_met db id = true -> exists c, convoys db !! id = Some c.
Proof.
  unfold ConvoyAllocator.dependencies_met.
  destruct (convoys db !! id) as [c|]; [eauto|discriminate].
Qed.

Lemma unblock_loop_swept (now : string) (rows : list (string * Convoy)) :
  forall (count : Z) (db : DB),
    (forall r, r ∈ rows -> forall c, convoys db !! r.1 = Some c -> c_status c <> "done") ->
    exists n db',
      ConvoyAllocator.unblock_loop now rows count db = (Return n, db') /\
      swept db db' /\
      features db' = features db /\ tasks db' = tasks db /\
      events db' = events db /\ agent_sessions db' = agent_sessions db /\
      forall id, id ∈ rows.*1 -> ConvoyAllocator.dependencies_met db id = true ->
        exists c', convoys db' !! id = Some c' /\ c_status c' = "available".
Proof.
  induction rows as [|r rows IH]; intros count db Hnd.
  - exists count, db. simpl. unfold ret.
    repeat (split; [first [reflexivity | apply swept_refl]|]).
    intros id Hin. apply elem_of_nil in Hin. contradiction.
  - cbn [ConvoyAllocator.unblock_loop].
    unfold bind at 1. unfold ConvoyAllocator.check_convoy_dependencies_met at 1.
    unfold query at 1. cbv beta iota.
    destruct (ConvoyAllocator.dependencies_met db r.1) eqn:Hmet.
    + destruct (dependencies_met_exists _ _ Hmet) as [c Hc].
      unfold bind at 1.
      rewrite (update_convoy_status_ok now r.1 "available" None db c Hc eq_refl).
      set (db1 := with_convoys db _).
      assert (Hsw1 : swept db db1).
      { apply swept_update; [exact Hc|]. apply (Hnd r (list_elem_of_here _ _) c Hc). }
      destruct (IH (count + 1) db1) as (n & db' & Hrun & Hsw & Hf & Ht & He & Ha & Hav).
      { intros r' Hr'. apply (swept_not_done db db1 r'.1 Hsw1).
        intros c' Hc'. apply (Hnd r' (list_elem_of_further _ _ _ Hr') c' Hc'). }
      exists n, db'. split; [exact Hrun|].
      split; [exact (swept_trans _ _ _ Hsw1 Hsw)|].
      repeat (split; [assumption|]).
      intros id Hin Hid. rewrite fmap_cons in Hin.
      destruct (decide (id ∈ rows.*1)) as [Hrest|Hnot].
      * apply Hav; [exact Hrest|]. exact (swept_dependencies_met _ _ _ Hsw1 Hid).
      * apply elem_of_cons in Hin as [->|Hin]; [|contradiction].
        assert (Hc1 : convoys db1 !! r.1
                      = Some (StateManager.set_convoy_status now "available" None c))
          by (subst db1; cbn [with_convoys convoys]; apply lookup_insert_eq).
        destruct (swept_available db1 db' r.1 _ Hsw Hc1 eq_refl) as (c' & Hc' & Hs' & _).
        exists c'. auto.
    + destruct (IH count db) as (n & db' & Hrun & Hsw & Hf & Ht & He & Ha & Hav).
      { intros r' Hr'. apply (Hnd r' (list_elem_of_further _ _ _ Hr')). }
      exists n, db'. split; [exact Hrun|].
      repeat (split; [assumption|]).
      intros id Hin Hid. rewrite fmap_cons in Hin.
      apply elem_of_cons in Hin as [->|Hin]; [congruence|]. auto.
Qed.

Lemma unblock_dependent_convoys_flips (now completed cid : string) (db : DB)
    (cc c : Convoy) :
  convoys db !! completed = Some cc ->
  convoys db !! cid = Some c ->
  c_feature_id c = c_feature_id cc ->
  c_status c = "blocked" ->
  dependencies_done db c ->
  exists n db',
    ConvoyAllocator.unblock_dependent_convoys now completed db = (Return n, db') /\
    swept db db' /\
    features db' = features db /\ tasks db' = tasks db /\
    events db' = events db /\ agent_sessions db' = agent_sessions db /\
    exists c', convoys db' !! cid = Some c' /\ c_status c' = "available" /\
               c_feature_id c' = c_feature_id c /\ dependencies_done db' c'.
Proof.
  intros Hcc Hc Hf Hs Hdeps.
  unfold ConvoyAllocator.unblock_dependent_convoys, StateManager.get_convoy,
    StateManager.list_convoys_by_feature.
  unfold bind at 1. unfold query at 1. cbv beta iota. rewrite Hcc.
  unfold bind at 1. unfold query at 1. cbv beta iota.
  set (rows := StateManager.select_convoys (c_feature_id cc) (Some "blocked") db).
  destruct (unblock_loop_swept now rows 0 db)
    as (n & db' & Hrun & Hsw & Hfe & Ht & He & Ha & Hav).
  { intros [id r] Hin c0 Hc0. subst rows.
    apply select_convoys_status_elem_of in Hin as (Hrow & _ & Hst); [|discriminate].
    simpl in *. assert (c0 = r) by congruence. subst. rewrite Hst. discriminate. }
  exists n, db'. split; [exact Hrun|]. split; [exact Hsw|].
  repeat (split; [assumption|]).
  assert (Hmet : ConvoyAllocator.dependencies_met db cid = true)
    by (apply (dependencies_met_iff db cid c Hc), Hdeps).
  destruct (Hav cid) as (c' & Hc' & Hs').
  { apply list_elem_of_fmap. exists (cid, c). split; [reflexivity|]. subst rows.
    apply select_convoys_status_elem_of; [discriminate|]. auto. }
  { exact Hmet. }
  exists c'. split; [exact Hc'|]. split; [exact Hs'|]. split.
  - pose proof (Hsw cid) as Hid. rewrite Hc, Hc' in Hid.
    destruct Hid as [->|(_ & _ & ? & _)]; auto.
  - apply (dependencies_met_iff db' cid c' Hc').
    exact (swept_dependencies_met _ _ _ Hsw Hmet).
Qed.

Lemma allocated_was_first (now feature_id agent_id cid : string) (db : DB) :
  (ConvoyAllocator.allocate_next_convoy now feature_id agent_id db).1
  = Return (Some cid) ->
  exists c,
    convoys db !! cid = Some c /\ c_feature_id c = feature_id /\
    c_status c = "available" /\ dependencies_done db c /\
    (forall id' c', convoys db !! id' = Some c' -> c_feature_id c' = feature_id ->
       c_status c' = "available" -> served_first c c') /\
    ConvoyAllocator.allocate_next_convoy now feature_id agent_id db =
    (Return (Some cid),
     with_convoys db
       (<[cid := StateManager.set_convoy_status now "in_progress" (Some agent_id) c]>
          (convoys db))).
Proof.
  destruct (allocate_next_convoy_eq now feature_id agent_id db)
    as [[_ ->]|(id & c & rest & Hsort & Hrow & Hf & Hs & ->)]; [discriminate|].
  destruct (ConvoyAllocator.dependencies_met db id) eqn:Hmet; [|discriminate].
  intros [= <-]. exists c. repeat (split; [assumption|]).
  split; [apply (dependencies_met_iff db id c Hrow), Hmet|].
  split; [|reflexivity].
  intros id' c' Hrow' Hf' Hs'.
  apply (by_allocation_key_served_first (id, c) (id', c')).
  apply (sort_by_head_least ConvoyAllocator.by_allocation_key
           by_allocation_key_total by_allocation_key_trans _ _ _ Hsort).
  apply select_convoys_status_elem_of; [discriminate|]. auto.
Qed.

Lemma sole_available_is_allocated (now feature_id agent_id cid : string) (db : DB)
    (c : Convoy) :
  convoys db !! cid = Some c -> c_feature_id c = feature_id ->
  c_status c = "available" -> dependencies_done db c ->
  (forall id' c', convoys db !! id' = Some c' -> c_feature_id c' = feature_id ->
     c_status c' = "available" -> id' = cid) ->
  ConvoyAllocator.allocate_next_convoy now feature_id agent_id db =
  (Return (Some cid),
   with_convoys db
     (<[cid := StateManager.set_convoy_status now "in_progress" (Some agent_id) c]>
        (convoys db))).
Proof.
  intros Hrow Hf Hs Hdeps Hsole.
  destruct (allocate_next_convoy_eq now feature_id agent_id db)
    as [[Hnil _]|(id & c0 & rest & Hsort & Hrow0 & Hf0 & Hs0 & ->)].
  - assert (Hin : (cid, c) ∈ StateManager.select_convoys feature_id (Some "available") db)
      by (apply select_convoys_status_elem_of; [discriminate|]; auto).
    rewrite Hnil in Hin. apply elem_of_nil in Hin. contradiction.
  - assert (id = cid) by (apply (Hsole id c0); assumption). subst id.
    assert (c0 = c) by congruence. subst c0.
    rewrite (proj2 (dependencies_met_iff db cid c Hrow) Hdeps). reflexivity.
Qed.

(** C8. Whenever [allocate_next_convoy] returns a convoy, that convoy
    was an available convoy of the feature with every dependency done,
    it came first in (priority, created_at) order among the feature's
    available convoys, and afterwards it is [in_progress] and assigned
    to the caller, every other convoy being as before.  After an unblock
    sweep a blocked convoy of the feature whose dependencies are all done
    is available with its dependencies still done, and if it is then the
    feature's only available convoy the next allocation returns it. *)
Theorem allocate_next_convoy_strict_priority
    (now feature_id agent_id : string) (db : DB) :
  (forall cid,
     (ConvoyAllocator.allocate_next_convoy now feature_id agent_id db).1
     = Return (Some cid) ->
     exists c,
       convoys db !! cid = Some c /\ c_feature_id c = feature_id /\
       c_status c = "available" /\ dependencies_done db c /\
       (forall id' c', convoys db !! id' = Some c' -> c_feature_id c' = feature_id ->
          c_status c' = "available" -> served_first c c') /\
       let db' := (ConvoyAllocator.allocate_next_convoy now feature_id agent_id db).2 in
       (exists c1, convoys db' !! cid = Some c1 /\
          c_status c1 = "in_progress" /\ c_assignee c1 = Some agent_id) /\
       (forall id, id <> cid -> convoys db' !! id = convoys db !! id)) /\
  (forall now' completed cid cc c,
     convoys db !! completed = Some cc -> c_feature_id cc = feature_id ->
     convoys db !! cid = Some c -> c_feature_id c = feature_id ->
     c_status c = "blocked" -> dependencies_done db c ->
     let swept_db := (ConvoyAllocator.unblock_dependent_convoys now' completed db).2 in
     (exists c', convoys swept_db !! cid = Some c' /\ c_status c' = "available" /\
        dependencies_done swept_db c') /\
     ((forall id' c', convoys swept_db !! id' = Some c' ->
         c_feature_id c' = feature_id -> c_status c' = "available" -> id' = cid) ->
      (ConvoyAllocator.allocate_next_convoy now feature_id agent_id swept_db).1
      = Return (Some cid))).
Proof.
  split.
  - intros cid Hret.
    destruct (allocated_was_first _ _ _ _ _ Hret)
      as (c & Hrow & Hf & Hs & Hdeps & Hfirst & Heq).
    exists c. repeat (split; [assumption|]).
    rewrite Heq. cbn [snd with_convoys convoys]. split.
    + exists (StateManager.set_convoy_status now "in_progress" (Some agent_id) c).
      rewrite lookup_insert_eq. repeat split; reflexivity.
    + intros id Hne. rewrite lookup_insert_ne by congruence. reflexivity.
  - intros now' completed cid cc c Hcc Hfcc Hc Hf Hs Hdeps swept_db. subst swept_db.
    destruct (unblock_dependent_convoys_flips now' completed cid db cc c Hcc Hc)
      as (n & db' & -> & _ & _ & _ & _ & _ & c' & Hc' & Hs' & Hf' & Hdeps');
      [congruence|assumption|assumption|].
    cbn [snd]. split; [exists c'; auto|].
    intros Hsole.
    rewrite (sole_available_is_allocated now feature_id agent_id cid db' c');
      [reflexivity|assumption|congruence|assumption|assumption|assumption].
Qed.

Lemma allocate_next_convoy_strict_priority_witness :
  let swept_db :=
    (ConvoyAllocator.unblock_dependent_convoys "2026-01-05 11:00:01" "C_b" db_S3).2 in
  (exists c', convoys swept_db !! "C_a" = Some c' /\ c_status c' = "available" /\
     dependencies_done swept_db c') /\
  (ConvoyAllocator.allocate_next_convoy "2026-01-05 11:05:00" "F1" "dev-001" swept_db).1
  = Return (Some "C_a").
Proof.
  intros swept_db.
  pose proof (allocate_next_convoy_strict_priority
                "2026-01-05 11:05:00" "F1" "dev-001" db_S3) as [_ Hsweep].
  destruct (Hsweep "2026-01-05 11:00:01" "C_b" "C_a"
              (mkConvoy "F1" "US1" "P1" "done" ["src/b.py"] (Some []) None
                 "2026-01-05 09:00:00" (Some "2026-01-05 09:10:00")
                 (Some "2026-01-05 11:00:00"))
              (mkConvoy "F1" "US2" "P2" "blocked" ["src/a.py"] (Some ["C_b"]) None
                 "2026-01-05 09:00:01" None None))
    as [Havailable Hallocated].
  - vm_compute. reflexivity.
  - reflexivity.
  - vm_compute. reflexivity.
  - reflexivity.
  - reflexivity.
  - intros deps dep [= <-] Hin. apply list_elem_of_singleton in Hin. subst dep.
    eexists. split; [vm_compute; reflexivity|reflexivity].
  - split; [exact Havailable|]. apply Hallocated.
    intros id' c' Hrow Hf Hs. apply elem_of_map_to_list in Hrow.
    assert (Hrows :
      map_to_list
        (convoys (ConvoyAllocator.unblock_dependent_convoys
                    "2026-01-05 11:00:01" "C_b" db_S3).2)
      = [ ("C_a", mkConvoy "F1" "US2" "P2" "available" ["src/a.py"] (Some ["C_b"])
                    None "2026-01-05 09:00:01" None None);
          ("C_b", mkConvoy "F1" "US1" "P1" "done" ["src/b.py"] (Some []) None
                    "2026-01-05 09:00:00" (Some "2026-01-05 09:10:00")
                    (Some "2026-01-05 11:00:00")) ])
      by (vm_compute; reflexivity).
    rewrite Hrows in Hrow.
    apply elem_of_cons in Hrow as [Hrow|Hrow].
    + inversion Hrow; subst. reflexivity.
    + apply list_elem_of_singleton in Hrow. inversion Hrow; subst. discriminate Hs.
Defined.

(** Scenario S3, first half: the block sweep marks [C_a], which waits
    for [C_b], and leaves [C_b] available. *)
Example block_sweep_marks_waiting_convoy :
  let result :=
    ConvoyAllocator.update_blocked_convoys_status "2026-01-05 09:05:00" "F1" db_S3_start in
  result.1 = Return 1 /\
  c_status <$> convoys result.2 !! "C_a" = Some "blocked" /\
  c_status <$> convoys result.2 !! "C_b" = Some "available".
Proof. vm_compute. repeat split; reflexivity. Qed.

(** Scenario S3, second half: the sweep unblocks [C_a], and the
    allocation that follows hands it to the developer. *)
Example unblock_then_allocate :
  let swept_db :=
    (ConvoyAllocator.unblock_dependent_convoys "2026-01-05 11:00:01" "C_b" db_S3).2 in
  let allocation :=
    ConvoyAllocator.allocate_next_convoy "2026-01-05 11:05:00" "F1" "dev-001" swept_db in
  c_status <$> convoys swept_db !! "C_a" = Some "available" /\
  allocation.1 = Return (Some "C_a") /\
  (fun c => (c_status c, c_assignee c)) <$> convoys allocation.2 !! "C_a"
    = Some ("in_progress", Some "dev-001").
Proof. vm_compute. repeat split; reflexivity. Qed.

(** Strict priority at work: the older P2 convoy waits for the P1
    convoy, and equal priorities go by creation time. *)
Example allocate_by_priority_then_age :
  let db :=
    with_convoys db_F1
      {[ "c-p2-old" := mkConvoy "F1" "US3" "P2" "available" ["src/c.py"] (Some []) None
                         "2026-01-05 09:00:00" None None;
         "c-p1-new" := mkConvoy "F1" "US1" "P1" "available" ["src/a.py"] (Some []) None
                         "2026-01-05 09:00:09" None None;
         "c-p1-old" := mkConvoy "F1" "US2" "P1" "available" ["src/b.py"] (Some []) None
                         "2026-01-05 09:00:05" None None ]} in
  let first := ConvoyAllocator.allocate_next_convoy "2026-01-05 10:00:00" "F1" "dev-001" db in
  let second :=
    ConvoyAllocator.allocate_next_convoy "2026-01-05 10:00:01" "F1" "dev-002" first.2 in
  let third :=
    ConvoyAllocator.allocate_next_convoy "2026-01-05 10:00:02" "F1" "dev-003" second.2 in
  first.1 = Return (Some "c-p1-old") /\
  second.1 = Return (Some "c-p1-new") /\
  third.1 = Return (Some "c-p2-old").
Proof. vm_compute. repeat split; reflexivity. Qed.

(** * Further properties

    The helpers of the state store that the properties above do not
    reach, the sweeps of the allocator and of the health monitor, and the
    agents that move a task from one state to the next. *)

Lemma with_convoys_same (db : DB) : with_convoys db (convoys db) = db.
Proof. destruct db; reflexivity. Qed.

Lemma with_tasks_same (db : DB) : with_tasks db (tasks db) = db.
Proof. destruct db; reflexivity. Qed.

Lemma with_events_same (db : DB) : with_events db (events db) = db.
Proof. destruct db; reflexivity. Qed.

Lemma with_agent_sessions_same (db : DB) :
  with_agent_sessions db (agent_sessions db) = db.
Proof. destruct db; reflexivity. Qed.

Lemma member_elem_of (s : string) (l : list string) : member s l = true <-> s ∈ l.
Proof.
  unfold member. rewrite existsb_exists. split.
  - intros [x [Hin Heq]]. apply String.eqb_eq in Heq. subst.
    apply list_elem_of_In. exact Hin.
  - intros Hin. exists s. split; [apply list_elem_of_In; exact Hin|apply String.eqb_refl].
Qed.

Lemma member_false (s : string) (l : list string) : member s l = false <-> s ∉ l.
Proof.
  rewrite <- member_elem_of. destruct (member s l); split; intros H; congruence.
Qed.

(** ** Single-file edits of a convoy (T054) *)

Lemma set_convoy_files_same (c : Convoy) : StateManager.set_convoy_files (c_files c) c = c.
Proof. destruct c; reflexivity. Qed.

Lemma add_file_to_convoy_eq (convoy_id file_path : string) (db : DB) :
  StateManager.add_file_to_convoy convoy_id file_path db
  = let files := match convoys db !! convoy_id with
                 | None => []
                 | Some convoy => c_files convoy
                 end in
    if member file_path files then (Return tt, db)
    else (Return tt,
          with_convoys db
            (alter (StateManager.set_convoy_files (files ++ [file_path])%list)
                   convoy_id (convoys db))).
Proof.
  unfold StateManager.add_file_to_convoy, StateManager.get_convoy_files,
    StateManager.update_convoy_files, bind, query, execute, ret. cbv zeta.
  destruct (member file_path _); reflexivity.
Qed.

Lemma remove_file_from_convoy_eq (convoy_id file_path : string) (db : DB) :
  StateManager.remove_file_from_convoy convoy_id file_path db
  = let files := match convoys db !! convoy_id with
                 | None => []
                 | Some convoy => c_files convoy
                 end in
    if member file_path files
    then (Return tt,
          with_convoys db
            (alter (StateManager.set_convoy_files (StateManager.list_remove file_path files))
                   convoy_id (convoys db)))
    else (Return tt, db).
Proof.
  unfold StateManager.remove_file_from_convoy, StateManager.get_convoy_files,
    StateManager.update_convoy_files, bind, query, execute, ret. cbv zeta.
  destruct (member file_path _); reflexivity.
Qed.

Lemma list_remove_app_new (x : string) (l : list string) :
  x ∉ l -> StateManager.list_remove x (l ++ [x])%list = l.
Proof.
  induction l as [|y l IH]; simpl; intros Hnot.
  - rewrite String.eqb_refl. reflexivity.
  - apply not_elem_of_cons in Hnot as [Hne Hnot].
    destruct (String.eqb_spec y x); [congruence|].
    rewrite IH by assumption. reflexivity.
Qed.


(** The file list of a convoy as [get_convoy_files] reads it. *)
Lemma get_convoy_files_after_add (convoy_id file_path : string) (db : DB) (c : Convoy) :
  convoys db !! convoy_id = Some c ->
  convoys (StateManager.add_file_to_convoy convoy_id file_path db).2 !! convoy_id
  = Some (StateManager.set_convoy_files
            (if member file_path (c_files c) then c_files c
             else (c_files c ++ [file_path])%list) c).
Proof.
  intros Hc. rewrite add_file_to_convoy_eq. cbv zeta. rewrite Hc.
  destruct (member file_path (c_files c)) eqn:Hm.
  - simpl. rewrite Hc, set_convoy_files_same. reflexivity.
  - unfold with_convoys. cbn [snd convoys]. rewrite lookup_alter_eq, Hc. reflexivity.
Qed.

(** X1.  [add_file_to_convoy] is idempotent: after one call the file is
    listed by the convoy, a list without duplicates stays without
    duplicates, and a second call changes nothing.  On an id that no
    convoy has, the call creates nothing. *)
Theorem add_file_to_convoy_idempotent (convoy_id file_path : string) (db : DB) :
  let db1 := (StateManager.add_file_to_convoy convoy_id file_path db).2 in
  StateManager.add_file_to_convoy convoy_id file_path db1 = (Return tt, db1)
  /\ (forall c, convoys db !! convoy_id = Some c ->
        exists c1, convoys db1 !! convoy_id = Some c1
          /\ file_path ∈ c_files c1
          /\ (forall f, f ∈ c_files c -> f ∈ c_files c1)
          /\ (NoDup (c_files c) -> NoDup (c_files c1)))
  /\ (convoys db !! convoy_id = None -> convoys db1 = convoys db)
  /\ (forall other, other <> convoy_id -> convoys db1 !! other = convoys db !! other).
Proof.
  cbv zeta. split; [|split; [|split]].
  - destruct (convoys db !! convoy_id) as [c|] eqn:Hc.
    + pose proof (get_convoy_files_after_add convoy_id file_path db c Hc) as H1.
      rewrite (add_file_to_convoy_eq convoy_id file_path
                 (StateManager.add_file_to_convoy convoy_id file_path db).2).
      cbv zeta. rewrite H1. cbn [c_files StateManager.set_convoy_files].
      destruct (member file_path (c_files c)) eqn:Hm.
      * rewrite Hm. reflexivity.
      * replace (member file_path (c_files c ++ [file_path])%list) with true; [reflexivity|].
        symmetry. apply member_elem_of, elem_of_app. right. apply list_elem_of_here.
    + assert (Hdb1 : forall db0, convoys db0 !! convoy_id = None ->
                StateManager.add_file_to_convoy convoy_id file_path db0 = (Return tt, db0)).
      { intros db0 H0. rewrite add_file_to_convoy_eq. cbv zeta. rewrite H0. simpl.
        rewrite alter_id by (intros x Hx; congruence).
        rewrite with_convoys_same. reflexivity. }
      rewrite (Hdb1 db Hc). simpl. apply Hdb1. exact Hc.
  - intros c Hc. rewrite (get_convoy_files_after_add _ _ _ _ Hc).
    eexists. split; [reflexivity|]. cbn [c_files StateManager.set_convoy_files].
    destruct (member file_path (c_files c)) eqn:Hm.
    + split; [apply member_elem_of; exact Hm|]. split; auto.
    + split; [apply elem_of_app; right; apply list_elem_of_here|].
      split; [intros f Hf; apply elem_of_app; left; exact Hf|].
      intros Hnd. apply NoDup_app. split; [exact Hnd|]. split.
      * intros x Hx Hx'. apply list_elem_of_singleton in Hx'. subst.
        apply member_false in Hm. contradiction.
      * apply NoDup_singleton.
  - intros Hc. rewrite add_file_to_convoy_eq. cbv zeta. rewrite Hc. simpl.
    apply alter_id. intros x Hx. congruence.
  - intros other Hne. rewrite add_file_to_convoy_eq. cbv zeta.
    destruct (member file_path _); [reflexivity|].
    unfold with_convoys. cbn [snd convoys]. apply lookup_alter_ne. congruence.
Qed.

(** X2.  Adding a file that the convoy does not list and removing it
    again gives back the database as it was. *)
Theorem add_then_remove_file_round_trip (convoy_id file_path : string) (db : DB)
    (c : Convoy) :
  convoys db !! convoy_id = Some c ->
  file_path ∉ c_files c ->
  StateManager.remove_file_from_convoy convoy_id file_path
    (StateManager.add_file_to_convoy convoy_id file_path db).2
  = (Return tt, db).
Proof.
  intros Hc Hnot.
  rewrite remove_file_from_convoy_eq. cbv zeta.
  rewrite (get_convoy_files_after_add _ _ _ _ Hc).
  apply member_false in Hnot as Hm. rewrite Hm.
  cbn [c_files StateManager.set_convoy_files].
  replace (member file_path (c_files c ++ [file_path])%list) with true.
  2:{ symmetry. apply member_elem_of, elem_of_app. right. apply list_elem_of_here. }
  rewrite list_remove_app_new by exact Hnot.
  rewrite add_file_to_convoy_eq. cbv zeta. rewrite Hc, Hm.
  unfold with_convoys. cbn [snd convoys features tasks events agent_sessions].
  rewrite alter_alter_eq.
  rewrite alter_id.
  - destruct db; reflexivity.
  - intros x Hx. rewrite Hc in Hx. inversion Hx; subst.
    unfold compose. destruct x; reflexivity.
Qed.

Lemma add_then_remove_file_round_trip_witness :
  StateManager.remove_file_from_convoy "c1" "src/c.py"
    (StateManager.add_file_to_convoy "c1" "src/c.py" db_S4).2
  = (Return tt, db_S4).
Proof.
  eapply (add_then_remove_file_round_trip "c1" "src/c.py" db_S4).
  - reflexivity.
  - apply member_false. reflexivity.
Defined.



(** ** The whole-feature overlap check (T053) *)

Lemma file_map_add_length (convoy_id : string) (file_map : gmap string (list string))
    (file_path g : string) :
  length (default [] (StateManager.file_map_add convoy_id file_map file_path !! g))
  = (length (default [] (file_map !! g)) + count_occ string_dec [file_path] g)%nat.
Proof.
  unfold StateManager.file_map_add. simpl.
  destruct (string_dec file_path g) as [->|Hne].
  - rewrite lookup_insert_eq. simpl. rewrite length_app. reflexivity.
  - rewrite lookup_insert_ne by exact Hne. lia.
Qed.

Lemma foldl_file_map_add_length (convoy_id : string) (files : list string)
    (file_map : gmap string (list string)) (g : string) :
  length (default [] (foldl (StateManager.file_map_add convoy_id) file_map files !! g))
  = (length (default [] (file_map !! g)) + count_occ string_dec files g)%nat.
Proof.
  revert file_map. induction files as [|f files IH]; intros file_map.
  - simpl. lia.
  - cbn [foldl]. rewrite IH, file_map_add_length.
    change (f :: files) with ([f] ++ files)%list. rewrite count_occ_app. lia.
Qed.

Lemma file_map_of_length (convoys : list (string * Convoy)) (g : string) :
  length (default [] (StateManager.file_map_of convoys !! g))
  = count_occ string_dec (concat (map (fun r : string * Convoy => c_files r.2) convoys)) g.
Proof.
  unfold StateManager.file_map_of.
  assert (H : forall file_map : gmap string (list string),
    length (default []
      (foldl (fun fm (convoy : string * Convoy) =>
                foldl (StateManager.file_map_add convoy.1) fm (c_files convoy.2))
             file_map convoys !! g))
    = (length (default [] (file_map !! g))
       + count_occ string_dec
           (concat (map (fun r : string * Convoy => c_files r.2) convoys)) g)%nat).
  { induction convoys as [|r convoys IH]; intros file_map.
    - simpl. lia.
    - cbn [foldl map concat]. rewrite IH, foldl_file_map_add_length, count_occ_app. lia. }
  rewrite H, lookup_empty. reflexivity.
Qed.

(** X4.  [validate_convoy_files_no_overlap] answers whether the file
    entries of all convoys of the feature, done ones included, are free
    of repetition.  A file that one convoy lists twice counts as an
    overlap just as a file shared by two convoys does. *)
Theorem validate_convoy_files_no_overlap_iff_NoDup (feature_id : string) (db : DB) :
  StateManager.validate_convoy_files_no_overlap feature_id db
  = (Return (bool_decide (NoDup (feature_files feature_id db))), db).
Proof.
  unfold StateManager.validate_convoy_files_no_overlap, StateManager.list_convoys_by_feature,
    bind, query, ret. cbv zeta.
  set (file_map := StateManager.file_map_of (StateManager.select_convoys feature_id None db)).
  assert (Hiff : filter (fun entry : string * list string => (1 < length entry.2)%nat)
                        file_map = ∅
                 <-> NoDup (feature_files feature_id db)).
  { rewrite map_empty_filter, NoDup_ListNoDup, (NoDup_count_occ string_dec). unfold feature_files.
    split.
    - intros Hall g.
      pose proof (file_map_of_length (StateManager.select_convoys feature_id None db) g) as Hlen.
      fold file_map in Hlen. rewrite <- Hlen.
      destruct (file_map !! g) as [ids|] eqn:Hg; simpl; [|lia].
      specialize (Hall g ids Hg). simpl in Hall. lia.
    - intros Hcount g ids Hg. simpl.
      pose proof (file_map_of_length (StateManager.select_convoys feature_id None db) g) as Hlen.
      fold file_map in Hlen. rewrite Hg in Hlen. simpl in Hlen.
      specialize (Hcount g). lia. }
  rewrite (bool_decide_ext _ _ Hiff).
  destruct (bool_decide (NoDup (feature_files feature_id db))); reflexivity.
Qed.

(** The check counts a convoy against itself and counts done convoys,
    which the validator of proposed files passes over. *)
Example validate_convoy_files_no_overlap_one_convoy :
  (StateManager.validate_convoy_files_no_overlap "F1" db_listed_twice).1 = Return false
  /\ (StateManager.validate_convoy_files_no_overlap "F1" db_S4).1 = Return true
  /\ (StateManager.validate_no_file_conflicts "F1" ["src/c.py"] db_listed_twice).1
     = Return tt.
Proof. repeat split; vm_compute; reflexivity. Qed.

(** ** Accounting of the event queue *)

Lemma pending_rows_elem_of (agent_id : string) (db : DB) (id : string) (e : Event) :
  (id, e) ∈ StateManager.pending_rows agent_id db <->
  events db !! id = Some e /\ e_agent_id e = agent_id /\ e_status e = "pending".
Proof. apply eligible_elem_of. Qed.

Lemma pending_rows_NoDup (agent_id : string) (db : DB) :
  NoDup (StateManager.pending_rows agent_id db).
Proof. apply NoDup_filter, NoDup_map_to_list. Qed.

Lemma pending_events_Permutation (agent_id : string) (limit : Z) (db : DB) :
  limit < 0 \/ pending_count agent_id db <= limit ->
  StateManager.pending_events agent_id limit db ≡ₚ StateManager.pending_rows agent_id db.
Proof.
  intros Hl. unfold StateManager.pending_events.
  fold (StateManager.pending_rows agent_id db).
  rewrite <- (sort_by_Permutation StateManager.by_event_created_at
                (StateManager.pending_rows agent_id db)) at 2.
  unfold sql_limit. destruct (Z.ltb_spec limit 0) as [Hneg|Hpos]; [reflexivity|].
  destruct Hl as [Hl|Hl]; [lia|].
  rewrite take_ge; [reflexivity|].
  rewrite (Permutation_length (sort_by_Permutation _ _)).
  unfold pending_count in Hl. lia.
Qed.

(** The rows left pending after a consume, together with the rows it
    returned, are the rows that were pending before. *)
Lemma consume_events_splits_pending (agent_id : string) (limit : Z) (db : DB) :
  StateManager.pending_rows agent_id db
  ≡ₚ (StateManager.pending_events agent_id limit db
      ++ StateManager.pending_rows agent_id
           (StateManager.consume_events agent_id limit db).2)%list.
Proof.
  set (rows := StateManager.pending_events agent_id limit db).
  set (db1 := (StateManager.consume_events agent_id limit db).2).
  assert (Hrows : forall id e, (id, e) ∈ rows ->
            events db !! id = Some e /\ e_agent_id e = agent_id /\ e_status e = "pending").
  { intros id e. apply pending_events_elem_of. }
  assert (Hids : forall id, id ∈ rows.*1 <-> exists e, (id, e) ∈ rows).
  { intros id. rewrite list_elem_of_fmap. split.
    - intros ([id' e] & -> & Hin). exists e. exact Hin.
    - intros (e & Hin). exists (id, e). auto. }
  apply NoDup_Permutation.
  - apply pending_rows_NoDup.
  - apply NoDup_app. split; [|split].
    + eapply NoDup_fmap_1. apply pending_events_NoDup.
    + intros [id e] Hin Hin'. apply pending_rows_elem_of in Hin' as (He & _ & Hs).
      unfold db1 in He. rewrite consume_events_lookup_in in He
        by (apply Hids; exists e; exact Hin).
      destruct (events db !! id) as [e0|]; [|discriminate].
      inversion He; subst. discriminate Hs.
    + apply pending_rows_NoDup.
  - intros [id e]. rewrite elem_of_app, !pending_rows_elem_of.
    destruct (decide (id ∈ rows.*1)) as [Hin|Hnot].
    + unfold db1. rewrite consume_events_lookup_in by exact Hin.
      apply Hids in Hin as (e' & Hin). destruct (Hrows _ _ Hin) as (He' & Ha' & Hs').
      rewrite He'. split.
      * intros (He & _). inversion He; subst. left. exact Hin.
      * intros [Hin'|(He & _ & Hs)].
        -- apply Hrows in Hin' as (He & Ha & Hs). rewrite He' in He. auto.
        -- inversion He; subst. discriminate Hs.
    + unfold db1. rewrite consume_events_lookup_not_in by exact Hnot. split.
      * intros H. right. exact H.
      * intros [Hin|H]; [|exact H]. exfalso. apply Hnot, Hids. exists e. exact Hin.
Qed.

Lemma consume_events_other_agent (agent_id other : string) (limit : Z) (db : DB) :
  other <> agent_id ->
  StateManager.pending_rows other (StateManager.consume_events agent_id limit db).2
  ≡ₚ StateManager.pending_rows other db.
Proof.
  intros Hne. apply NoDup_Permutation; try apply pending_rows_NoDup.
  intros [id e]. rewrite !pending_rows_elem_of.
  destruct (decide (id ∈ (StateManager.pending_events agent_id limit db).*1)) as [Hin|Hnot].
  - rewrite consume_events_lookup_in by exact Hin.
    apply list_elem_of_fmap in Hin as ([id' e'] & Hid & Hin). simpl in Hid. subst id'.
    apply pending_events_elem_of in Hin as (He' & Ha' & Hs'). rewrite He'. split.
    + intros (He & Ha & _). inversion He; subst. simpl in Hne. congruence.
    + intros (He & Ha & _). inversion He; subst. congruence.
  - rewrite consume_events_lookup_not_in by exact Hnot. reflexivity.
Qed.

(** X5.  [get_pending_event_count] after [consume_events]: the count of
    the agent drops by the number of rows returned, to zero when the
    limit is negative or not below the count, and the count of every
    other agent stays as it was. *)
Theorem get_pending_event_count_after_consume
    (agent_id other : string) (limit : Z) (db : DB) :
  let rows := StateManager.pending_events agent_id limit db in
  let db1 := (StateManager.consume_events agent_id limit db).2 in
  StateManager.get_pending_event_count agent_id db1
  = (Return (pending_count agent_id db - Z.of_nat (length rows)), db1)
  /\ (limit < 0 \/ pending_count agent_id db <= limit ->
      StateManager.get_pending_event_count agent_id db1 = (Return 0, db1))
  /\ (other <> agent_id ->
      StateManager.get_pending_event_count other db1
      = (Return (pending_count other db), db1)).
Proof.
  cbv zeta.
  pose proof (Permutation_length (consume_events_splits_pending agent_id limit db)) as Hlen.
  rewrite length_app in Hlen.
  unfold StateManager.get_pending_event_count, query, pending_count.
  split; [|split].
  - f_equal. f_equal. lia.
  - intros Hl. f_equal. f_equal.
    pose proof (Permutation_length (pending_events_Permutation agent_id limit db Hl)). lia.
  - intros Hne. f_equal. f_equal.
    rewrite (Permutation_length (consume_events_other_agent agent_id other limit db Hne)).
    reflexivity.
Qed.

(** X6.  [publish_event] with an unused id adds one to the pending count
    of the addressed agent and nothing to the count of any other. *)
Theorem get_pending_event_count_after_publish
    (now uuid agent_id event_type other : string) (payload : list (string * json))
    (db : DB) :
  events db !! uuid = None ->
  let db1 := (StateManager.publish_event now uuid agent_id event_type payload db).2 in
  StateManager.get_pending_event_count agent_id db1
  = (Return (pending_count agent_id db + 1), db1)
  /\ (other <> agent_id ->
      StateManager.get_pending_event_count other db1
      = (Return (pending_count other db), db1)).
Proof.
  intros Hfresh. cbv zeta.
  unfold StateManager.publish_event. rewrite Hfresh. cbn [snd].
  unfold StateManager.get_pending_event_count, query, pending_count,
    StateManager.pending_rows, with_events. cbn [events].
  pose proof (map_to_list_insert (events db) uuid
                (mkEvent agent_id event_type payload "pending" now None) Hfresh) as Hperm.
  split.
  - f_equal. f_equal. rewrite Hperm, filter_cons_True.
    + simpl. lia.
    + simpl. rewrite !String.eqb_refl. exact I.
  - intros Hne. f_equal. f_equal. rewrite Hperm, filter_cons_False; [reflexivity|].
    simpl. destruct (String.eqb_spec agent_id other); [congruence|]. simpl. auto.
Qed.

Lemma get_pending_event_count_after_publish_witness :
  StateManager.get_pending_event_count "tester"
    (StateManager.publish_event "2026-01-05 10:01:00" "e-4" "tester" "RUN_TESTS"
       [("task_id", JStr "T4")] db_queue).2
  = (Return 3,
     (StateManager.publish_event "2026-01-05 10:01:00" "e-4" "tester" "RUN_TESTS"
        [("task_id", JStr "T4")] db_queue).2).
Proof.
  apply (get_pending_event_count_after_publish "2026-01-05 10:01:00" "e-4" "tester"
           "RUN_TESTS" "cab" [("task_id", JStr "T4")] db_queue).
  reflexivity.
Defined.

(** X7.  Two consumes in a row hand out the queue in order: no row of
    the second batch was in the first, and none is older than a row of
    the first. *)
Theorem consume_events_twice_in_order
    (agent_id : string) (limit1 limit2 : Z) (db : DB) (r1 r2 : string * Event) :
  r1 ∈ StateManager.pending_events agent_id limit1 db ->
  r2 ∈ StateManager.pending_events agent_id limit2
         (StateManager.consume_events agent_id limit1 db).2 ->
  older_or_same r1 r2 /\ r1.1 <> r2.1
  /\ events db !! r2.1 = Some r2.2.
Proof.
  intros H1 H2. destruct r2 as [id2 e2].
  apply pending_events_elem_of in H2 as (He2 & Ha2 & Hs2).
  assert (Hnot : id2 ∉ (StateManager.pending_events agent_id limit1 db).*1).
  { intros Hin. rewrite consume_events_lookup_in in He2 by exact Hin.
    destruct (events db !! id2) as [e0|]; [|discriminate].
    inversion He2; subst. discriminate Hs2. }
  rewrite consume_events_lookup_not_in in He2 by exact Hnot.
  split; [|split].
  - apply (pending_events_oldest agent_id limit1 db id2 e2 r1); auto.
    intros Hin. apply Hnot. apply list_elem_of_fmap. exists (id2, e2). auto.
  - simpl. intros Heq. apply Hnot. apply list_elem_of_fmap. exists r1. auto.
  - exact He2.
Qed.

Lemma consume_events_twice_in_order_witness :
  older_or_same
    ("e-1", mkEvent "tester" "RUN_TESTS" [("task_id", JStr "T1")] "pending"
              "2026-01-05 10:00:03" None)
    ("e-2", mkEvent "tester" "RUN_TESTS" [("task_id", JStr "T2")] "pending"
              "2026-01-05 10:00:07" None)
  /\ "e-1" <> "e-2"
  /\ events db_queue !! "e-2"
     = Some (mkEvent "tester" "RUN_TESTS" [("task_id", JStr "T2")] "pending"
               "2026-01-05 10:00:07" None).
Proof.
  apply (consume_events_twice_in_order "tester" 1 1 db_queue
           ("e-1", mkEvent "tester" "RUN_TESTS" [("task_id", JStr "T1")] "pending"
                     "2026-01-05 10:00:03" None)
           ("e-2", mkEvent "tester" "RUN_TESTS" [("task_id", JStr "T2")] "pending"
                     "2026-01-05 10:00:07" None)).
  - vm_compute. apply list_elem_of_here.
  - vm_compute. apply list_elem_of_here.
Defined.

(** ** The developer's claim loop *)

Lemma by_task_created_at_total (r1 r2 : string * Task) :
  StateManager.by_task_created_at r1 r2 = true
  \/ StateManager.by_task_created_at r2 r1 = true.
Proof. apply String.leb_total. Qed.

Lemma by_task_created_at_trans (r1 r2 r3 : string * Task) :
  StateManager.by_task_created_at r1 r2 = true ->
  StateManager.by_task_created_at r2 r3 = true ->
  StateManager.by_task_created_at r1 r3 = true.
Proof. apply string_leb_trans. Qed.

Lemma select_tasks_status_elem_of (convoy_id status : string) (db : DB)
    (r : string * Task) :
  status <> "" ->
  r ∈ StateManager.select_tasks convoy_id (Some status) db <->
  tasks db !! r.1 = Some r.2 /\ t_convoy_id r.2 = convoy_id /\ t_status r.2 = status.
Proof.
  intros Hne. unfold StateManager.select_tasks, truthy.
  destruct (String.eqb_spec status "") as [|_]; [contradiction|]. simpl.
  rewrite sort_by_elem_of, list_elem_of_filter.
  destruct r as [id t]. rewrite elem_of_map_to_list. simpl.
  rewrite andb_True, Is_true_true, String.eqb_eq, bool_decide_spec.
  split; [intros [[? ?] ?]|intros (? & ? & ?)]; repeat split; congruence.
Qed.

Lemma select_tasks_status_sorted (convoy_id status : string) (db : DB) :
  StronglySorted (fun r1 r2 => StateManager.by_task_created_at r1 r2 = true)
    (StateManager.select_tasks convoy_id (Some status) db).
Proof.
  unfold StateManager.select_tasks.
  destruct (truthy (Some status));
    apply sort_by_sorted;
    first [exact by_task_created_at_total | exact by_task_created_at_trans].
Qed.

(** The loop stops at the first row that is still unassigned; the rows
    it passes over leave the database as it is. *)
Lemma claim_loop_first_claimable (now agent_id : string) (rows : list (string * Task))
    (db : DB) :
  (forall r, r ∈ rows -> tasks db !! r.1 = Some r.2 /\ t_status r.2 = "todo") ->
  (exists skipped r rest,
      rows = (skipped ++ r :: rest)%list
      /\ (forall y, y ∈ skipped -> t_assignee y.2 <> None)
      /\ t_assignee r.2 = None
      /\ DeveloperAgent.claim_loop now agent_id rows db
         = (Return (Some r.1),
            with_tasks db (<[r.1 := StateManager.claimed now agent_id r.2]> (tasks db))))
  \/ ((forall y, y ∈ rows -> t_assignee y.2 <> None)
      /\ DeveloperAgent.claim_loop now agent_id rows db = (Return None, db)).
Proof.
  induction rows as [|r rows IH]; intros Hrows.
  - right. split; [|reflexivity]. intros y Hy. apply elem_of_nil in Hy. contradiction.
  - destruct (Hrows r (list_elem_of_here _ _)) as [Hr Hs].
    cbn [DeveloperAgent.claim_loop]. unfold bind.
    destruct (t_assignee r.2) as [a|] eqn:Ha.
    + rewrite claim_task_atomic_not_claimable.
      2:{ intros (t & Ht & _ & Hnone). rewrite Hr in Ht. inversion Ht; subst. congruence. }
      destruct IH as [(skipped & r' & rest & Hl & Hsk & Hnone & Hrun)|[Hall Hrun]].
      * intros y Hy. apply Hrows, list_elem_of_further, Hy.
      * left. exists (r :: skipped), r', rest. split; [rewrite Hl; reflexivity|].
        split; [|split; [exact Hnone|exact Hrun]].
        intros y Hy. apply elem_of_cons in Hy as [->|Hy]; [congruence|auto].
      * right. split; [|exact Hrun].
        intros y Hy. apply elem_of_cons in Hy as [->|Hy]; [congruence|auto].
    + rewrite (claim_task_atomic_claimable now r.1 agent_id db r.2 Hr Hs Ha).
      left. exists [], r, rows. split; [reflexivity|].
      split; [intros y Hy; apply elem_of_nil in Hy; contradiction|].
      split; [exact Ha|reflexivity].
Qed.

(** [claim_next_task] is the loop on the rows of
    [list_tasks_by_convoy]. *)
Lemma claim_next_task_outcome (now agent_id convoy_id : string) (db : DB) :
  let rows := StateManager.select_tasks convoy_id (Some "todo") db in
  (exists skipped r rest,
      rows = (skipped ++ r :: rest)%list
      /\ (forall y, y ∈ skipped -> t_assignee y.2 <> None)
      /\ t_assignee r.2 = None
      /\ DeveloperAgent.claim_next_task now agent_id convoy_id db
         = (Return (Some r.1),
            with_tasks db (<[r.1 := StateManager.claimed now agent_id r.2]> (tasks db))))
  \/ ((forall y, y ∈ rows -> t_assignee y.2 <> None)
      /\ DeveloperAgent.claim_next_task now agent_id convoy_id db = (Return None, db)).
Proof.
  cbv zeta.
  unfold DeveloperAgent.claim_next_task, StateManager.list_tasks_by_convoy, bind, query.
  apply claim_loop_first_claimable.
  intros r Hr. apply select_tasks_status_elem_of in Hr; [|discriminate]. tauto.
Qed.


(** X9.  The way back to [todo] through the state machine keeps the
    assignee, so the task it returns can be claimed by nobody:
    [claim_task_atomic] refuses it and [claim_next_task] passes over
    it. *)
Theorem returned_task_is_not_claimable
    (now now' task_id agent_id claimant : string) (db : DB) (t : Task) :
  tasks db !! task_id = Some t ->
  t_status t = "in_progress" ->
  t_assignee t = Some agent_id ->
  let db1 := (StateManager.transition_task_status now task_id "todo" db).2 in
  (StateManager.transition_task_status now task_id "todo" db).1 = Return true
  /\ (exists t1, tasks db1 !! task_id = Some t1
        /\ t_status t1 = "todo" /\ t_assignee t1 = Some agent_id)
  /\ StateManager.claim_task_atomic now' task_id claimant db1 = (Return false, db1)
  /\ (DeveloperAgent.claim_next_task now' claimant (t_convoy_id t) db1).1
     <> Return (Some task_id).
Proof.
  intros Ht Hs Ha. cbv zeta.
  rewrite (transition_task_status_legal now task_id "todo" db t Ht).
  2:{ rewrite Hs. unfold LEGAL_TRANSITIONS.
      do 8 apply list_elem_of_further. apply list_elem_of_here. }
  cbn [fst snd].
  set (db1 := with_tasks db _).
  assert (Ht1 : tasks db1 !! task_id
                = Some (StateManager.set_task_status now "todo" None t)).
  { unfold db1, with_tasks. cbn [tasks]. rewrite lookup_alter_eq, Ht. reflexivity. }
  assert (Hn : ~ claimable db1 task_id).
  { intros (t' & Ht' & _ & Hnone). rewrite Ht1 in Ht'. inversion Ht'; subst.
    simpl in Hnone. congruence. }
  split; [reflexivity|]. split; [|split].
  - eexists. split; [exact Ht1|]. split; [reflexivity|exact Ha].
  - apply claim_task_atomic_not_claimable. exact Hn.
  - destruct (claim_next_task_outcome now' claimant (t_convoy_id t) db1)
      as [(skipped & r & rest & Hl & _ & Hnone & Hrun)|[_ Hrun]];
      rewrite Hrun; cbn [fst]; [|discriminate].
    intros [= Heq]. apply Hn.
    assert (Hr : r ∈ StateManager.select_tasks (t_convoy_id t) (Some "todo") db1).
    { rewrite Hl. apply elem_of_app. right. apply list_elem_of_here. }
    apply select_tasks_status_elem_of in Hr as (Hr & _ & Hs'); [|discriminate].
    rewrite Heq in Hr. exists r.2. auto.
Qed.

Lemma returned_task_is_not_claimable_witness :
  let db0 := with_tasks empty_db {[ "T1" := task_in "in_progress" (Some "dev-001") 0 ]} in
  let db1 := (StateManager.transition_task_status "2026-01-05 10:00:00" "T1" "todo" db0).2 in
  StateManager.claim_task_atomic "2026-01-05 10:05:00" "T1" "dev-002" db1
  = (Return false, db1).
Proof.
  cbv zeta.
  apply (returned_task_is_not_claimable "2026-01-05 10:00:00" "2026-01-05 10:05:00"
           "T1" "dev-001" "dev-002"
           (with_tasks empty_db {[ "T1" := task_in "in_progress" (Some "dev-001") 0 ]})
           (task_in "in_progress" (Some "dev-001") 0)); reflexivity.
Defined.

(** ** The block sweep of the allocator *)

Lemma forallb_pointwise {A} (f g : A -> bool) (l : list A) :
  (forall x, f x = g x) -> forallb f l = forallb g l.
Proof.
  intros H. induction l as [|x l IH]; simpl; [reflexivity|]. rewrite H, IH. reflexivity.
Qed.

(** [dependencies_met] looks at the dependency lists and at which
    convoys are done, and at nothing else. *)
Lemma dependencies_met_ext (db db' : DB) :
  (forall id, c_dependencies <$> convoys db' !! id = c_dependencies <$> convoys db !! id) ->
  (forall id, ConvoyAllocator.dependency_done db' id = ConvoyAllocator.dependency_done db id) ->
  forall id, ConvoyAllocator.dependencies_met db' id = ConvoyAllocator.dependencies_met db id.
Proof.
  intros Hdeps Hdone id. unfold ConvoyAllocator.dependencies_met.
  specialize (Hdeps id).
  destruct (convoys db' !! id) as [c'|], (convoys db !! id) as [c|];
    simpl in Hdeps; try discriminate; [|reflexivity].
  inversion Hdeps as [Heq]. rewrite Heq.
  destruct (c_dependencies c); [|reflexivity].
  apply forallb_pointwise. exact Hdone.
Qed.

Lemma dependencies_met_after_update (now k status : string) (assignee : option string)
    (db : DB) (c : Convoy) :
  convoys db !! k = Some c -> c_status c <> "done" -> status <> "done" ->
  forall id,
    ConvoyAllocator.dependencies_met
      (with_convoys db
         (<[k := StateManager.set_convoy_status now status assignee c]> (convoys db))) id
    = ConvoyAllocator.dependencies_met db id.
Proof.
  intros Hc Hnd Hs. apply dependencies_met_ext; intros id;
    unfold ConvoyAllocator.dependency_done, with_convoys; cbn [convoys];
    (destruct (decide (id = k)) as [->|Hne];
     [rewrite lookup_insert_eq, Hc|rewrite lookup_insert_ne by congruence; reflexivity]).
  - reflexivity.
  - simpl. destruct (String.eqb_spec status "done"), (String.eqb_spec (c_status c) "done");
      congruence.
Qed.

(** The loop of [update_blocked_convoys_status] on rows that mirror the
    table: [met] is the answer of [check_convoy_dependencies_met], which
    the updates of the loop do not change. *)
Lemma block_loop_spec (now : string) (met : string -> bool)
    (rows : list (string * Convoy)) :
  forall (count : Z) (db : DB),
    NoDup rows.*1 ->
    (forall id, ConvoyAllocator.dependencies_met db id = met id) ->
    (forall r, r ∈ rows -> convoys db !! r.1 = Some r.2 /\ c_status r.2 <> "done") ->
    exists db',
      ConvoyAllocator.block_loop now rows count db
      = (Return (count + Z.of_nat (length (filter (fun r => met r.1 = false) rows))), db')
      /\ features db' = features db /\ tasks db' = tasks db
      /\ events db' = events db /\ agent_sessions db' = agent_sessions db
      /\ forall id,
           convoys db' !! id
           = (fun c => if bool_decide (id ∈ rows.*1) && negb (met id)
                       then StateManager.set_convoy_status now "blocked" None c
                       else c) <$> convoys db !! id.
Proof.
  induction rows as [|r rows IH]; intros count db Hnd Hmet Hrows.
  - exists db. simpl. unfold ret. split; [do 2 f_equal; lia|].
    repeat (split; [reflexivity|]).
    intros id. destruct (convoys db !! id); reflexivity.
  - rewrite fmap_cons in Hnd. apply NoDup_cons in Hnd as [Hfresh Hnd].
    destruct (Hrows r (list_elem_of_here _ _)) as [Hr Hopen].
    cbn [ConvoyAllocator.block_loop].
    unfold bind at 1. unfold ConvoyAllocator.check_convoy_dependencies_met at 1.
    unfold query at 1. cbv beta iota. rewrite Hmet.
    destruct (met r.1) eqn:Hm; cbn [negb].
    + destruct (IH count db Hnd Hmet) as (db' & Hrun & Hf & Ht & He & Ha & Hlook).
      { intros r' Hr'. apply Hrows, list_elem_of_further, Hr'. }
      exists db'. rewrite Hrun, filter_cons_False by (simpl; congruence).
      split; [reflexivity|]. repeat (split; [assumption|]).
      intros id. rewrite Hlook, fmap_cons.
      destruct (decide (id = r.1)) as [->|Hne].
      * rewrite Hm, !andb_false_r. reflexivity.
      * rewrite (bool_decide_ext (id ∈ r.1 :: rows.*1) (id ∈ rows.*1)); [reflexivity|].
        rewrite elem_of_cons. tauto.
    + unfold bind at 1.
      rewrite (update_convoy_status_ok now r.1 "blocked" None db r.2 Hr eq_refl).
      set (db1 := with_convoys db _).
      assert (Hmet1 : forall id, ConvoyAllocator.dependencies_met db1 id = met id).
      { intros id. rewrite <- Hmet. unfold db1.
        apply dependencies_met_after_update; [exact Hr|exact Hopen|discriminate]. }
      destruct (IH (count + 1) db1 Hnd Hmet1) as (db' & Hrun & Hf & Ht & He & Ha & Hlook).
      { intros r' Hr'. destruct (Hrows r' (list_elem_of_further _ _ _ Hr')) as [Hlk Ho].
        split; [|exact Ho]. unfold db1, with_convoys. cbn [convoys].
        rewrite lookup_insert_ne; [exact Hlk|].
        intros Heq. apply Hfresh. rewrite Heq.
        apply list_elem_of_fmap. exists r'. auto. }
      exists db'. rewrite Hrun, filter_cons_True by exact Hm.
      split; [do 2 f_equal; simpl; lia|].
      repeat (split; [assumption|]).
      intros id. rewrite Hlook, fmap_cons. unfold db1, with_convoys. cbn [convoys].
      destruct (decide (id = r.1)) as [->|Hne].
      * rewrite lookup_insert_eq, Hr, Hm.
        rewrite (bool_decide_eq_false_2 _ Hfresh).
        rewrite (bool_decide_eq_true_2 (r.1 ∈ r.1 :: rows.*1)) by apply list_elem_of_here.
        reflexivity.
      * rewrite lookup_insert_ne by congruence.
        rewrite (bool_decide_ext (id ∈ r.1 :: rows.*1) (id ∈ rows.*1)); [reflexivity|].
        rewrite elem_of_cons. tauto.
Qed.

(** What [update_blocked_convoys_status] computes, convoy by convoy. *)
Lemma update_blocked_convoys_status_spec (now feature_id : string) (db : DB) :
  exists db',
    ConvoyAllocator.update_blocked_convoys_status now feature_id db
    = (Return (Z.of_nat (length
         (filter (fun r : string * Convoy =>
                    ConvoyAllocator.dependencies_met db r.1 = false)
                 (StateManager.select_convoys feature_id (Some "available") db)))), db')
    /\ features db' = features db /\ tasks db' = tasks db
    /\ events db' = events db /\ agent_sessions db' = agent_sessions db
    /\ (forall id,
          convoys db' !! id
          = (fun c => if waiting db feature_id id c
                      then StateManager.set_convoy_status now "blocked" None c
                      else c) <$> convoys db !! id)
    /\ (forall id, ConvoyAllocator.dependencies_met db' id
                   = ConvoyAllocator.dependencies_met db id).
Proof.
  unfold ConvoyAllocator.update_blocked_convoys_status,
    StateManager.list_convoys_by_feature, bind, query.
  set (rows := StateManager.select_convoys feature_id (Some "available") db).
  assert (Hmem : forall r, r ∈ rows <->
            convoys db !! r.1 = Some r.2 /\ c_feature_id r.2 = feature_id
            /\ c_status r.2 = "available").
  { intros r. apply select_convoys_status_elem_of. discriminate. }
  destruct (block_loop_spec now (ConvoyAllocator.dependencies_met db) rows 0 db)
    as (db' & Hrun & Hf & Ht & He & Ha & Hlook).
  { apply select_convoys_NoDup. }
  { reflexivity. }
  { intros r Hr. apply Hmem in Hr as (Hr & _ & Hs). split; [exact Hr|].
    rewrite Hs. discriminate. }
  rewrite Z.add_0_l in Hrun.
  assert (Hlook' : forall id,
            convoys db' !! id
            = (fun c => if waiting db feature_id id c
                        then StateManager.set_convoy_status now "blocked" None c
                        else c) <$> convoys db !! id).
  { intros id. rewrite Hlook. destruct (convoys db !! id) as [c|] eqn:Hc; [|reflexivity].
    simpl. f_equal. unfold waiting.
    destruct (decide (id ∈ rows.*1)) as [Hin|Hnot].
    - rewrite (bool_decide_eq_true_2 _ Hin).
      apply list_elem_of_fmap in Hin as ([id' c'] & Hid & Hin). simpl in Hid. subst id'.
      apply Hmem in Hin as (Hc' & Hfe & Hs). simpl in Hc', Hfe, Hs.
      assert (c' = c) by congruence. subst c'.
      rewrite Hfe, Hs, !String.eqb_refl. reflexivity.
    - rewrite (bool_decide_eq_false_2 _ Hnot).
      destruct (String.eqb_spec (c_feature_id c) feature_id) as [Hfe|]; [|reflexivity].
      destruct (String.eqb_spec (c_status c) "available") as [Hs|]; [|reflexivity].
      exfalso. apply Hnot. apply list_elem_of_fmap. exists (id, c).
      split; [reflexivity|]. apply Hmem. auto. }
  exists db'. split; [exact Hrun|]. repeat (split; [assumption|]).
  apply dependencies_met_ext; intros id; unfold ConvoyAllocator.dependency_done;
    rewrite Hlook'; destruct (convoys db !! id) as [c|] eqn:Hc; try reflexivity; simpl.
  - destruct (waiting db feature_id id c); reflexivity.
  - unfold waiting.
    destruct (String.eqb_spec (c_status c) "available") as [Hs|];
      rewrite ?andb_false_r, ?andb_false_l; try reflexivity.
    destruct (String.eqb (c_feature_id c) feature_id
              && true && negb (ConvoyAllocator.dependencies_met db id));
      [|reflexivity].
    simpl. rewrite Hs. reflexivity.
Qed.


Lemma block_sweep_leaves_no_waiting (now feature_id : string) (db : DB) (id : string)
    (c' : Convoy) :
  let db1 := (ConvoyAllocator.update_blocked_convoys_status now feature_id db).2 in
  convoys db1 !! id = Some c' -> waiting db1 feature_id id c' = false.
Proof.
  cbv zeta.
  destruct (update_blocked_convoys_status_spec now feature_id db)
    as (db' & Hrun & _ & _ & _ & _ & Hlook & Hmet).
  rewrite Hrun. cbn [snd]. intros Hc'.
  unfold waiting. rewrite Hmet.
  rewrite Hlook in Hc'. destruct (convoys db !! id) as [c|]; [|discriminate].
  simpl in Hc'. inversion Hc' as [Heq]. clear Hc'.
  destruct (waiting db feature_id id c) eqn:Hw.
  - cbn [StateManager.set_convoy_status c_status c_feature_id].
    replace (String.eqb "blocked" "available") with false by reflexivity.
    rewrite andb_false_r. reflexivity.
  - exact Hw.
Qed.

(** X11.  After the block sweep the allocator comes back empty-handed
    only when the feature has no available convoy at all: the convoy it
    tries first has its dependencies done. *)
Theorem allocate_after_block_sweep (now now' feature_id agent_id : string) (db : DB) :
  let db1 := (ConvoyAllocator.update_blocked_convoys_status now feature_id db).2 in
  (ConvoyAllocator.allocate_next_convoy now' feature_id agent_id db1).1 = Return None
  <-> (forall id c, convoys db1 !! id = Some c -> c_feature_id c = feature_id ->
         c_status c <> "available").
Proof.
  cbv zeta.
  pose proof (block_sweep_leaves_no_waiting now feature_id db) as Hclean. cbv zeta in Hclean.
  set (db1 := (ConvoyAllocator.update_blocked_convoys_status now feature_id db).2) in *.
  destruct (allocate_next_convoy_eq now' feature_id agent_id db1)
    as [[Hnil ->]|(id & c & rest & Hsort & Hrow & Hf & Hs & ->)].
  - split; [|reflexivity]. intros _ id c Hc Hfe Hs.
    assert (Hin : (id, c) ∈ StateManager.select_convoys feature_id (Some "available") db1)
      by (apply select_convoys_status_elem_of; [discriminate|]; auto).
    rewrite Hnil in Hin. apply elem_of_nil in Hin. contradiction.
  - pose proof (Hclean id c Hrow) as Hw. unfold waiting in Hw.
    rewrite Hf, Hs, !String.eqb_refl in Hw. simpl in Hw.
    destruct (ConvoyAllocator.dependencies_met db1 id); [|discriminate].
    split; [discriminate|]. intros Hnone. exfalso. exact (Hnone id c Hrow Hf Hs).
Qed.

(** X12.  Without the sweep the allocator stalls on its first
    candidate: when the convoy that comes first in (priority,
    created_at) order waits for a dependency, [allocate_next_convoy]
    returns [None] and changes nothing, whatever other convoys of the
    feature are ready. *)
Theorem allocate_next_convoy_stalls_on_first
    (now feature_id agent_id id : string) (db : DB) (c : Convoy) :
  convoys db !! id = Some c -> c_feature_id c = feature_id ->
  c_status c = "available" ->
  ConvoyAllocator.dependencies_met db id = false ->
  (forall id' c', convoys db !! id' = Some c' -> c_feature_id c' = feature_id ->
     c_status c' = "available" -> id' <> id -> ~ served_first c' c) ->
  ConvoyAllocator.allocate_next_convoy now feature_id agent_id db = (Return None, db).
Proof.
  intros Hrow Hf Hs Hunmet Hfirst.
  assert (Hin : (id, c) ∈ StateManager.select_convoys feature_id (Some "available") db)
    by (apply select_convoys_status_elem_of; [discriminate|]; auto).
  destruct (allocate_next_convoy_eq now feature_id agent_id db)
    as [[Hnil _]|(id0 & c0 & rest & Hsort & Hrow0 & Hf0 & Hs0 & ->)].
  - rewrite Hnil in Hin. apply elem_of_nil in Hin. contradiction.
  - destruct (decide (id0 = id)) as [->|Hne].
    + rewrite Hunmet. reflexivity.
    + exfalso. apply (Hfirst id0 c0 Hrow0 Hf0 Hs0 Hne).
      apply (by_allocation_key_served_first (id0, c0) (id, c)).
      apply (sort_by_head_least ConvoyAllocator.by_allocation_key
               by_allocation_key_total by_allocation_key_trans _ _ _ Hsort).
      exact Hin.
Qed.

Lemma allocate_next_convoy_stalls_on_first_witness :
  ConvoyAllocator.allocate_next_convoy "2026-01-05 10:00:00" "F1" "dev-001" db_head_waits
  = (Return None, db_head_waits)
  /\ ConvoyAllocator.dependencies_met db_head_waits "C_b" = true.
Proof.
  split; [|reflexivity].
  apply (allocate_next_convoy_stalls_on_first "2026-01-05 10:00:00" "F1" "dev-001" "C_a"
           db_head_waits
           (mkConvoy "F1" "US1" "P1" "available" ["src/a.py"] (Some ["C_b"]) None
              "2026-01-05 09:00:00" None None)); try reflexivity.
  intros id' c' Hc' _ _ Hne Hserved.
  apply elem_of_map_to_list in Hc'.
  replace (map_to_list (convoys db_head_waits))
    with [("C_a", mkConvoy "F1" "US1" "P1" "available" ["src/a.py"] (Some ["C_b"]) None
                    "2026-01-05 09:00:00" None None);
          ("C_b", mkConvoy "F1" "US2" "P2" "available" ["src/b.py"] (Some []) None
                    "2026-01-05 09:00:01" None None)] in Hc'
    by (vm_compute; reflexivity).
  apply elem_of_cons in Hc' as [Heq|Hc'].
  - inversion Heq. congruence.
  - apply list_elem_of_singleton in Hc'. inversion Hc'; subst.
    destruct Hserved as [Hlt|[Heq _]]; vm_compute in Hlt || vm_compute in Heq;
      discriminate.
Defined.

(** ** The report of blocked convoys *)

Lemma blocking_not_done (db : DB) (dep_id : string) :
  ConvoyAllocator.blocking db dep_id = true ->
  ConvoyAllocator.dependency_done db dep_id = false.
Proof.
  unfold ConvoyAllocator.blocking, ConvoyAllocator.dependency_done.
  destruct (convoys db !! dep_id) as [d|]; [|discriminate].
  destruct (String.eqb (c_status d) "done"); [discriminate|reflexivity].
Qed.

Lemma blocking_iff (db : DB) (dep_id : string) :
  ConvoyAllocator.blocking db dep_id = true
  <-> exists d, convoys db !! dep_id = Some d /\ c_status d <> "done".
Proof.
  unfold ConvoyAllocator.blocking.
  destruct (convoys db !! dep_id) as [d|].
  - destruct (String.eqb_spec (c_status d) "done") as [Hd|Hd]; simpl.
    + split; [discriminate|]. intros (d' & [= <-] & Hnd). contradiction.
    + split; [eauto|reflexivity].
  - split; [discriminate|]. intros (d' & Hd & _). discriminate.
Qed.

(** The test on [check_convoy_dependencies_met] adds nothing to the
    report: a convoy with a blocking dependency never passes it. *)
Lemma blocked_entry_Some (db : DB) (id : string) (c : Convoy)
    (entry : ConvoyAllocator.BlockedConvoy) :
  convoys db !! id = Some c ->
  ConvoyAllocator.blocked_entry db (id, c) = Some entry <->
  entry = ConvoyAllocator.mkBlockedConvoy id
            (List.filter (ConvoyAllocator.blocking db) (default [] (c_dependencies c)))
  /\ List.filter (ConvoyAllocator.blocking db) (default [] (c_dependencies c)) <> [].
Proof.
  intros Hc. unfold ConvoyAllocator.blocked_entry. cbn [fst snd].
  set (blocking_deps :=
         List.filter (ConvoyAllocator.blocking db) (default [] (c_dependencies c))).
  split.
  - destruct (negb (ConvoyAllocator.dependencies_met db id)); [|discriminate].
    destruct blocking_deps as [|d l] eqn:Hb; [discriminate|].
    intros [= <-]. split; [reflexivity|discriminate].
  - intros [-> Hne].
    assert (Hunmet : ConvoyAllocator.dependencies_met db id = false).
    { destruct blocking_deps as [|d l] eqn:Hb; [contradiction|].
      assert (Hd : In d blocking_deps) by (rewrite Hb; left; reflexivity).
      apply filter_In in Hd as [Hin Hblocking].
      unfold ConvoyAllocator.dependencies_met. rewrite Hc.
      destruct (c_dependencies c) as [deps|]; [|contradiction].
      simpl in Hin.
      destruct (forallb (ConvoyAllocator.dependency_done db) deps) eqn:Hall;
        [|reflexivity].
      rewrite forallb_forall in Hall. specialize (Hall d Hin).
      rewrite (blocking_not_done db d Hblocking) in Hall. discriminate. }
    rewrite Hunmet. simpl.
    destruct blocking_deps; [contradiction|reflexivity].
Qed.

(** X13.  [get_blocked_convoys] only reads.  It reports an available
    convoy of the feature exactly when one of its dependencies exists
    and is not done, and lists those dependencies in the order of the
    convoy's dependency list.  A dependency id that names no convoy is
    never listed, so a convoy that waits only for such ids is left out
    of the report although the block sweep marks it. *)
Theorem get_blocked_convoys_reports_existing_blockers (feature_id : string) (db : DB) :
  exists report,
    ConvoyAllocator.get_blocked_convoys feature_id db = (Return report, db)
    /\ (forall entry, entry ∈ report <->
          exists c,
            convoys db !! ConvoyAllocator.convoy_id entry = Some c
            /\ c_feature_id c = feature_id /\ c_status c = "available"
            /\ ConvoyAllocator.blocked_by entry
               = List.filter (ConvoyAllocator.blocking db) (default [] (c_dependencies c))
            /\ ConvoyAllocator.blocked_by entry <> [])
    /\ (forall entry dep, entry ∈ report -> dep ∈ ConvoyAllocator.blocked_by entry ->
          exists d, convoys db !! dep = Some d /\ c_status d <> "done")
    /\ (forall entry c, entry ∈ report ->
          convoys db !! ConvoyAllocator.convoy_id entry = Some c ->
          waiting db feature_id (ConvoyAllocator.convoy_id entry) c = true).
Proof.
  unfold ConvoyAllocator.get_blocked_convoys, StateManager.list_convoys_by_feature,
    bind, query.
  set (rows := StateManager.select_convoys feature_id (Some "available") db).
  assert (Hmem : forall r, r ∈ rows <->
            convoys db !! r.1 = Some r.2 /\ c_feature_id r.2 = feature_id
            /\ c_status r.2 = "available").
  { intros r. apply select_convoys_status_elem_of. discriminate. }
  assert (Hrep : forall entry,
            entry ∈ omap (ConvoyAllocator.blocked_entry db) rows <->
            exists c,
              convoys db !! ConvoyAllocator.convoy_id entry = Some c
              /\ c_feature_id c = feature_id /\ c_status c = "available"
              /\ ConvoyAllocator.blocked_by entry
                 = List.filter (ConvoyAllocator.blocking db) (default [] (c_dependencies c))
              /\ ConvoyAllocator.blocked_by entry <> []).
  { intros entry. rewrite list_elem_of_omap. split.
    - intros ([id c] & Hin & Hentry).
      apply Hmem in Hin as (Hc & Hf & Hs). simpl in Hc, Hf, Hs.
      apply (blocked_entry_Some db id c entry Hc) in Hentry as [-> Hne].
      exists c. simpl. auto.
    - intros (c & Hc & Hf & Hs & Hby & Hne).
      exists (ConvoyAllocator.convoy_id entry, c). split; [apply Hmem; auto|].
      apply (blocked_entry_Some db _ c entry Hc). rewrite <- Hby.
      split; [destruct entry; reflexivity|exact Hne]. }
  exists (omap (ConvoyAllocator.blocked_entry db) rows).
  split; [reflexivity|]. split; [exact Hrep|]. split.
  - intros entry dep Hin Hdep. apply Hrep in Hin as (c & _ & _ & _ & Hby & _).
    rewrite Hby in Hdep. apply list_elem_of_In, filter_In in Hdep as [_ Hb].
    apply blocking_iff. exact Hb.
  - intros entry c Hin Hc. apply Hrep in Hin as (c' & Hc' & Hf & Hs & Hby & Hne).
    assert (c' = c) by congruence. subst c'.
    unfold waiting. rewrite Hf, Hs, !String.eqb_refl. simpl.
    destruct (ConvoyAllocator.blocked_entry db (ConvoyAllocator.convoy_id entry, c))
      as [e|] eqn:He.
    + unfold ConvoyAllocator.blocked_entry in He. cbn [fst] in He.
      destruct (negb (ConvoyAllocator.dependencies_met db (ConvoyAllocator.convoy_id entry)));
        [reflexivity|discriminate].
    + assert (Hsome : ConvoyAllocator.blocked_entry db (ConvoyAllocator.convoy_id entry, c)
                      = Some entry).
      { apply (blocked_entry_Some db _ c entry Hc). rewrite <- Hby.
        split; [destruct entry; reflexivity|exact Hne]. }
      congruence.
Qed.

(** A convoy that names a dependency which does not exist: the sweep
    blocks it, the report does not mention it. *)
Example missing_dependency_blocks_without_report :
  let db :=
    with_convoys db_F1
      {[ "C_x" := mkConvoy "F1" "US1" "P1" "available" ["src/x.py"] (Some ["C_gone"]) None
                    "2026-01-05 09:00:00" None None ]} in
  (ConvoyAllocator.get_blocked_convoys "F1" db).1 = Return []
  /\ (ConvoyAllocator.update_blocked_convoys_status "2026-01-05 10:00:00" "F1" db).1
     = Return 1.
Proof. split; vm_compute; reflexivity. Qed.

(** ** The unblock sweep, run twice *)

Lemma swept_dependencies_met_eq (db db' : DB) :
  swept db db' ->
  forall id, ConvoyAllocator.dependencies_met db' id = ConvoyAllocator.dependencies_met db id.
Proof.
  intros Hsw. apply dependencies_met_ext; intros id; specialize (Hsw id);
    unfold ConvoyAllocator.dependency_done;
    destruct (convoys db !! id) as [c|], (convoys db' !! id) as [c'|];
    try contradiction; try reflexivity;
    destruct Hsw as [->|(Hnd & Hav & _ & Hdeps)]; try reflexivity; simpl.
  - rewrite Hdeps. reflexivity.
  - rewrite Hav. destruct (String.eqb_spec (c_status c) "done"); [contradiction|reflexivity].
Qed.

Lemma unblock_loop_nothing_to_do (now : string) (rows : list (string * Convoy))
    (count : Z) (db : DB) :
  (forall r, r ∈ rows -> ConvoyAllocator.dependencies_met db r.1 = false) ->
  ConvoyAllocator.unblock_loop now rows count db = (Return count, db).
Proof.
  induction rows as [|r rows IH]; intros Hall; [reflexivity|].
  cbn [ConvoyAllocator.unblock_loop].
  unfold bind at 1. unfold ConvoyAllocator.check_convoy_dependencies_met at 1.
  unfold query at 1. cbv beta iota.
  rewrite (Hall r (list_elem_of_here _ _)).
  apply IH. intros r' Hr'. apply Hall, list_elem_of_further, Hr'.
Qed.

(** X14.  A second unblock sweep finds nothing to do: it returns 0 and
    leaves the database as the first sweep left it, and every convoy of
    the feature that is still blocked waits for a dependency that is
    missing or not done. *)
Theorem unblock_dependent_convoys_idempotent (now now' completed : string) (db : DB) :
  let db1 := (ConvoyAllocator.unblock_dependent_convoys now completed db).2 in
  ConvoyAllocator.unblock_dependent_convoys now' completed db1 = (Return 0, db1)
  /\ (forall cc id c1,
        convoys db !! completed = Some cc ->
        convoys db1 !! id = Some c1 -> c_feature_id c1 = c_feature_id cc ->
        c_status c1 = "blocked" ->
        ConvoyAllocator.dependencies_met db1 id = false).
Proof.
  cbv zeta.
  destruct (convoys db !! completed) as [cc|] eqn:Hcc.
  2:{ assert (Hrun : forall t, ConvoyAllocator.unblock_dependent_convoys t completed db
                               = (Return 0, db)).
      { intros t. unfold ConvoyAllocator.unblock_dependent_convoys, StateManager.get_convoy,
          bind, query. rewrite Hcc. reflexivity. }
      rewrite (Hrun now). cbn [snd]. split; [apply Hrun|]. intros cc id c1 Hcc'. discriminate. }
  assert (Hunfold : forall t db0 cc0, convoys db0 !! completed = Some cc0 ->
            ConvoyAllocator.unblock_dependent_convoys t completed db0
            = ConvoyAllocator.unblock_loop t
                (StateManager.select_convoys (c_feature_id cc0) (Some "blocked") db0) 0 db0).
  { intros t db0 cc0 H0.
    unfold ConvoyAllocator.unblock_dependent_convoys, StateManager.get_convoy,
      StateManager.list_convoys_by_feature, bind, query. rewrite H0. reflexivity. }
  rewrite (Hunfold now db cc Hcc).
  set (rows := StateManager.select_convoys (c_feature_id cc) (Some "blocked") db).
  destruct (unblock_loop_swept now rows 0 db)
    as (n & db' & Hrun & Hsw & _ & _ & _ & _ & Hav).
  { intros [id r] Hin c0 Hc0. subst rows.
    apply select_convoys_status_elem_of in Hin as (Hrow & _ & Hst); [|discriminate].
    simpl in *. assert (c0 = r) by congruence. subst. rewrite Hst. discriminate. }
  rewrite Hrun. cbn [snd].
  assert (Hstill : forall id c1,
            convoys db' !! id = Some c1 -> c_feature_id c1 = c_feature_id cc ->
            c_status c1 = "blocked" ->
            ConvoyAllocator.dependencies_met db' id = false).
  { intros id c1 Hc1 Hf Hs.
    destruct (ConvoyAllocator.dependencies_met db' id) eqn:Hmet; [|reflexivity].
    exfalso. pose proof (Hsw id) as Hid. rewrite Hc1 in Hid.
    destruct (convoys db !! id) as [c|] eqn:Hc; [|contradiction].
    destruct Hid as [Heq|(_ & Havail & _)]; [|congruence]. subst c1.
    destruct (Hav id) as (c'' & Hc'' & Hs'').
    - apply list_elem_of_fmap. exists (id, c). split; [reflexivity|]. subst rows.
      apply select_convoys_status_elem_of; [discriminate|]. auto.
    - rewrite <- (swept_dependencies_met_eq db db' Hsw). exact Hmet.
    - congruence. }
  split.
  - pose proof (Hsw completed) as Hid. rewrite Hcc in Hid.
    destruct (convoys db' !! completed) as [cc'|] eqn:Hcc'; [|contradiction].
    assert (Hfe : c_feature_id cc' = c_feature_id cc)
      by (destruct Hid as [->|(_ & _ & ? & _)]; auto).
    rewrite (Hunfold now' db' cc' Hcc'), Hfe.
    apply unblock_loop_nothing_to_do. intros [id c1] Hin.
    apply select_convoys_status_elem_of in Hin as (Hc1 & Hf & Hs); [|discriminate].
    simpl in *. exact (Hstill id c1 Hc1 Hf Hs).
  - intros cc0 id c1 [= <-]. apply Hstill.
Qed.

(** ** Stages of the gate runner and the agents that run them *)

(** X15.  A stage passes exactly when each of its gates is clean: every
    gate of [review] and [merge] and the coverage gate of [tests] must
    finish with PASS or SKIP, a crash of one of them fails the stage,
    while a crash of the mutation gate does not.  Any other stage name
    runs no gate and passes. *)
Theorem stage_passes_iff_gates_clean
    (tools : QualityGates.GateType -> QualityGates.tool_run) (stage : string) :
  QualityGates.all_gates_passed (QualityGates.run_all_gates tools stage)
  = if String.eqb stage "review"
    then gate_clean tools QualityGates.LINTING true
         && gate_clean tools QualityGates.TYPE_CHECKING true
         && gate_clean tools QualityGates.COMPLEXITY true
    else if String.eqb stage "tests"
    then gate_clean tools QualityGates.COVERAGE true
         && gate_clean tools QualityGates.MUTATION false
    else if String.eqb stage "merge"
    then gate_clean tools QualityGates.SAST true
         && gate_clean tools QualityGates.DEPENDENCY_SCAN true
         && gate_clean tools QualityGates.SECRET_DETECTION true
    else true.
Proof.
  unfold QualityGates.run_all_gates, QualityGates.run_gate, gate_clean.
  destruct (String.eqb stage "review").
  - destruct (tools QualityGates.LINTING) as [r1|e1],
      (tools QualityGates.TYPE_CHECKING) as [r2|e2],
      (tools QualityGates.COMPLEXITY) as [r3|e3]; cbn;
      repeat match goal with
             | |- context [QualityGates.status ?r] => destruct (QualityGates.status r)
             end; reflexivity.
  - destruct (String.eqb stage "tests").
    + destruct (tools QualityGates.COVERAGE) as [r1|e1],
        (tools QualityGates.MUTATION) as [r2|e2]; cbn;
        repeat match goal with
               | |- context [QualityGates.status ?r] => destruct (QualityGates.status r)
               end; reflexivity.
    + destruct (String.eqb stage "merge"); [|reflexivity].
      destruct (tools QualityGates.SAST) as [r1|e1],
        (tools QualityGates.DEPENDENCY_SCAN) as [r2|e2],
        (tools QualityGates.SECRET_DETECTION) as [r3|e3]; cbn;
        repeat match goal with
               | |- context [QualityGates.status ?r] => destruct (QualityGates.status r)
               end; reflexivity.
Qed.



Lemma status_step_eq {A} (v : A) (now uuid task_id status agent_id event_type : string)
    (payload : list (string * json)) (db : DB) (t : Task) :
  tasks db !! task_id = Some t ->
  events db !! uuid = None ->
  member status TASK_STATUSES = true ->
  (run StateManager.update_task_status now task_id status None then
   run StateManager.publish_event now uuid agent_id event_type payload then ret v) db
  = (Return v,
     mkDB (features db) (convoys db)
       (<[task_id := StateManager.set_task_status now status None t]> (tasks db))
       (<[uuid := mkEvent agent_id event_type payload "pending" now None]> (events db))
       (agent_sessions db)).
Proof.
  intros Ht Hfresh Hs. unfold bind at 1.
  rewrite (update_task_status_ok now task_id status None db _ Ht Hs).
  unfold bind, ret. rewrite publish_event_fresh by exact Hfresh.
  unfold with_events, with_tasks. simpl. do 2 f_equal.
  apply map_eq. intros k. destruct (decide (k = task_id)) as [->|Hne].
  - rewrite lookup_alter_eq, lookup_insert_eq, Ht. reflexivity.
  - rewrite lookup_alter_ne, lookup_insert_ne by congruence. reflexivity.
Qed.





(** ** The supervisor's failure policy *)



(** The reason text of an escalation: the third failure of task T2 of
    scenario S2. *)
Example escalation_reason_text :
  t_failure_reason
    <$> tasks (ManagerAgent._handle_agent_failure None "2026-01-05 11:00:00" "e-9"
                 "dev-001" "stuck" (Some "T2") db_S2).2 !! "T2"
  = Some (Some "Escalated after 3 failures (stuck)").
Proof. vm_compute. reflexivity. Qed.

(** ** The sweeps of the health monitor *)






Example check_hung_agents_on_two_sessions :
  (HealthMonitor.check_hung_agents (fun _ => true) "2026-01-05T10:00:00" db_sessions).1
  = Return ["dev-001"].
Proof. vm_compute. reflexivity. Qed.




Lemma long_tasks_elem_of (threshold_time : string) (db : DB) (id : string) (t : Task) :
  (id, t) ∈ HealthMonitor.long_tasks threshold_time db <->
  tasks db !! id = Some t
  /\ member (t_status t) ["in_progress"; "in_review"; "in_tests"; "in_docs"] = true
  /\ exists started_at, t_started_at t = Some started_at
                        /\ String.ltb started_at threshold_time = true.
Proof.
  unfold HealthMonitor.long_tasks.
  rewrite list_elem_of_filter, elem_of_map_to_list. simpl.
  rewrite andb_True, !Is_true_true.
  destruct (t_started_at t) as [s|].
  - split.
    + intros [[Hm Hlt] Ht]. eauto.
    + intros (Ht & Hm & s' & [= <-] & Hlt). auto.
  - split.
    + intros [[_ Hf] _]. discriminate.
    + intros (_ & _ & s' & Hs & _). discriminate.
Qed.

Lemma stuck_loop_eq (is_isoformat : string -> bool) (rows : list (string * Task)) :
  forall (stuck : list HealthMonitor.StuckTask) (db : DB),
    (forall r, r ∈ rows -> is_isoformat (default "" (t_started_at r.2)) = true) ->
    HealthMonitor.stuck_loop is_isoformat rows stuck db
    = (Return (stuck ++ map stuck_entry rows)%list,
       with_agent_sessions db
         (foldl (fun m id => alter (HealthMonitor.with_status "stuck") id m)
                (agent_sessions db) (holders rows))).
Proof.
  induction rows as [|r rows IH]; intros stuck db Hiso.
  - simpl. unfold ret. rewrite app_nil_r, with_agent_sessions_same. reflexivity.
  - assert (Hrest : forall r', r' ∈ rows ->
              is_isoformat (default "" (t_started_at r'.2)) = true)
      by (intros r' Hr'; apply Hiso, list_elem_of_further, Hr').
    pose proof (Hiso r (list_elem_of_here _ _)) as Hr.
    destruct r as [id t]. cbn [fst snd] in Hr.
    cbn [HealthMonitor.stuck_loop fst snd]. rewrite Hr.
    unfold holders. cbn [omap list_omap map fst snd].
    unfold stuck_entry at 1. cbn [fst snd].
    destruct (t_assignee t) as [a|].
    + destruct (truthy (Some a)).
      * unfold bind at 1. unfold HealthMonitor._mark_stuck, execute.
        rewrite (IH _ _ Hrest), <- app_assoc. reflexivity.
      * rewrite (IH _ _ Hrest), <- app_assoc. reflexivity.
    + cbn [truthy]. rewrite (IH _ _ Hrest), <- app_assoc. reflexivity.
Qed.




(** ** Two clocks in one comparison *)

Lemma space_before_T (date time time' : string) :
  String.ltb (date ++ " " ++ time) (date ++ "T" ++ time') = true.
Proof.
  unfold String.ltb. induction date as [|c date IH]; simpl.
  - reflexivity.
  - rewrite ascii_compare_refl. exact IH.
Qed.

(** X22.  The threshold of [check_stuck_tasks] is the text of Python's
    [isoformat], which puts [T] between date and time, while
    [started_at] is written by SQLite's [datetime('now')], which puts a
    space there.  The comparison is one of texts, so a task claimed on
    the date of the threshold is reported as stuck whatever the two
    times are, also when it was claimed after the threshold. *)
Theorem task_claimed_on_the_threshold_date_is_stuck
    (is_isoformat : string -> bool) (date time time' task_id agent_id : string)
    (db : DB) :
  claimable db task_id ->
  let db1 :=
    (StateManager.claim_task_atomic (date ++ " " ++ time) task_id agent_id db).2 in
  (forall r, r ∈ HealthMonitor.long_tasks (date ++ "T" ++ time') db1 ->
     is_isoformat (default "" (t_started_at r.2)) = true) ->
  exists stuck db2,
    HealthMonitor.check_stuck_tasks is_isoformat (date ++ "T" ++ time') db1
    = (Return stuck, db2)
    /\ HealthMonitor.mkStuckTask task_id (Some agent_id) ∈ stuck.
Proof.
  intros (t & Ht & Hs & Ha). cbv zeta.
  rewrite (claim_task_atomic_claimable _ _ _ _ _ Ht Hs Ha). cbn [snd].
  set (db1 := with_tasks db _). intros Hiso.
  unfold HealthMonitor.check_stuck_tasks, bind, query.
  rewrite (stuck_loop_eq is_isoformat _ _ _ Hiso). cbn [app].
  eexists. eexists. split; [reflexivity|].
  apply list_elem_of_In, in_map_iff.
  exists (task_id, StateManager.claimed (date ++ " " ++ time) agent_id t).
  split; [reflexivity|]. apply list_elem_of_In, long_tasks_elem_of.
  split; [unfold db1, with_tasks; cbn [tasks]; apply lookup_insert_eq|].
  split; [reflexivity|].
  exists (date ++ " " ++ time). split; [reflexivity|apply space_before_T].
Qed.

Lemma task_claimed_on_the_threshold_date_is_stuck_witness :
  exists stuck db2,
    HealthMonitor.check_stuck_tasks (fun _ => true) ("2026-01-05" ++ "T" ++ "09:30:00")
      (StateManager.claim_task_atomic ("2026-01-05" ++ " " ++ "17:45:00") "T1" "dev-001"
         db_todo).2
    = (Return stuck, db2)
    /\ HealthMonitor.mkStuckTask "T1" (Some "dev-001") ∈ stuck.
Proof.
  apply (task_claimed_on_the_threshold_date_is_stuck (fun _ => true) "2026-01-05"
           "17:45:00" "09:30:00" "T1" "dev-001" db_todo).
  - exists (task_in "todo" None 0). repeat split; reflexivity.
  - reflexivity.
Defined.

(** ** The merge queue *)

Lemma sort_by_already_sorted {A} (le : A -> A -> bool) (l : list A) :
  (forall x y, x ∈ l -> y ∈ l -> le x y = true) -> sort_by le l = l.
Proof.
  induction l as [|x l IH]; intros Hall; [reflexivity|].
  unfold sort_by in *. cbn [foldr]. rewrite IH.
  - destruct l as [|y l']; [reflexivity|]. simpl.
    rewrite Hall; [reflexivity|apply list_elem_of_here|].
    apply list_elem_of_further, list_elem_of_here.
  - intros a b Ha Hb. apply Hall; apply list_elem_of_further; assumption.
Qed.

Lemma select_tasks_NoDup (convoy_id : string) (status : option string) (db : DB) :
  NoDup (StateManager.select_tasks convoy_id status db).*1.
Proof.
  unfold StateManager.select_tasks.
  destruct (truthy status); rewrite sort_by_Permutation;
    (eapply sublist_NoDup; [|apply fmap_sublist, sublist_filter]);
    apply NoDup_fst_map_to_list.
Qed.

(** A stable sort: rows that the order cannot tell apart keep their
    places relative to each other. *)
Lemma insert_by_filter {A} (le : A -> A -> bool) (P : A -> Prop)
    `{!forall x, Decision (P x)} (x : A) (l : list A) :
  (forall z, P x -> P z -> le x z = true) ->
  filter P (insert_by le x l) = filter P (x :: l).
Proof.
  intros Hle. induction l as [|z l IH]; [reflexivity|].
  cbn [insert_by]. destruct (le x z) eqn:Hxz; [reflexivity|].
  rewrite (filter_cons P z), IH, !(filter_cons P).
  destruct (decide (P x)) as [Hx|Hx], (decide (P z)) as [Hz|Hz]; try reflexivity.
  rewrite (Hle z Hx Hz) in Hxz. discriminate.
Qed.

Lemma sort_by_filter {A} (le : A -> A -> bool) (P : A -> Prop)
    `{!forall x, Decision (P x)} (l : list A) :
  (forall x z, P x -> P z -> le x z = true) ->
  filter P (sort_by le l) = filter P l.
Proof.
  intros Hle. induction l as [|x l IH]; [reflexivity|].
  unfold sort_by in *. cbn [foldr].
  rewrite insert_by_filter by (intros z; apply Hle).
  rewrite !(filter_cons P), IH. reflexivity.
Qed.

Lemma by_completed_at_total (r1 r2 : string * Task) :
  RefineryAgent.by_completed_at r1 r2 = true \/ RefineryAgent.by_completed_at r2 r1 = true.
Proof. apply String.leb_total. Qed.

Lemma by_completed_at_trans (r1 r2 r3 : string * Task) :
  RefineryAgent.by_completed_at r1 r2 = true ->
  RefineryAgent.by_completed_at r2 r3 = true ->
  RefineryAgent.by_completed_at r1 r3 = true.
Proof. apply string_leb_trans. Qed.

(** X23.  [get_merge_queue] only reads.  The queue is a rearrangement
    of the [in_docs] tasks of the convoy as [list_tasks_by_convoy]
    returns them: each of them is listed exactly once and nothing else
    is.  It is in non-decreasing order of the key [completed_at or ""],
    and tasks with the same key keep the order of
    [list_tasks_by_convoy], which is that of [created_at].  So when no
    [in_docs] task of the convoy carries a [completed_at], the queue is
    the list of [list_tasks_by_convoy] itself, in the order of
    [created_at]. *)
Theorem get_merge_queue_creation_order (convoy_id : string) (db : DB) :
  let listed := StateManager.select_tasks convoy_id (Some "in_docs") db in
  exists rows,
    RefineryAgent.get_merge_queue convoy_id db = (Return rows.*1, db)
    /\ rows ≡ₚ listed
    /\ NoDup rows.*1
    /\ (forall id, id ∈ rows.*1 <->
          exists t, tasks db !! id = Some t /\ t_convoy_id t = convoy_id
                    /\ t_status t = "in_docs")
    /\ StronglySorted
         (fun r1 r2 : string * Task =>
            String.leb (default "" (t_completed_at r1.2))
                       (default "" (t_completed_at r2.2)) = true) rows
    /\ (forall key : string,
          filter (fun r : string * Task => default "" (t_completed_at r.2) = key) rows
          = filter (fun r : string * Task => default "" (t_completed_at r.2) = key) listed)
    /\ StronglySorted
         (fun r1 r2 : string * Task =>
            String.leb (t_created_at r1.2) (t_created_at r2.2) = true) listed
    /\ ((forall id t, tasks db !! id = Some t -> t_convoy_id t = convoy_id ->
           t_status t = "in_docs" -> t_completed_at t = None) ->
        rows = listed).
Proof.
  cbv zeta.
  set (listed := StateManager.select_tasks convoy_id (Some "in_docs") db).
  assert (Hmem : forall r, r ∈ listed <->
            tasks db !! r.1 = Some r.2 /\ t_convoy_id r.2 = convoy_id
            /\ t_status r.2 = "in_docs").
  { intros r. apply select_tasks_status_elem_of. discriminate. }
  assert (Hperm : sort_by RefineryAgent.by_completed_at listed ≡ₚ listed)
    by apply sort_by_Permutation.
  exists (sort_by RefineryAgent.by_completed_at listed).
  split; [reflexivity|]. split; [exact Hperm|].
  split; [rewrite Hperm; apply select_tasks_NoDup|].
  split; [|split; [|split; [|split]]].
  - intros id. rewrite Hperm, list_elem_of_fmap. split.
    + intros ([id' t] & -> & Hin). apply Hmem in Hin. exists t. exact Hin.
    + intros (t & Ht). exists (id, t). split; [reflexivity|]. apply Hmem. exact Ht.
  - apply (sort_by_sorted RefineryAgent.by_completed_at
             by_completed_at_total by_completed_at_trans).
  - intros key. apply sort_by_filter. intros r1 r2 H1 H2.
    unfold RefineryAgent.by_completed_at. rewrite H1, H2. apply string_leb_refl.
  - apply select_tasks_status_sorted.
  - intros Hnone. apply sort_by_already_sorted.
    intros [id1 t1] [id2 t2] H1 H2.
    apply Hmem in H1 as (H1 & Hc1 & Hs1). apply Hmem in H2 as (H2 & Hc2 & Hs2).
    simpl in *. unfold RefineryAgent.by_completed_at. simpl.
    rewrite (Hnone id1 t1 H1 Hc1 Hs1), (Hnone id2 t2 H2 Hc2 Hs2). reflexivity.
Qed.

(** In [db_merge_queue] the queue of the first convoy is T6, created at
    08:00, then T5, created at 09:00: the task under test and the task
    of the other convoy are not in it. *)
Lemma get_merge_queue_creation_order_witness :
  RefineryAgent.get_merge_queue "F1-convoy-1" db_merge_queue
  = (Return ["T6"; "T5"], db_merge_queue).
Proof.
  destruct (get_merge_queue_creation_order "F1-convoy-1" db_merge_queue)
    as (rows & Hrun & _ & _ & _ & _ & _ & _ & Hnone).
  rewrite Hrun, Hnone; [vm_compute; reflexivity|].
  intros id t Ht _ _. revert id t Ht.
  apply (bool_decide_unpack
           (map_Forall (fun _ t => t_completed_at t = None) (tasks db_merge_queue))).
  vm_compute. exact I.
Defined.

(** ** Recovery of a developer after a restart *)

Lemma started_later_total (r1 r2 : string * Task) :
  DeveloperAgent.started_later r1 r2 = true \/ DeveloperAgent.started_later r2 r1 = true.
Proof.
  unfold DeveloperAgent.started_later.
  destruct (t_started_at r1.2) as [s1|], (t_started_at r2.2) as [s2|]; auto.
  destruct (String.leb_total s1 s2); auto.
Qed.

Lemma started_later_trans (r1 r2 r3 : string * Task) :
  DeveloperAgent.started_later r1 r2 = true ->
  DeveloperAgent.started_later r2 r3 = true ->
  DeveloperAgent.started_later r1 r3 = true.
Proof.
  unfold DeveloperAgent.started_later.
  destruct (t_started_at r1.2) as [s1|], (t_started_at r2.2) as [s2|],
    (t_started_at r3.2) as [s3|]; auto; try discriminate.
  intros H12 H23. exact (string_leb_trans _ _ _ H23 H12).
Qed.

(** X24.  [recover_state] only reads.  It returns a task exactly when
    the agent is the assignee of a task that is past [todo] and not
    [done]; the task returned is such a task and none of the others was
    started later, a task without [started_at] counting as the
    earliest. *)
Theorem recover_state_latest_held_task (agent_id : string) (db : DB) :
  match DeveloperAgent.recover_state agent_id db with
  | (Return (Some task_id), db') =>
      db' = db
      /\ exists t,
           tasks db !! task_id = Some t /\ t_assignee t = Some agent_id
           /\ member (t_status t) ["in_progress"; "in_review"; "in_tests"; "in_docs"] = true
           /\ forall id' t',
                tasks db !! id' = Some t' -> t_assignee t' = Some agent_id ->
                member (t_status t') ["in_progress"; "in_review"; "in_tests"; "in_docs"]
                = true ->
                DeveloperAgent.started_later (task_id, t) (id', t') = true
  | (Return None, db') =>
      db' = db
      /\ forall id' t',
           tasks db !! id' = Some t' -> t_assignee t' = Some agent_id ->
           member (t_status t') ["in_progress"; "in_review"; "in_tests"; "in_docs"] = false
  | (Raise _, _) => False
  end.
Proof.
  unfold DeveloperAgent.recover_state, bind, query, DeveloperAgent.held_tasks.
  set (held := filter _ (map_to_list (tasks db))).
  assert (Hheld : forall id t, (id, t) ∈ held <->
            tasks db !! id = Some t /\ t_assignee t = Some agent_id
            /\ member (t_status t) ["in_progress"; "in_review"; "in_tests"; "in_docs"]
               = true).
  { intros id t. unfold held. rewrite list_elem_of_filter, elem_of_map_to_list. simpl.
    rewrite andb_True, bool_decide_spec, Is_true_true. tauto. }
  destruct (sort_by DeveloperAgent.started_later held) as [|[id t] rest] eqn:Hsort.
  - cbn. split; [reflexivity|]. intros id' t' Ht' Ha'.
    destruct (member (t_status t') ["in_progress"; "in_review"; "in_tests"; "in_docs"])
      eqn:Hm; [|exact Hm]. exfalso.
    assert (Hin : (id', t') ∈ held) by (apply Hheld; auto).
    apply (sort_by_elem_of DeveloperAgent.started_later) in Hin.
    rewrite Hsort in Hin. apply elem_of_nil in Hin. contradiction.
  - cbn. split; [reflexivity|]. exists t.
    assert (Hin : (id, t) ∈ held).
    { apply (sort_by_elem_of DeveloperAgent.started_later). rewrite Hsort.
      apply list_elem_of_here. }
    apply Hheld in Hin as (Ht & Ha & Hm).
    split; [exact Ht|]. split; [exact Ha|]. split; [exact Hm|].
    intros id' t' Ht' Ha' Hm'.
    apply (sort_by_head_least DeveloperAgent.started_later
             started_later_total started_later_trans _ _ _ Hsort).
    apply Hheld. auto.
Qed.

(** ** A new task and its first claim *)



(** ** Closing a feature *)

Lemma update_feature_status_ok (now feature_id status : string) (db : DB) (f : Feature) :
  features db !! feature_id = Some f ->
  member status FEATURE_STATUSES = true ->
  StateManager.update_feature_status now feature_id status db
  = (Return tt,
     with_features db
       (<[feature_id := StateManager.set_feature_status now status f]> (features db))).
Proof.
  intros Hf Hs. unfold StateManager.update_feature_status. rewrite Hf, Hs.
  do 2 f_equal. apply map_eq. intros k.
  destruct (decide (k = feature_id)) as [->|Hne].
  - rewrite lookup_alter_eq, lookup_insert_eq, Hf. reflexivity.
  - rewrite lookup_alter_ne, lookup_insert_ne by congruence. reflexivity.
Qed.


(** ** Resuming work *)



(** ** The manager's polling of ready features *)

Lemma select_features_elem_of (status : string) (db : DB) (r : string * Feature) :
  r ∈ StateManager.select_features status db <->
  features db !! r.1 = Some r.2 /\ f_status r.2 = status.
Proof.
  unfold StateManager.select_features.
  rewrite sort_by_elem_of, list_elem_of_filter.
  destruct r as [id f]. rewrite elem_of_map_to_list. simpl.
  rewrite Is_true_true, String.eqb_eq. tauto.
Qed.

Lemma select_features_NoDup (status : string) (db : DB) :
  NoDup (StateManager.select_features status db).*1.
Proof.
  unfold StateManager.select_features. rewrite sort_by_Permutation.
  eapply sublist_NoDup; [|apply fmap_sublist, sublist_filter].
  apply NoDup_fst_map_to_list.
Qed.

(** One turn of the loop of [_poll_features]. *)
Lemma process_feature_eq (tasks_file_exists : string -> bool) (now fid : string)
    (f f0 : Feature) (db : DB) :
  features db !! fid = Some f0 ->
  ManagerAgent.process_feature tasks_file_exists now (fid, f) db
  = (Return tt,
     if tasks_file_exists (f_spec_path f)
        && bool_decide (convoys db !! (fid ++ "-convoy-1") = None)
     then mkDB (<[fid := StateManager.set_feature_status now "in_progress" f0]>
                  (features db))
               (<[fid ++ "-convoy-1" := placeholder now fid]> (convoys db))
               (tasks db) (events db) (agent_sessions db)
     else mkDB (<[fid := StateManager.set_feature_status now "failed"
                           (StateManager.set_feature_status now "in_progress" f0)]>
                  (features db))
               (convoys db) (tasks db) (events db) (agent_sessions db)).
Proof.
  intros Hf. unfold ManagerAgent.process_feature. cbn [fst snd].
  rewrite (update_feature_status_ok now fid "in_progress" db f0 Hf eq_refl).
  set (db1 := with_features db _).
  assert (Hf1 : features db1 !! fid
                = Some (StateManager.set_feature_status now "in_progress" f0))
    by (unfold db1, with_features; cbn [features]; apply lookup_insert_eq).
  assert (Hfail : StateManager.update_feature_status now fid "failed" db1
                  = (Return tt,
                     mkDB (<[fid := StateManager.set_feature_status now "failed"
                                      (StateManager.set_feature_status now "in_progress" f0)]>
                             (features db))
                          (convoys db) (tasks db) (events db) (agent_sessions db))).
  { rewrite (update_feature_status_ok now fid "failed" db1 _ Hf1 eq_refl).
    unfold db1, with_features. cbn [features convoys tasks events agent_sessions].
    rewrite insert_insert_eq. reflexivity. }
  unfold ManagerAgent._create_convoys_from_tasks.
  destruct (tasks_file_exists (f_spec_path f)); cbn [negb andb].
  - unfold StateManager.create_convoy.
    change (convoys db1) with (convoys db).
    destruct (convoys db !! (fid ++ "-convoy-1")) as [c|] eqn:Hc.
    + rewrite bool_decide_eq_false_2 by discriminate. exact Hfail.
    + rewrite bool_decide_eq_true_2 by reflexivity. rewrite Hf1.
      replace (member "available" CONVOY_STATUSES) with true by reflexivity.
      reflexivity.
  - unfold ret. exact Hfail.
Qed.

Lemma string_length_app (s1 s2 : string) :
  String.length (s1 ++ s2) = (String.length s1 + String.length s2)%nat.
Proof. induction s1 as [|c s1 IH]; simpl; [reflexivity|]. rewrite IH. reflexivity. Qed.

Lemma string_app_inj_l (s1 s2 x : string) : s1 ++ x = s2 ++ x -> s1 = s2.
Proof.
  revert s2. induction s1 as [|c s1 IH]; intros [|c' s2] H; simpl in H.
  - reflexivity.
  - apply (f_equal String.length) in H. simpl in H. rewrite !string_length_app in H.
    simpl in H. lia.
  - apply (f_equal String.length) in H. simpl in H. rewrite !string_length_app in H.
    simpl in H. lia.
  - injection H as -> H. f_equal. apply IH. exact H.
Qed.

Lemma poll_loop_spec (tasks_file_exists : string -> bool) (now : string)
    (rows : list (string * Feature)) :
  forall db : DB,
    NoDup rows.*1 ->
    (forall r, r ∈ rows -> features db !! r.1 = Some r.2) ->
    exists db',
      ManagerAgent.poll_loop tasks_file_exists now rows db = (Return tt, db')
      /\ (forall id, id ∉ rows.*1 -> features db' !! id = features db !! id)
      /\ (forall r, r ∈ rows ->
            if started tasks_file_exists db r.1 r.2
            then features db' !! r.1
                 = Some (StateManager.set_feature_status now "in_progress" r.2)
                 /\ convoys db' !! (r.1 ++ "-convoy-1") = Some (placeholder now r.1)
            else features db' !! r.1
                 = Some (StateManager.set_feature_status now "failed"
                           (StateManager.set_feature_status now "in_progress" r.2))
                 /\ convoys db' !! (r.1 ++ "-convoy-1") = convoys db !! (r.1 ++ "-convoy-1"))
      /\ (forall k, (forall r, r ∈ rows -> k <> r.1 ++ "-convoy-1") ->
            convoys db' !! k = convoys db !! k)
      /\ (forall k c, convoys db !! k = Some c -> convoys db' !! k = Some c)
      /\ tasks db' = tasks db /\ events db' = events db
      /\ agent_sessions db' = agent_sessions db.
Proof.
  induction rows as [|[fid f] rows IH]; intros db Hnd Hrows.
  - exists db. split; [reflexivity|]. split; [reflexivity|].
    split; [intros r Hr; apply elem_of_nil in Hr; contradiction|].
    split; [reflexivity|]. split; [auto|]. repeat split; reflexivity.
  - rewrite fmap_cons in Hnd. apply NoDup_cons in Hnd as [Hfresh Hnd]. cbn [fst] in Hfresh.
    pose proof (Hrows (fid, f) (list_elem_of_here _ _)) as Hf. cbn [fst snd] in Hf.
    cbn [ManagerAgent.poll_loop]. unfold bind at 1.
    rewrite (process_feature_eq tasks_file_exists now fid f f db Hf).
    fold (started tasks_file_exists db fid f).
    set (db1 := if started tasks_file_exists db fid f then _ else _).
    assert (Hdistinct : forall r', r' ∈ rows -> r'.1 <> fid).
    { intros r' Hr' Heq. apply Hfresh. rewrite <- Heq.
      apply list_elem_of_fmap. exists r'. auto. }
    assert (Hother : forall id, id <> fid -> features db1 !! id = features db !! id).
    { intros id Hne. unfold db1. destruct (started _ _ _ _); cbn [features];
        apply lookup_insert_ne; congruence. }
    assert (Hconv1 : forall k, k <> fid ++ "-convoy-1" ->
              convoys db1 !! k = convoys db !! k).
    { intros k Hne. unfold db1. destruct (started _ _ _ _); cbn [convoys];
        [apply lookup_insert_ne; congruence|reflexivity]. }
    assert (Hgrow1 : forall k c, convoys db !! k = Some c -> convoys db1 !! k = Some c).
    { intros k c Hk. destruct (decide (k = fid ++ "-convoy-1")) as [->|Hne].
      - unfold db1. destruct (started tasks_file_exists db fid f) eqn:Hst; [|exact Hk].
        unfold started in Hst. apply andb_prop in Hst as [_ Hnone].
        apply bool_decide_eq_true_1 in Hnone. congruence.
      - rewrite Hconv1; [exact Hk|exact Hne]. }
    assert (Hstarted1 : forall r', r' ∈ rows ->
              started tasks_file_exists db1 r'.1 r'.2 = started tasks_file_exists db r'.1 r'.2).
    { intros r' Hr'. unfold started. rewrite Hconv1; [reflexivity|].
      intros Heq. apply string_app_inj_l in Heq. exact (Hdistinct r' Hr' Heq). }
    destruct (IH db1 Hnd) as (db' & Hrun & Hout & Hin & Hconv & Hgrow & Ht & He & Ha).
    { intros r' Hr'. rewrite Hother; [apply Hrows, list_elem_of_further, Hr'|].
      exact (Hdistinct r' Hr'). }
    exists db'. split; [exact Hrun|].
    split; [|split; [|split; [|split; [|split; [|split]]]]].
    + intros id Hnot. rewrite fmap_cons in Hnot. apply not_elem_of_cons in Hnot as [Hne Hnot].
      rewrite (Hout id Hnot). apply Hother. exact Hne.
    + intros r' Hr'. apply elem_of_cons in Hr' as [->|Hr'].
      * cbn [fst snd]. rewrite (Hout fid Hfresh).
        rewrite (Hconv (fid ++ "-convoy-1")).
        2:{ intros r' Hr' Heq. apply string_app_inj_l in Heq.
            exact (Hdistinct r' Hr' (eq_sym Heq)). }
        unfold db1. destruct (started tasks_file_exists db fid f) eqn:Hst;
          cbn [features convoys]; split; try apply lookup_insert_eq; reflexivity.
      * pose proof (Hin r' Hr') as Hr. rewrite (Hstarted1 r' Hr') in Hr.
        destruct (started tasks_file_exists db r'.1 r'.2); [exact Hr|].
        destruct Hr as [Hfl Hc]. split; [exact Hfl|]. rewrite Hc. apply Hconv1.
        intros Heq. apply string_app_inj_l in Heq. exact (Hdistinct r' Hr' Heq).
    + intros k Hk. rewrite Hconv.
      * apply Hconv1. apply (Hk (fid, f)). apply list_elem_of_here.
      * intros r' Hr'. apply Hk, list_elem_of_further, Hr'.
    + intros k c Hk. apply Hgrow, Hgrow1, Hk.
    + rewrite Ht. unfold db1. destruct (started _ _ _ _); reflexivity.
    + rewrite He. unfold db1. destruct (started _ _ _ _); reflexivity.
    + rewrite Ha. unfold db1. destruct (started _ _ _ _); reflexivity.
Qed.

(** What [_poll_features] does, feature by feature. *)
Lemma poll_features_spec (tasks_file_exists : string -> bool) (now : string) (db : DB) :
  exists db',
    ManagerAgent._poll_features tasks_file_exists now db = (Return tt, db')
    /\ (forall id f, features db !! id = Some f -> f_status f <> "ready" ->
          features db' !! id = Some f)
    /\ (forall id f, features db !! id = Some f -> f_status f = "ready" ->
          if started tasks_file_exists db id f
          then features db' !! id
               = Some (StateManager.set_feature_status now "in_progress" f)
               /\ convoys db' !! (id ++ "-convoy-1") = Some (placeholder now id)
          else features db' !! id
               = Some (StateManager.set_feature_status now "failed"
                         (StateManager.set_feature_status now "in_progress" f))
               /\ convoys db' !! (id ++ "-convoy-1") = convoys db !! (id ++ "-convoy-1"))
    /\ (forall id, features db !! id = None -> features db' !! id = None)
    /\ (forall k c, convoys db !! k = Some c -> convoys db' !! k = Some c)
    /\ tasks db' = tasks db /\ events db' = events db
    /\ agent_sessions db' = agent_sessions db.
Proof.
  unfold ManagerAgent._poll_features.
  unfold StateManager.list_features_by_status, bind, query.
  set (rows := StateManager.select_features "ready" db).
  assert (Hmem : forall id f, (id, f) ∈ rows <->
            features db !! id = Some f /\ f_status f = "ready").
  { intros id f. apply (select_features_elem_of "ready" db (id, f)). }
  assert (Hids : forall id, id ∈ rows.*1 <->
            exists f, features db !! id = Some f /\ f_status f = "ready").
  { intros id. rewrite list_elem_of_fmap. split.
    - intros ([id' f] & -> & Hin). exists f. apply Hmem. exact Hin.
    - intros (f & Hf). exists (id, f). split; [reflexivity|]. apply Hmem. exact Hf. }
  destruct (poll_loop_spec tasks_file_exists now rows db)
    as (db' & Hrun & Hout & Hin & _ & Hgrow & Ht & He & Ha).
  { apply select_features_NoDup. }
  { intros [id f] Hr. apply Hmem in Hr. tauto. }
  assert (Hkeep : forall id,
            (forall f, features db !! id = Some f -> f_status f <> "ready") ->
            features db' !! id = features db !! id).
  { intros id Hnr. apply Hout. intros Hid. apply Hids in Hid as (f & Hf & Hs).
    exact (Hnr f Hf Hs). }
  exists db'. split; [exact Hrun|].
  split; [|split; [|split; [|split; [exact Hgrow|auto]]]].
  - intros id f Hf Hs. rewrite Hkeep; [exact Hf|]. intros f0 Hf0. congruence.
  - intros id f Hf Hs. apply (Hin (id, f)). apply Hmem. auto.
  - intros id Hf. rewrite Hkeep; [exact Hf|]. intros f0 Hf0. congruence.
Qed.


Example poll_features_without_tasks_file :
  let db' := (ManagerAgent._poll_features (fun _ => false) "2026-01-05 08:20:00" db_ready).2 in
  f_status <$> features db' !! "F2" = Some "failed"
  /\ f_status <$> features db' !! "F1" = Some "in_progress"
  /\ convoys db' = convoys db_ready.
Proof. repeat split; vm_compute; reflexivity. Qed.

(** X29.  A feature created [ready] under an unused id is taken up by
    the next poll: when its tasks file exists and the id of its
    placeholder convoy is free, it is [in_progress] afterwards, started
    at the time of the poll, and owns the placeholder convoy. *)
Theorem created_feature_is_started_by_the_poll
    (tasks_file_exists : string -> bool)
    (now now' feature_id name spec_path : string) (db : DB) :
  features db !! feature_id = None ->
  convoys db !! (feature_id ++ "-convoy-1") = None ->
  tasks_file_exists spec_path = true ->
  let db1 := (StateManager.create_feature now feature_id name spec_path "ready" db).2 in
  (StateManager.create_feature now feature_id name spec_path "ready" db).1 = Return tt
  /\ exists db2,
       ManagerAgent._poll_features tasks_file_exists now' db1 = (Return tt, db2)
       /\ features db2 !! feature_id
          = Some (mkFeature name spec_path "in_progress" now (Some now') None)
       /\ convoys db2 !! (feature_id ++ "-convoy-1") = Some (placeholder now' feature_id).
Proof.
  intros Hfresh Hfree Hfile. cbv zeta.
  unfold StateManager.create_feature. rewrite Hfresh.
  replace (member "ready" FEATURE_STATUSES) with true by reflexivity.
  cbn [fst snd]. split; [reflexivity|].
  set (db1 := with_features db _).
  destruct (poll_features_spec tasks_file_exists now' db1)
    as (db2 & Hrun & _ & Hready & _).
  exists db2. split; [exact Hrun|].
  assert (Hf : features db1 !! feature_id
               = Some (mkFeature name spec_path "ready" now None None))
    by (unfold db1, with_features; cbn [features]; apply lookup_insert_eq).
  pose proof (Hready feature_id _ Hf eq_refl) as Hr.
  unfold started in Hr. cbn [f_spec_path] in Hr. rewrite Hfile in Hr.
  change (convoys db1) with (convoys db) in Hr.
  rewrite bool_decide_eq_true_2 in Hr by exact Hfree.
  exact Hr.
Qed.

Lemma created_feature_is_started_by_the_poll_witness :
  exists db2,
    ManagerAgent._poll_features (fun _ => true) "2026-01-05 08:20:00"
      (StateManager.create_feature "2026-01-05 08:10:00" "F2" "Feature two" "specs/F2"
         "ready" db_F1).2 = (Return tt, db2)
    /\ features db2 !! "F2"
       = Some (mkFeature "Feature two" "specs/F2" "in_progress" "2026-01-05 08:10:00"
                 (Some "2026-01-05 08:20:00") None)
    /\ convoys db2 !! ("F2" ++ "-convoy-1") = Some (placeholder "2026-01-05 08:20:00" "F2").
Proof.
  apply (created_feature_is_started_by_the_poll (fun _ => true) "2026-01-05 08:10:00"
           "2026-01-05 08:20:00" "F2" "Feature two" "specs/F2" db_F1); reflexivity.
Defined.

(** ** The rejections of the agents *)

(** X30.  [CABAgent.reject_task], [RefineryAgent.reject_merge] and
    [TesterAgent.reject_validation] do the same thing: on an existing
    task, with an unused event id, they set the status to [in_progress]
    whatever it was, send REWORK_NEEDED with the reason to the
    developer, and leave [failure_count] as it is.  They do not ask the
    state machine: a [done] task, which [transition_task_status]
    refuses to move, is reopened by them. *)
Theorem agent_rejections_reopen_without_counting
    (now uuid task_id reason : string) (db : DB) (t : Task) :
  tasks db !! task_id = Some t ->
  events db !! uuid = None ->
  let t' := StateManager.set_task_status now "in_progress" None t in
  let db' :=
    mkDB (features db) (convoys db)
      (<[task_id := t']> (tasks db))
      (<[uuid := mkEvent "developer" "REWORK_NEEDED"
                   [("task_id", JStr task_id); ("reason", JStr reason)]
                   "pending" now None]> (events db))
      (agent_sessions db) in
  CABAgent.reject_task now uuid task_id reason db = (Return tt, db')
  /\ RefineryAgent.reject_merge now uuid task_id reason db = (Return tt, db')
  /\ TesterAgent.reject_validation now uuid task_id reason db = (Return tt, db')
  /\ t_status t' = "in_progress"
  /\ t_failure_count t' = t_failure_count t
  /\ t_failure_reason t' = t_failure_reason t
  /\ (t_status t = "done" ->
      StateManager.transition_task_status now task_id "in_progress" db = (Return false, db)).
Proof.
  intros Ht Hfresh. cbv zeta.
  split; [|split; [|split; [|split; [|split; [|split]]]]]; try reflexivity.
  - apply (status_step_eq tt); auto.
  - apply (status_step_eq tt); auto.
  - apply (status_step_eq tt); auto.
  - intros Hs. rewrite transition_task_status_eq, Ht, Hs. reflexivity.
Qed.

Lemma agent_rejections_reopen_without_counting_witness :
  t_status <$> tasks (TesterAgent.reject_validation "2026-01-05 12:00:00" "e-9" "T9"
                        "Coverage below threshold" db_done).2 !! "T9"
  = Some "in_progress"
  /\ StateManager.transition_task_status "2026-01-05 12:00:00" "T9" "in_progress" db_done
     = (Return false, db_done).
Proof.
  destruct (agent_rejections_reopen_without_counting "2026-01-05 12:00:00" "e-9" "T9"
              "Coverage below threshold" db_done (task_in "done" (Some "dev-001") 0)
              eq_refl eq_refl)
    as (_ & _ & Hrun & _ & _ & _ & Hrefused).
  split; [rewrite Hrun; reflexivity|exact (Hrefused eq_refl)].
Defined.
